(** * sim-read: the SIM/USIM reader's protocol layer and field decoders

    A shallow embedding of [main.py] (class [SIMReader]): the byte decoders
    [decode_iccid], [decode_imsi], [decode_spn], [decode_msisdn],
    [decode_smsp], [decode_plmn], [decode_loci], [decode_acc], [decode_ad],
    [decode_alpha_id], [decode_bcd_number], [decode_gsm7] and [decode_sms];
    the commands [send_apdu], [select_file_gsm], [select_file_usim],
    [read_binary], [read_record] and [select_usim]; the blocks of [read_all]
    with their record loops; and the choice of the reader in [connect].

    Conventions.
    - A Python [int] is a [Z]; [&], [|], [>>], [<<] are [Z.land], [Z.lor],
      [Z.shiftr], [Z.shiftl] (Python integers do not wrap).
    - A byte buffer (a list of ints as pyscard returns it) is a [list Z].
    - A Python [str] is the list of its code points ([pystr]); [lit] turns an
      ASCII literal into one.
    - An indexing [data[i]] is [data.[i]] in the error monad [res]; a
      function that indexes returns [res _], and [Raise IndexError] is the
      Python exception.
    - The card is a deterministic transition function. A method of the
      reader runs in [io]: it threads the session (the card's state, the log
      of the commands sent, the reader's fields) and returns or raises.
    - Prints are left out; a block of [read_all] returns what it would
      decode and print.
    - The library codecs ([bytes.decode], [str.strip], [toHexString]) are
      parameters of the decoders that call them. *)

From Stdlib Require Import ZArith List Bool Lia String Ascii.
From Stdlib Require Import DecimalString.
From Stdlib Require HexadecimalString.
Import ListNotations.
Open Scope Z_scope.

Set Implicit Arguments.

(* ================================================================== *)
(** ** Python values *)

Module Py.

(** A [str]: its code points. *)
Definition pystr := list Z.

Definition lit (s : string) : pystr :=
  map (fun c => Z.of_N (N_of_ascii c)) (list_ascii_of_string s).

(** [str(n)] and [f"{n}"] for an int: its decimal digits. *)
Definition str (n : Z) : pystr := lit (NilZero.string_of_int (Z.to_int n)).

Fixpoint str_eqb (a b : pystr) : bool :=
  match a, b with
  | [], [] => true
  | x :: a', y :: b' => (x =? y) && str_eqb a' b'
  | _, _ => false
  end.

Definition len {A} (l : list A) : Z := Z.of_nat (List.length l).

(** [range(a, b)] and [range(a, b, step)] for a positive step. *)
Definition range (a b : Z) : list Z :=
  map (fun k => a + Z.of_nat k) (seq 0 (Z.to_nat (b - a))).

Definition range_step (a b step : Z) : list Z :=
  map (fun k => a + step * Z.of_nat k) (seq 0 (Z.to_nat ((b - a + step - 1) / step))).

(** Slice bounds as Python normalises them: a negative bound counts from the
    end, and both are clamped to [0, len]. *)
Definition clamp (n i : Z) : Z :=
  if i <? 0 then Z.max 0 (i + n) else Z.min i n.

(** [l[a:b]] *)
Definition slice {A} (l : list A) (a b : Z) : list A :=
  let a' := clamp (len l) a in
  let b' := clamp (len l) b in
  firstn (Z.to_nat (b' - a')) (skipn (Z.to_nat a') l).

(** [l[a:]] and [l[:b]] *)
Definition slice_from {A} (l : list A) (a : Z) : list A := slice l a (len l).
Definition slice_to {A} (l : list A) (b : Z) : list A := slice l 0 b.

(** A [dict] literal and [d.get(k, default)]. *)
Fixpoint dict_get {V} (d : list (Z * V)) (k : Z) (default : V) : V :=
  match d with
  | [] => default
  | (k', v) :: d' => if k =? k' then v else dict_get d' k default
  end.

(** [all(b == 0xFF for b in data)] *)
Definition all_ff (data : list Z) : bool := forallb (fun b => b =? 255) data.

(** Truthiness of a list or a str. *)
Definition truthy {A} (l : list A) : bool :=
  match l with [] => false | _ => true end.

End Py.
Import Py.

(* ================================================================== *)
(** ** Exceptions *)

Inductive exn : Set := IndexError.

Inductive res (A : Type) : Type :=
| Ok (a : A)
| Raise (e : exn).
Arguments Ok {A} a.
Arguments Raise {A} e.

Class Monad (M : Type -> Type) : Type := {
  ret : forall {A}, A -> M A;
  bind : forall {A B}, M A -> (A -> M B) -> M B
}.

Declare Scope monad_scope.
Delimit Scope monad_scope with monad.
Notation "x <- c ;; k" := (bind c (fun x => k))
  (at level 61, c at next level, right associativity) : monad_scope.
Notation "' p <- c ;; k" := (bind c (fun x => let p := x in k))
  (at level 61, p pattern, c at next level, right associativity) : monad_scope.
Notation "c ;; k" := (bind c (fun _ => k))
  (at level 61, right associativity) : monad_scope.
Open Scope monad_scope.

#[export] Instance res_monad : Monad res := {
  ret := fun A a => Ok a;
  bind := fun A B c k => match c with Ok a => k a | Raise e => Raise e end
}.

(** [data[i]]: a negative index counts from the end; out of range raises. *)
Definition index (data : list Z) (i : Z) : res Z :=
  let j := if i <? 0 then i + len data else i in
  if (j <? 0) || (len data <=? j) then Raise IndexError
  else match nth_error data (Z.to_nat j) with
       | Some b => Ok b
       | None => Raise IndexError
       end.
Notation "data .[ i ]" := (index data i) (at level 1, format "data .[ i ]").

(* ================================================================== *)
(** ** Semi-octet decoders *)

(** [low = byte & 0x0F], [high = (byte >> 4) & 0x0F] *)
Definition low_nibble (byte : Z) : Z := Z.land byte 15.
Definition high_nibble (byte : Z) : Z := Z.land (Z.shiftr byte 4) 15.

(** The loop body shared by [decode_iccid], [decode_imsi], [decode_msisdn]
    and [decode_smsp]: append [str(low)] then [str(high)], skipping 0xF. *)
Definition append_semi_octet (acc : pystr) (byte : Z) : pystr :=
  let low := low_nibble byte in
  let high := high_nibble byte in
  let acc := if negb (low =? 15) then acc ++ str low else acc in
  let acc := if negb (high =? 15) then acc ++ str high else acc in
  acc.

(** [decode_iccid] (lines 219-229). *)
Definition decode_iccid (data : list Z) : pystr :=
  fold_left append_semi_octet data [].

(** [decode_imsi] (lines 197-217): [None] below 9 bytes; [data[0]] bounds the
    byte positions visited. *)
Definition imsi_step (data : list Z) (acc : res pystr) (i : Z) : res pystr :=
  imsi <- acc ;;
  if i <? len data then
    byte <- data.[i] ;;
    if i =? 1 then
      let high := high_nibble byte in
      ret (if negb (high =? 15) then imsi ++ str high else imsi)
    else
      ret (append_semi_octet imsi byte)
  else ret imsi.

Definition decode_imsi (data : list Z) : res (option pystr) :=
  if len data <? 9 then ret None
  else
    length <- data.[0] ;;
    imsi <- fold_left (imsi_step data) (range 1 (length + 1)) (ret []) ;;
    ret (Some imsi).

(* ================================================================== *)
(** ** Network identifiers *)

(** One turn of the loop of [decode_plmn] (lines 331-351) over the group
    starts [range(0, len(data), 3)]; [break] ends the recursion, [continue]
    goes on with the list unchanged. *)
Fixpoint plmn_loop (data : list Z) (starts : list Z) (plmns : list pystr)
  : res (list pystr) :=
  match starts with
  | [] => ret plmns
  | i :: rest =>
    if i + 2 >=? len data then ret plmns
    else
      b1 <- data.[i] ;;
      b2 <- data.[i + 1] ;;
      b3 <- data.[i + 2] ;;
      if (b1 =? 255) && (b2 =? 255) && (b3 =? 255) then plmn_loop data rest plmns
      else
        let mcc := str (Z.land b1 15) ++ str (Z.land (Z.shiftr b1 4) 15)
                   ++ str (Z.land b2 15) in
        let mnc_d1 := Z.land b3 15 in
        let mnc_d2 := Z.land (Z.shiftr b3 4) 15 in
        let mnc_d3 := Z.land (Z.shiftr b2 4) 15 in
        let mnc := if mnc_d3 =? 15 then str mnc_d1 ++ str mnc_d2
                   else str mnc_d1 ++ str mnc_d2 ++ str mnc_d3 in
        let plmns := if negb (str_eqb mcc (lit "FFF"))
                     then plmns ++ [mcc ++ lit "-" ++ mnc] else plmns in
        plmn_loop data rest plmns
  end.

(** [decode_plmn] (lines 328-353). *)
Definition decode_plmn (data : list Z) : res (list pystr) :=
  plmn_loop data (range_step 0 (len data) 3) [].

(* ================================================================== *)
(** ** Dialling numbers *)

(** [digit_map] of [decode_bcd_number] (line 498). *)
Definition digit_map : list (Z * pystr) :=
  [(10, lit "*"); (11, lit "#"); (12, lit "p"); (13, lit "w"); (14, lit "+")].

(** The loop body of [decode_bcd_number] (lines 493-503). *)
Definition append_bcd (number : pystr) (byte : Z) : pystr :=
  let low := low_nibble byte in
  let high := high_nibble byte in
  let number := if negb (low =? 15)
                then number ++ dict_get digit_map low (str low) else number in
  let number := if negb (high =? 15)
                then number ++ dict_get digit_map high (str high) else number in
  number.

(** [decode_bcd_number] (lines 477-505). *)
Definition decode_bcd_number (data : list Z) (include_ton : bool)
  : res (option pystr) :=
  if negb (truthy data) || (len data <? 2) then ret None
  else
    bcd_len <- data.[0] ;;
    if (bcd_len =? 255) || (bcd_len =? 0) then ret None
    else
      ton_npi <- data.[1] ;;
      let number_bytes := slice data 2 (2 + bcd_len - 1) in
      let number := if include_ton && (ton_npi =? 145) then lit "+" else [] in
      let number := fold_left append_bcd number_bytes number in
      ret (if truthy number then Some number else None).

(* ================================================================== *)
(** ** Packed 7-bit text *)

(** [gsm7_basic] (lines 647-650), by code point. *)
Definition gsm7_basic : pystr :=
  [ 64; 163; 36; 165; 232; 233; 249; 236; 242; 199; 10; 216; 248; 13; 197; 229;
    916; 95; 934; 915; 923; 937; 928; 936; 931; 920; 926; 32; 198; 230; 223; 201;
    32; 33; 34; 35; 164; 37; 38; 39; 40; 41; 42; 43; 44; 45; 46; 47;
    48; 49; 50; 51; 52; 53; 54; 55; 56; 57; 58; 59; 60; 61; 62; 63;
    161; 65; 66; 67; 68; 69; 70; 71; 72; 73; 74; 75; 76; 77; 78; 79;
    80; 81; 82; 83; 84; 85; 86; 87; 88; 89; 90; 196; 214; 209; 220; 167;
    191; 97; 98; 99; 100; 101; 102; 103; 104; 105; 106; 107; 108; 109; 110; 111;
    112; 113; 114; 115; 116; 117; 118; 119; 120; 121; 122; 228; 246; 241; 252; 224 ].

(** The value of one character (lines 662-665): 7 bits from [bit_pos] of
    the current byte, completed from the next byte when there is one. *)
Definition gsm7_char_val (data : list Z) (byte_pos bit_pos : Z) : res Z :=
  cur <- data.[byte_pos] ;;
  let char_val := Z.land (Z.shiftr cur bit_pos) 127 in
  if (bit_pos >? 1) && (byte_pos + 1 <? len data) then
    next <- data.[byte_pos + 1] ;;
    ret (Z.lor char_val (Z.land (Z.shiftl next (8 - bit_pos)) 127))
  else ret char_val.

(** The loop of [decode_gsm7] (lines 657-675), one turn per requested
    character, with the loop variables [result], [byte_pos], [bit_pos]. *)
Fixpoint gsm7_loop (data : list Z) (turns : nat) (result : pystr)
  (byte_pos bit_pos : Z) : res pystr :=
  match turns with
  | O => ret result
  | S turns' =>
    if byte_pos >=? len data then ret result
    else
      char_val <- gsm7_char_val data byte_pos bit_pos ;;
      let bit_pos := bit_pos + 7 in
      let '(bit_pos, byte_pos) :=
        if bit_pos >=? 8 then (bit_pos - 8, byte_pos + 1) else (bit_pos, byte_pos) in
      c <- (if char_val <? len gsm7_basic then gsm7_basic.[char_val]
            else ret 63) ;;
      gsm7_loop data turns' (result ++ [c]) byte_pos bit_pos
  end.

(** [decode_gsm7] (lines 645-677). *)
Definition decode_gsm7 (data : list Z) (num_chars : Z) : res pystr :=
  gsm7_loop data (Z.to_nat num_chars) [] 0 0.

(* ================================================================== *)
(** ** Short messages *)

(** A value stored in the result dict of [decode_sms]: a [str] or [None]. *)
Inductive pyval : Type :=
| VNone
| VStr (s : pystr).

Definition of_option (o : option pystr) : pyval :=
  match o with Some s => VStr s | None => VNone end.

(** The result dict, keys in insertion order; [d[k] = v]. *)
Definition sms_dict := list (string * pyval).

Fixpoint dict_set (d : sms_dict) (k : string) (v : pyval) : sms_dict :=
  match d with
  | [] => [(k, v)]
  | (k', v') :: d' =>
    if String.eqb k k' then (k, v) :: d' else (k', v') :: dict_set d' k v
  end.

(** [status_map] of [decode_sms] (lines 513-519). *)
Definition status_map : list (Z * pystr) :=
  [(0, lit "Free"); (1, lit "Received unread"); (3, lit "Received read");
   (5, lit "Sent unsent"); (7, lit "Sent")].

Definition status_text (status : Z) : pystr :=
  dict_get status_map status (lit "Unknown (" ++ str status ++ lit ")").

(** [f"{n:02d}"] for a non-negative int. *)
Definition fmt_02d (n : Z) : pystr :=
  let s := str n in
  if len s <? 2 then lit "0" ++ s else s.

(** [(b >> 4) * 10 + (b & 0x0F)] (lines 576-581). *)
Definition scts_field (b : Z) : Z := Z.shiftr b 4 * 10 + Z.land b 15.

Section ShortMessage.

(** The library calls of the user-data decoding: the codec behind
    [bytes(b).decode('utf-16-be', errors='replace')] and pyscard's
    [toHexString]. With [errors='replace'] the codec does not raise on a list
    of bytes, so the [except] branches of lines 594-595 and 636-637 are not
    taken and are left out. *)
Variable utf16_be_decode : list Z -> pystr.
Variable toHexString : list Z -> pystr.

(** The user data by data coding scheme (lines 591-599 and 633-641). *)
Definition decode_user_data (dcs : Z) (ud : list Z) (udl : Z) : res pystr :=
  if Z.land dcs 12 =? 8 then ret (utf16_be_decode (slice_to ud udl))
  else if Z.land dcs 12 =? 0 then decode_gsm7 ud udl
  else ret (lit "[Data: " ++ toHexString (slice_to ud udl) ++ lit "]").

(** The SMS-DELIVER branch (lines 554-599). *)
Definition decode_sms_deliver (pdu : list Z) (result : sms_dict) : res sms_dict :=
  if len pdu <? 3 then ret result
  else
    sender_len <- pdu.[1] ;;
    sender_type <- (if len pdu >? 2 then pdu.[2] else ret 129) ;;
    let sender_bytes_len := (sender_len + 1) / 2 in
    let sender_data :=
      [sender_bytes_len + 1; sender_type] ++ slice pdu 3 (3 + sender_bytes_len) in
    sender <- decode_bcd_number sender_data true ;;
    let result := dict_set result "sender" (of_option sender) in
    let offset := 3 + sender_bytes_len in
    if offset + 7 <? len pdu then
      pid <- pdu.[offset] ;;
      dcs <- pdu.[offset + 1] ;;
      let scts := slice pdu (offset + 2) (offset + 9) in
      result <-
        (if len scts =? 7 then
           year <- scts.[0] ;; month <- scts.[1] ;; day <- scts.[2] ;;
           hour <- scts.[3] ;; minute <- scts.[4] ;; second <- scts.[5] ;;
           ret (dict_set result "timestamp"
                  (VStr (lit "20" ++ fmt_02d (scts_field year)
                         ++ lit "-" ++ fmt_02d (scts_field month)
                         ++ lit "-" ++ fmt_02d (scts_field day)
                         ++ lit " " ++ fmt_02d (scts_field hour)
                         ++ lit ":" ++ fmt_02d (scts_field minute)
                         ++ lit ":" ++ fmt_02d (scts_field second))))
         else ret result) ;;
      let ud_offset := offset + 9 in
      if ud_offset <? len pdu then
        udl <- pdu.[ud_offset] ;;
        let ud := slice_from pdu (ud_offset + 1) in
        message <- decode_user_data dcs ud udl ;;
        ret (dict_set result "message" (VStr message))
      else ret result
    else ret result.

(** The SMS-SUBMIT branch (lines 601-641). *)
Definition decode_sms_submit (first_octet : Z) (pdu : list Z) (result : sms_dict)
  : res sms_dict :=
  if len pdu <? 3 then ret result
  else
    mr <- pdu.[1] ;;
    dest_len <- pdu.[2] ;;
    dest_type <- (if len pdu >? 3 then pdu.[3] else ret 129) ;;
    let dest_bytes_len := (dest_len + 1) / 2 in
    let dest_data :=
      [dest_bytes_len + 1; dest_type] ++ slice pdu 4 (4 + dest_bytes_len) in
    dest <- decode_bcd_number dest_data true ;;
    let result := dict_set result "recipient" (of_option dest) in
    let offset := 4 + dest_bytes_len in
    if offset + 2 <? len pdu then
      pid <- pdu.[offset] ;;
      dcs <- pdu.[offset + 1] ;;
      let vpf := Z.land (Z.shiftr first_octet 3) 3 in
      let offset := if vpf =? 2 then offset + 1
                    else if vpf =? 3 then offset + 7 else offset in
      let ud_offset := offset + 2 in
      if ud_offset <? len pdu then
        udl <- pdu.[ud_offset] ;;
        let ud := slice_from pdu (ud_offset + 1) in
        message <- decode_user_data dcs ud udl ;;
        ret (dict_set result "message" (VStr message))
      else ret result
    else ret result.

(** [decode_sms] (lines 507-643). *)
Definition decode_sms (data : list Z) : res (option sms_dict) :=
  if negb (truthy data) || (len data <? 1) then ret None
  else
    status <- data.[0] ;;
    if (status =? 0) || (status =? 255) then ret None
    else
      smsc_len <- data.[1] ;;
      '(smsc, pdu_start) <-
        (if (smsc_len >? 0) && negb (smsc_len =? 255) then
           smsc <- decode_bcd_number
                     ([smsc_len] ++ slice data 2 (2 + smsc_len)) true ;;
           ret (of_option smsc, 2 + smsc_len)
         else ret (VNone, 2)) ;;
      if pdu_start >=? len data then
        ret (Some [("status"%string, VStr (status_text status))])
      else
        let pdu := slice_from data pdu_start in
        if len pdu <? 2 then
          ret (Some [("status"%string, VStr (status_text status))])
        else
          first_octet <- pdu.[0] ;;
          let mti := Z.land first_octet 3 in
          let result := [("status"%string, VStr (status_text status));
                         ("smsc"%string, smsc)] in
          if mti =? 0 then
            result <- decode_sms_deliver pdu result ;; ret (Some result)
          else if mti =? 1 then
            result <- decode_sms_submit first_octet pdu result ;; ret (Some result)
          else ret (Some result).

End ShortMessage.

(* ================================================================== *)
(** ** The other field decoders *)

(** [f"{n:0{width}X}"] for a non-negative int: upper-case hexadecimal,
    padded with zeros on the left. *)
Definition upper (c : Z) : Z :=
  if (97 <=? c) && (c <=? 122) then c - 32 else c.

Definition hex_upper (n : Z) : pystr :=
  map upper (lit (HexadecimalString.NilZero.string_of_int (Z.to_hex_int n))).

Definition fmt_0X (width n : Z) : pystr :=
  let s := hex_upper n in
  repeat 48 (Z.to_nat (width - len s)) ++ s.

(** [[b for b in l if b != 0xFF]] *)
Definition without_ff (l : list Z) : list Z :=
  filter (fun b => negb (b =? 255)) l.

(** The loop of [decode_alpha_id] (lines 440-444): the bytes before the
    first 0xFF. *)
Fixpoint until_ff (data : list Z) : list Z :=
  match data with
  | [] => []
  | b :: rest => if b =? 255 then [] else b :: until_ff rest
  end.

(** [chr(n)]: [None] stands for its [ValueError] outside the code points. *)
Definition chr (n : Z) : option Z :=
  if (0 <=? n) && (n <? 1114112) then Some n else None.

(** What a bare [except] makes of a block: its value, or nothing. *)
Definition caught {A} (r : res A) : option A :=
  match r with Ok a => Some a | Raise _ => None end.

(** The [try] block of the 0x81 form (lines 459-467), before [strip]:
    [None] when an exception is caught. *)
Definition alpha_81_step (clean : list Z) (base : Z) (acc : option pystr) (i : Z)
  : option pystr :=
  match acc with
  | None => None
  | Some result =>
    match caught clean.[i] with
    | None => None
    | Some c =>
      match (if c <? 128 then chr c else chr (base + Z.land c 127)) with
      | None => None
      | Some char => Some (result ++ [char])
      end
    end
  end.

Definition alpha_81 (clean : list Z) : option pystr :=
  match caught clean.[1], caught clean.[2] with
  | Some num_chars, Some b2 =>
    let base := Z.shiftl b2 7 in
    fold_left (alpha_81_step clean base)
              (range 3 (Z.min (3 + num_chars) (len clean))) (Some [])
  | _, _ => None
  end.

(** The results of [decode_msisdn], [decode_loci], [decode_acc] and
    [decode_ad]: dicts with fixed keys. *)
Record msisdn_dict : Type := {
  msisdn_number : pystr;
  msisdn_alpha : pystr
}.

Record loci_dict : Type := {
  loci_tmsi : pystr;
  loci_mcc : pystr;
  loci_mnc : pystr;
  loci_lac : pystr;
  loci_update_status : pystr
}.

Record acc_dict : Type := {
  acc_value : pystr;
  acc_classes : list pystr
}.

Record ad_dict : Type := {
  ad_ms_operation : pystr;
  ad_ofm : pystr;
  ad_mnc_length : option Z
}.

(** The label of an access class (lines 396-409). *)
Definition acc_class_label (i : Z) : option pystr :=
  if i <? 10 then Some (lit "Class " ++ str i)
  else if i =? 10 then Some (lit "Emergency")
  else if i =? 11 then Some (lit "PLMN operator 11")
  else if i =? 12 then Some (lit "Security services 12")
  else if i =? 13 then Some (lit "Public utilities 13")
  else if i =? 14 then Some (lit "Emergency services 14")
  else if i =? 15 then Some (lit "PLMN operator 15")
  else None.

(** One turn of the loop of [decode_acc] (lines 394-409). *)
Definition acc_step (acc : Z) (classes : list pystr) (i : Z) : list pystr :=
  if negb (Z.land acc (Z.shiftl 1 i) =? 0) then
    match acc_class_label i with
    | Some label => classes ++ [label]
    | None => classes
    end
  else classes.

(** [decode_acc] (lines 388-410). *)
Definition decode_acc (data : list Z) : res (option acc_dict) :=
  if len data <? 2 then ret None
  else
    hi <- data.[0] ;;
    lo <- data.[1] ;;
    let acc := Z.lor (Z.shiftl hi 8) lo in
    let classes := fold_left (acc_step acc) (range 0 16) [] in
    ret (Some {| acc_value := lit "0x" ++ fmt_0X 4 acc; acc_classes := classes |}).

(** [op_map] of [decode_ad] (lines 418-424). *)
Definition op_map : list (Z * pystr) :=
  [(0, lit "Normal operation"); (128, lit "Type approval");
   (1, lit "Normal + specific facilities"); (2, lit "Normal + type approval");
   (4, lit "Cell test operation")].

(** [decode_ad] (lines 412-435). *)
Definition decode_ad (data : list Z) : res (option ad_dict) :=
  if len data <? 3 then ret None
  else
    ms_operation <- data.[0] ;;
    b2 <- data.[2] ;;
    mnc_length <-
      (if len data >=? 4 then b3 <- data.[3] ;; ret (Some (Z.land b3 15))
       else ret None) ;;
    ret (Some {|
      ad_ms_operation :=
        dict_get op_map ms_operation
                 (lit "Unknown (0x" ++ fmt_0X 2 ms_operation ++ lit ")");
      ad_ofm := if negb (Z.land b2 1 =? 0) then lit "OFM supported"
                else lit "OFM not supported";
      ad_mnc_length := mnc_length |}).

(** [status_map] of [decode_loci] (line 378). *)
Definition loci_status_map : list (Z * pystr) :=
  [(0, lit "Updated"); (1, lit "Not updated"); (2, lit "PLMN not allowed");
   (3, lit "Location area not allowed")].

Section Fields.

(** The library calls of these decoders: the codecs behind
    [bytes(b).decode('utf-8', errors='replace')] and
    [bytes(b).decode('utf-16-be', errors='replace')], [str.strip] and
    pyscard's [toHexString]. The codecs do not raise on a list of bytes, so
    the [except] branches that follow them are left out. *)
Variable utf8_decode : list Z -> pystr.
Variable utf16_be_decode : list Z -> pystr.
Variable strip : pystr -> pystr.
Variable toHexString : list Z -> pystr.

(** [decode_spn] (lines 231-245). *)
Definition decode_spn (data : list Z) : res (option pystr) :=
  if len data <? 2 then ret None
  else
    display_condition <- data.[0] ;;
    let name_bytes := slice_from data 1 in
    let name_bytes := without_ff name_bytes in
    let name := utf8_decode name_bytes in
    ret (Some (strip name)).

(** [decode_msisdn] (lines 247-286). *)
Definition decode_msisdn (data : list Z) : res (option msisdn_dict) :=
  if len data <? 14 then ret None
  else
    let alpha_len := len data - 14 in
    let alpha := slice_to data alpha_len in
    bcd_len <- data.[alpha_len] ;;
    if (bcd_len =? 255) || (bcd_len =? 0) then ret None
    else
      ton_npi <- data.[alpha_len + 1] ;;
      let number_bytes := slice data (alpha_len + 2) (alpha_len + 12) in
      let number := if ton_npi =? 145 then lit "+" else [] in
      let number := fold_left append_semi_octet number_bytes number in
      let alpha_clean := without_ff alpha in
      let alpha_tag := if truthy alpha_clean then strip (utf8_decode alpha_clean)
                       else [] in
      ret (if truthy number
           then Some {| msisdn_number := number; msisdn_alpha := alpha_tag |}
           else None).

(** [decode_smsp] (lines 288-326). *)
Definition decode_smsp (data : list Z) : res (option pystr) :=
  if len data <? 28 then ret None
  else
    let alpha_len := len data - 28 in
    params <- (if alpha_len >=? 0 then data.[alpha_len] else ret 255) ;;
    let smsc_len_offset := alpha_len + 1 in
    if smsc_len_offset >=? len data then ret None
    else
      smsc_len <- data.[smsc_len_offset] ;;
      if (smsc_len =? 255) || (smsc_len =? 0) || (smsc_len >? 12) then ret None
      else
        ton_npi <- (if smsc_len_offset + 1 <? len data
                    then data.[smsc_len_offset + 1] else ret 255) ;;
        let number_start := smsc_len_offset + 2 in
        let number_bytes := slice data number_start (number_start + smsc_len - 1) in
        let smsc := if ton_npi =? 145 then lit "+" else [] in
        let smsc := fold_left append_semi_octet number_bytes smsc in
        ret (if truthy smsc then Some smsc else None).

(** [decode_loci] (lines 355-386). *)
Definition decode_loci (data : list Z) : res (option loci_dict) :=
  if len data <? 11 then ret None
  else
    let tmsi := filter (fun c => negb (c =? 32)) (toHexString (slice data 0 4)) in
    let lai := slice data 4 9 in
    l0 <- lai.[0] ;;
    l1 <- lai.[1] ;;
    l2 <- lai.[2] ;;
    l3 <- lai.[3] ;;
    l4 <- lai.[4] ;;
    let mcc := str (Z.land l0 15) ++ str (Z.land (Z.shiftr l0 4) 15)
               ++ str (Z.land l1 15) in
    let mnc_d3 := Z.land (Z.shiftr l1 4) 15 in
    let mnc_d1 := Z.land l2 15 in
    let mnc_d2 := Z.land (Z.shiftr l2 4) 15 in
    let mnc := if mnc_d3 =? 15 then str mnc_d1 ++ str mnc_d2
               else str mnc_d1 ++ str mnc_d2 ++ str mnc_d3 in
    let lac := Z.lor (Z.shiftl l3 8) l4 in
    update_status <- (if len data >? 10 then data.[10] else ret 0) ;;
    ret (Some {|
      loci_tmsi := tmsi;
      loci_mcc := mcc;
      loci_mnc := mnc;
      loci_lac := lit "0x" ++ fmt_0X 4 lac ++ lit " (" ++ str lac ++ lit ")";
      loci_update_status :=
        dict_get loci_status_map (Z.land update_status 7)
                 (lit "Unknown (" ++ str update_status ++ lit ")") |}).

(** [decode_alpha_id] (lines 437-475). An exception inside a [try] block
    falls through to the 8-bit decoding, as the bare [except: pass] does. *)
Definition decode_alpha_id (data : list Z) : res (option pystr) :=
  let clean := until_ff data in
  if negb (truthy clean) then ret None
  else
    first <- clean.[0] ;;
    let as_text := Some (strip (utf8_decode clean)) in
    if first =? 128 then
      ret (Some (strip (utf16_be_decode (slice_from clean 1))))
    else if (first =? 129) && (len clean >? 3) then
      match alpha_81 clean with
      | Some result => ret (Some (strip result))
      | None => ret as_text
      end
    else ret as_text.

(** The decoding of one record of a dialling-number file (lines 941-946,
    983-987, 1024-1028, 1065-1069): the name from the bytes before the last
    14 of the record length, the number from the rest. *)
Definition decode_entry (record_len : Z) (data : list Z)
  : res (option pystr * option pystr) :=
  let alpha_len := record_len - 14 in
  alpha <- decode_alpha_id (slice_to data alpha_len) ;;
  number <- decode_bcd_number (slice_from data alpha_len) true ;;
  ret (alpha, number).

(** [alpha or number], [number]: what is truthy is printed. *)
Definition truthy_str (o : option pystr) : bool :=
  match o with Some (_ :: _) => true | _ => false end.

End Fields.

(* ================================================================== *)
(** ** The card and the session *)

(** A response of [connection.transmit]: [(data, sw1, sw2)]. *)
Definition response : Type := list Z * Z * Z.

(** [x in [a, b, ...]] *)
Definition in_list (x : Z) (l : list Z) : bool := existsb (Z.eqb x) l.

(** The AID tried when the directory file gives none (lines 111 and 154). *)
Definition default_usim_aid : list Z :=
  [160; 0; 0; 0; 135; 16; 2; 255; 255; 255; 255; 137; 6; 1; 0; 0].

(** The scan of an application template for the AID tag 4F (lines
    139-148): [Some aid] when the tag is found before [end_] and before the
    last two bytes. Each turn moves [i] by at least two, so [fuel] turns, the
    length of the record, are never used up on a list of bytes. *)
Fixpoint aid_in_template (fuel : nat) (data : list Z) (i end_ : Z)
  : res (option (list Z)) :=
  match fuel with
  | O => ret None
  | S fuel' =>
    if (i <? end_) && (i <? len data - 2) then
      tag <- data.[i] ;;
      let i := i + 1 in
      length <- data.[i] ;;
      let i := i + 1 in
      if tag =? 79 then ret (Some (slice data i (i + length)))
      else aid_in_template fuel' data (i + length) end_
    else ret None
  end.

(** The scan of the directory record for the application template 61
    (lines 132-150); the first template found ends the scan. *)
Fixpoint aid_in_record (fuel : nat) (data : list Z) (i : Z)
  : res (option (list Z)) :=
  match fuel with
  | O => ret None
  | S fuel' =>
    if i <? len data - 2 then
      b <- data.[i] ;;
      if b =? 97 then
        let i := i + 1 in
        template_len <- data.[i] ;;
        let i := i + 1 in
        let end_ := i + template_len in
        aid_in_template (List.length data) data i end_
      else aid_in_record fuel' data (i + 1)
    else ret None
  end.

(** The tags the scan of a control template steps over (line 920). *)
Definition fcp_skipped_tags : list Z :=
  [98; 128; 129; 131; 132; 138; 139; 140; 165; 171; 198].

(** The scan of a control template for the file descriptor 82 (lines
    909-924), from the defaults [record_len], [num_records]. *)
Fixpoint fcp_scan (fuel : nat) (data : list Z) (i : Z) (record_len num_records : Z)
  : res (Z * Z) :=
  match fuel with
  | O => ret (record_len, num_records)
  | S fuel' =>
    if i <? len data - 2 then
      tag <- data.[i] ;;
      if tag =? 130 then
        let i := i + 1 in
        fd_len <- data.[i] ;;
        let i := i + 1 in
        record_len <-
          (if fd_len >=? 3 then
             hi <- data.[i + 1] ;; lo <- data.[i + 2] ;;
             ret (Z.lor (Z.shiftl hi 8) lo)
           else ret record_len) ;;
        num_records <-
          (if fd_len >=? 5 then data.[i + 3] else ret num_records) ;;
        ret (record_len, num_records)
      else if in_list tag fcp_skipped_tags then
        let i := i + 1 in
        skip <- data.[i] ;;
        fcp_scan fuel' data (i + (skip + 1)) record_len num_records
      else fcp_scan fuel' data (i + 1) record_len num_records
    else ret (record_len, num_records)
  end.

(** The record geometry of the contacts file (lines 904-927):
    [(record_len, num_records)], 34 and 250 unless the selection response
    says otherwise. *)
Definition contacts_geometry (use_usim : bool) (data : list Z) : res (Z * Z) :=
  let record_len := 34 in
  let num_records := 250 in
  if use_usim && truthy data then
    fcp_scan (List.length data) data 0 record_len num_records
  else if truthy data && (len data >? 14) then
    record_len <- data.[14] ;;
    hi <- data.[2] ;;
    lo <- data.[3] ;;
    ret (record_len,
         if record_len >? 0 then Z.lor (Z.shiftl hi 8) lo / record_len else 10)
  else ret (record_len, num_records).

Section Card.

(** The card behind [self.connection]: its state, and what it answers to a
    command in a state. *)
Variable card_state : Type.
Variable transmit : card_state -> list Z -> response * card_state.

(** The reader object: the card, the commands sent so far (oldest first),
    and the fields [is_usim], [usim_aid], [iccid] of [__init__]. *)
Record session : Type := Session {
  card : card_state;
  sent : list (list Z);
  is_usim : bool;
  usim_aid : option (list Z);
  iccid : option pystr
}.

(** A method of the reader: it returns or raises, and leaves a session. *)
Definition io (A : Type) : Type := session -> res A * session.

#[export] Instance io_monad : Monad io := {
  ret := fun A a s => (Ok a, s);
  bind := fun A B c k s =>
    match c s with
    | (Ok a, s') => k a s'
    | (Raise e, s') => (Raise e, s')
    end
}.

Definition lift {A} (r : res A) : io A := fun s => (r, s).

(** The session with the card in state [c] and the log [log]; after one
    exchange the card has moved and the command is logged. *)
Definition moved (s : session) (c : card_state) (log : list (list Z)) : session :=
  {| card := c; sent := log;
     is_usim := is_usim s; usim_aid := usim_aid s; iccid := iccid s |}.

Definition exchanged (s : session) (c : card_state) (apdu : list Z) : session :=
  moved s c (sent s ++ [apdu]).

Definition get_usim_aid : io (option (list Z)) := fun s => (Ok (usim_aid s), s).

Definition set_usim_aid (aid : list Z) : io unit :=
  fun s => (Ok tt, {| card := card s; sent := sent s; is_usim := is_usim s;
                      usim_aid := Some aid; iccid := iccid s |}).

Definition set_is_usim (b : bool) : io unit :=
  fun s => (Ok tt, {| card := card s; sent := sent s; is_usim := b;
                      usim_aid := usim_aid s; iccid := iccid s |}).

Definition set_iccid (v : pystr) : io unit :=
  fun s => (Ok tt, {| card := card s; sent := sent s; is_usim := is_usim s;
                      usim_aid := usim_aid s; iccid := Some v |}).

(** [send_apdu] (lines 56-59). *)
Definition send_apdu (apdu : list Z) : io response :=
  fun s =>
    let '(r, c) := transmit (card s) apdu in
    (Ok r, exchanged s c apdu).

(** [select_file_gsm] (lines 61-77), without the debug prints. *)
Definition select_file_gsm (file_id : Z) : io response :=
  let apdu := [160; 164; 0; 0; 2;
               Z.land (Z.shiftr file_id 8) 255; Z.land file_id 255] in
  '(data, sw1, sw2) <- send_apdu apdu ;;
  if sw1 =? 159 then
    let apdu := [160; 192; 0; 0; sw2] in
    '(data, sw1, sw2) <- send_apdu apdu ;;
    ret (data, sw1, sw2)
  else ret (data, sw1, sw2).

(** [read_binary] (lines 79-88). *)
Definition read_binary (length offset : Z) : io response :=
  let apdu := [160; 176; Z.land (Z.shiftr offset 8) 255; Z.land offset 255; length] in
  '(data, sw1, sw2) <- send_apdu apdu ;;
  if sw1 =? 159 then
    let apdu := [160; 192; 0; 0; sw2] in
    '(data, sw1, sw2) <- send_apdu apdu ;;
    ret (data, sw1, sw2)
  else ret (data, sw1, sw2).

(** [read_record] (lines 90-94). *)
Definition read_record (record_num length : Z) : io response :=
  send_apdu [160; 178; record_num; 4; length].

(** The idiom of [select_usim] after each of its commands (lines 105-107,
    115-117, 159-161): on 61 xx, fetch the response. *)
Definition continue_61 (r : response) : io response :=
  let '(data, sw1, sw2) := r in
  if sw1 =? 97 then send_apdu [0; 192; 0; 0; sw2]
  else ret (data, sw1, sw2).

(** [select_usim] (lines 96-167). *)
Definition select_usim : io bool :=
  select_file_gsm 16128 ;;
  r <- send_apdu [0; 164; 0; 4; 2; 47; 0] ;;
  '(data, sw1, sw2) <- continue_61 r ;;
  if negb (sw1 =? 144) then
    let usim_aid := default_usim_aid in
    r <- send_apdu ([0; 164; 4; 4; len usim_aid] ++ usim_aid) ;;
    '(data, sw1, sw2) <- continue_61 r ;;
    if sw1 =? 144 then
      set_is_usim true ;;
      set_usim_aid usim_aid ;;
      ret true
    else ret false
  else
    '(data, sw1, sw2) <- send_apdu [0; 178; 1; 4; 32] ;;
    (if (sw1 =? 144) && truthy data then
       found <- lift (aid_in_record (List.length data) data 0) ;;
       match found with
       | Some aid => set_usim_aid aid
       | None => ret tt
       end
     else ret tt) ;;
    known <- get_usim_aid ;;
    (match known with
     | Some (_ :: _) => ret tt
     | _ => set_usim_aid default_usim_aid
     end) ;;
    known <- get_usim_aid ;;
    let aid := match known with Some aid => aid | None => [] end in
    r <- send_apdu ([0; 164; 4; 4; len aid] ++ aid) ;;
    '(data, sw1, sw2) <- continue_61 r ;;
    if sw1 =? 144 then
      set_is_usim true ;;
      ret true
    else ret false.

(** [select_file_usim] (lines 169-183), without the debug prints. *)
Definition select_file_usim (file_id : Z) : io response :=
  let apdu := [0; 164; 0; 4; 2;
               Z.land (Z.shiftr file_id 8) 255; Z.land file_id 255] in
  '(data, sw1, sw2) <- send_apdu apdu ;;
  if sw1 =? 97 then
    let apdu := [0; 192; 0; 0; sw2] in
    '(data, sw1, sw2) <- send_apdu apdu ;;
    ret (data, sw1, sw2)
  else ret (data, sw1, sw2).

(** [read_binary_usim] (lines 185-189) and [read_record_usim] (191-195). *)
Definition read_binary_usim (length offset : Z) : io response :=
  send_apdu [0; 176; Z.land (Z.shiftr offset 8) 255; Z.land offset 255; length].

Definition read_record_usim (record_num length : Z) : io response :=
  send_apdu [0; 178; record_num; 4; length].

(** The ICCID block of [read_all] (lines 690-697), without the prints. *)
Definition read_iccid : io unit :=
  select_file_gsm 16128 ;;
  '(data, sw1, sw2) <- select_file_gsm 12258 ;;
  if in_list sw1 [144; 159; 145] then
    '(data, sw1, sw2) <- read_binary 10 0 ;;
    if sw1 =? 144 then set_iccid (decode_iccid data)
    else ret tt
  else ret tt.

(** The record loop of [read_all] (lines 931-952) over the record numbers
    [recs]: the records that pass the status test and the sentinel test,
    each with its number, in the order read. These are the records handed to
    [decode_alpha_id] and [decode_bcd_number] (lines 941-948), which do not
    touch the card. [continue] and a record that matches no branch go on
    with the next number; [break] ends the loop. *)
Fixpoint record_loop (use_usim : bool) (record_len : Z) (recs : list Z)
  : io (list (Z * list Z)) :=
  match recs with
  | [] => ret []
  | rec :: rest =>
    '(data, sw1, sw2) <- (if use_usim then read_record_usim rec record_len
                          else read_record rec record_len) ;;
    if (sw1 =? 144) && truthy data then
      if all_ff data then record_loop use_usim record_len rest
      else
        tail <- record_loop use_usim record_len rest ;;
        ret ((rec, data) :: tail)
    else if (sw1 =? 106) && (sw2 =? 131) then ret []
    else record_loop use_usim record_len rest
  end.

(** [for rec in range(1, min(num_records + 1, ceiling))]; the ceiling is 251
    for the contacts (line 931). *)
Definition walk_records (use_usim : bool) (record_len num_records ceiling : Z)
  : io (list (Z * list Z)) :=
  record_loop use_usim record_len (range 1 (Z.min (num_records + 1) ceiling)).

(** The selection of the contacts file (lines 890-900): under class A0
    first, then inside the USIM application when that is refused. The result
    is the last response with [use_usim]. *)
Definition select_contacts : io (response * bool) :=
  select_file_gsm 16128 ;;
  select_file_gsm 32544 ;;
  '(data, sw1, sw2) <- select_file_gsm 28474 ;;
  if negb (in_list sw1 [144; 159; 145]) then
    is_selected <- select_usim ;;
    if is_selected then
      r <- select_file_usim 28474 ;;
      ret (r, true)
    else ret ((data, sw1, sw2), false)
  else ret ((data, sw1, sw2), false).

(** The contacts block of [read_all] (lines 886-952), without the decoding
    and the prints: the records the loop hands to the decoders. *)
Definition read_contacts : io (list (Z * list Z)) :=
  '((data, sw1, sw2), use_usim) <- select_contacts ;;
  if in_list sw1 [144; 159; 145; 97] then
    '(record_len, num_records) <- lift (contacts_geometry use_usim data) ;;
    walk_records use_usim record_len num_records 251
  else ret [].

End Card.

Arguments Session {card_state} card sent is_usim usim_aid iccid.

(* ================================================================== *)
(** ** The blocks of [read_all] *)

(** [phase_map] (line 880). *)
Definition phase_map : list (Z * pystr) :=
  [(0, lit "Phase 1"); (2, lit "Phase 2"); (3, lit "Phase 2+")].

(** What the search-period block prints after [Interval:] (lines 862-867)
    and the phase block after [Phase:] (lines 879-881); nothing on an empty
    read. *)
Definition hplmn_text (data : list Z) : res (option pystr) :=
  if truthy data then
    interval <- data.[0] ;;
    ret (Some (if interval =? 0 then lit "Use default (60 min)"
               else str (interval * 6) ++ lit " minutes"))
  else ret None.

Definition phase_text (data : list Z) : res (option pystr) :=
  if truthy data then
    b <- data.[0] ;;
    ret (Some (dict_get phase_map b (lit "Unknown (" ++ str b ++ lit ")")))
  else ret None.

(** The record geometry of the fixed, service and last-dialled number files
    (lines 970-971, 1011-1012, 1052-1053): [(record_len, num_records)]. *)
Definition dialling_geometry (default_count : Z) (data : list Z) : res (Z * Z) :=
  record_len <- (if len data >? 14 then data.[14] else ret 34) ;;
  num_records <-
    (if (len data >? 3) && (record_len >? 0) then
       hi <- data.[2] ;; lo <- data.[3] ;;
       ret (Z.lor (Z.shiftl hi 8) lo / record_len)
     else ret default_count) ;;
  ret (record_len, num_records).


(** An entry that a dialling-number block prints: the record number, the
    name and the number. *)
Definition entry : Type := Z * option pystr * option pystr.

(** What [read_all] hands to [print] for the files of DF_GSM between the
    serial number and the contacts, in the order of the blocks; [None] where
    a block decodes nothing. *)
Record fields_report : Type := {
  rep_imsi : option (option pystr);
  rep_spn : option (option pystr);
  rep_msisdn : option (option msisdn_dict);
  rep_smsp : option (option pystr);
  rep_plmnsel : option (list pystr);
  rep_fplmn : option (list pystr);
  rep_loci : option (option loci_dict);
  rep_acc : option (option acc_dict);
  rep_ad : option (option ad_dict);
  rep_hplmn : option (option pystr);
  rep_phase : option (option pystr)
}.


Section Blocks.

Variable card_state : Type.
Variable transmit : card_state -> list Z -> response * card_state.
Variable utf8_decode : list Z -> pystr.
Variable utf16_be_decode : list Z -> pystr.
Variable strip : pystr -> pystr.
Variable toHexString : list Z -> pystr.

(** The selection of a file of DF_GSM from the master file, as every block
    does it (lines 700-705, 719-721, ...). *)
Definition select_in_df_gsm (file_id : Z) : io card_state response :=
  select_file_gsm transmit 16128 ;;
  select_file_gsm transmit 32544 ;;
  select_file_gsm transmit file_id.

(** A block over a transparent file (lines 703-715, 717-729, 767-883):
    selection, the test of SW1, READ BINARY of [length] bytes, the test for
    0x90, the decoder. *)
Definition read_field {A} (file_id length : Z) (decode : list Z -> res A)
  : io card_state (option A) :=
  '(data, sw1, sw2) <- select_in_df_gsm file_id ;;
  if in_list sw1 [144; 159; 145] then
    '(data, sw1, sw2) <- read_binary transmit length 0 ;;
    if sw1 =? 144 then
      v <- lift (decode data) ;;
      ret (Some v)
    else ret None
  else ret None.

(** A block over the first record of a record file (lines 731-765): the
    record length is byte 14 of the selection response, [default_len]
    without it. *)
Definition read_first_record {A} (file_id default_len : Z)
  (decode : list Z -> res A) : io card_state (option A) :=
  '(data, sw1, sw2) <- select_in_df_gsm file_id ;;
  if in_list sw1 [144; 159; 145] then
    record_len <- lift (if len data >? 14 then data.[14] else ret default_len) ;;
    '(data, sw1, sw2) <- read_record transmit 1 record_len ;;
    if sw1 =? 144 then
      v <- lift (decode data) ;;
      ret (Some v)
    else ret None
  else ret None.

(** The blocks from the subscriber identity to the phase (lines 699-883). *)
Definition read_fields : io card_state fields_report :=
  imsi <- read_field 28423 9 decode_imsi ;;
  spn <- read_field 28486 17 (decode_spn utf8_decode strip) ;;
  msisdn <- read_first_record 28480 34 (decode_msisdn utf8_decode strip) ;;
  smsp <- read_first_record 28482 40 decode_smsp ;;
  plmnsel <- read_field 28464 30 decode_plmn ;;
  fplmn <- read_field 28539 12 decode_plmn ;;
  loci <- read_field 28542 11 (decode_loci toHexString) ;;
  acc <- read_field 28536 2 decode_acc ;;
  ad <- read_field 28589 4 decode_ad ;;
  hplmn <- read_field 28465 1 hplmn_text ;;
  phase <- read_field 28590 1 phase_text ;;
  ret {| rep_imsi := imsi; rep_spn := spn; rep_msisdn := msisdn;
         rep_smsp := smsp; rep_plmnsel := plmnsel; rep_fplmn := fplmn;
         rep_loci := loci; rep_acc := acc; rep_ad := ad;
         rep_hplmn := hplmn; rep_phase := phase |}.

(** The selection of a record file: under class A0 first, then inside the
    USIM application when that is refused (lines 890-900, 959-967,
    1000-1008, 1041-1049, 1085-1095). *)
Definition select_record_file (file_id : Z) : io card_state (response * bool) :=
  '(data, sw1, sw2) <- select_in_df_gsm file_id ;;
  if negb (in_list sw1 [144; 159; 145]) then
    is_selected <- select_usim transmit ;;
    if is_selected then
      r <- select_file_usim transmit file_id ;;
      ret (r, true)
    else ret ((data, sw1, sw2), false)
  else ret ((data, sw1, sw2), false).

(** The record loop with the decoding (lines 931-952, 974-991, 1015-1032,
    1056-1073): an entry is printed when its name or its number is truthy,
    under [number_only] (the last-dialled numbers) when its number is. *)
Fixpoint entries_loop (number_only use_usim : bool) (record_len : Z) (recs : list Z)
  : io card_state (list entry) :=
  match recs with
  | [] => ret []
  | rec :: rest =>
    '(data, sw1, sw2) <- (if use_usim then read_record_usim transmit rec record_len
                          else read_record transmit rec record_len) ;;
    if (sw1 =? 144) && truthy data then
      if all_ff data then entries_loop number_only use_usim record_len rest
      else
        '(alpha, number) <-
          lift (decode_entry utf8_decode utf16_be_decode strip record_len data) ;;
        if (if number_only then truthy_str number
            else truthy_str alpha || truthy_str number) then
          tail <- entries_loop number_only use_usim record_len rest ;;
          ret ((rec, alpha, number) :: tail)
        else entries_loop number_only use_usim record_len rest
    else if (sw1 =? 106) && (sw2 =? 131) then ret []
    else entries_loop number_only use_usim record_len rest
  end.


(** The blocks of the fixed, service and last-dialled numbers (lines
    957-1078). *)
Definition read_dialling (file_id ceiling default_count : Z) (number_only : bool)
  : io card_state (list entry) :=
  '((data, sw1, sw2), use_usim) <- select_record_file file_id ;;
  if in_list sw1 [144; 159; 145; 97] then
    '(record_len, num_records) <- lift (dialling_geometry default_count data) ;;
    entries_loop number_only use_usim record_len
                 (range 1 (Z.min (num_records + 1) ceiling))
  else ret [].

Definition read_fdn : io card_state (list entry) := read_dialling 28475 51 10 false.
Definition read_sdn : io card_state (list entry) := read_dialling 28489 51 10 false.
Definition read_lnd : io card_state (list entry) := read_dialling 28484 21 5 true.

(** The loop of the message block (lines 1107-1131); [if sms:] holds for
    every dict [decode_sms] returns, since it has a status. *)
Fixpoint sms_loop (use_usim : bool) (record_len : Z) (recs : list Z)
  : io card_state (list (Z * sms_dict)) :=
  match recs with
  | [] => ret []
  | rec :: rest =>
    '(data, sw1, sw2) <- (if use_usim then read_record_usim transmit rec record_len
                          else read_record transmit rec record_len) ;;
    if (sw1 =? 144) && truthy data then
      sms <- lift (decode_sms utf16_be_decode toHexString data) ;;
      match sms with
      | Some (f :: d) =>
        tail <- sms_loop use_usim record_len rest ;;
        ret ((rec, f :: d) :: tail)
      | _ => sms_loop use_usim record_len rest
      end
    else if (sw1 =? 106) && (sw2 =? 131) then ret []
    else sms_loop use_usim record_len rest
  end.



End Blocks.



(* ================================================================== *)
(** ** The specification's vocabulary *)

(** The outcome of an exchange, as the specification classifies the status
    bytes (its section 4.1). [main.py] has no such function: it tests [sw1]
    and [sw2] where it branches. *)
Inductive StatusOutcome : Type :=
| Success
| MoreDataAvailable (length : Z)
| NotFound
| OtherError (sw1 sw2 : Z).

(** The classification in the specification's words, to compare the tests
    of [read_all] with. *)
Definition classifyOutcome (sw1 sw2 : Z) : StatusOutcome :=
  if (sw1 =? 144) && (sw2 =? 0) then Success
  else if (sw1 =? 159) || (sw1 =? 97) then MoreDataAvailable sw2
  else if (sw1 =? 106) && (sw2 =? 131) then NotFound
  else OtherError sw1 sw2.

(** The two command classes. *)
Inductive CommandClassDialect : Set := Legacy | UsimADF.

Section Dialect.

Variable card_state : Type.
Variable transmit : card_state -> list Z -> response * card_state.

(** Selection under a dialect: the function of that class. *)
Definition select_file (d : CommandClassDialect) (file_id : Z)
  : io card_state response :=
  match d with
  | Legacy => select_file_gsm transmit file_id
  | UsimADF => select_file_usim transmit file_id
  end.

End Dialect.

(** The class byte, the SELECT command, the GET RESPONSE command and the
    first status byte that triggers GET RESPONSE, per dialect. *)
Definition class_byte (d : CommandClassDialect) : Z :=
  match d with Legacy => 160 | UsimADF => 0 end.

Definition select_command (d : CommandClassDialect) (file_id : Z) : list Z :=
  [class_byte d; 164; 0; match d with Legacy => 0 | UsimADF => 4 end; 2;
   Z.land (Z.shiftr file_id 8) 255; Z.land file_id 255].

Definition get_response_command (d : CommandClassDialect) (length : Z) : list Z :=
  [class_byte d; 192; 0; 0; length].

Definition continuation_sw1 (d : CommandClassDialect) : Z :=
  match d with Legacy => 159 | UsimADF => 97 end.

(** The READ RECORD command of a dialect (mode absolute). *)
Definition read_record_command (use_usim : bool) (rec record_len : Z) : list Z :=
  [if use_usim then 0 else 160; 178; rec; 4; record_len].

(** Modelled from the spec: the re-encoder of the semi-octet round trip
    (section 8), which the repository does not have; it packs a digit string
    two digits per byte, first digit in the low nibble, and fills the high
    nibble of an odd last byte with 0xF. *)
Fixpoint encode_semi_octets (digits : pystr) : list Z :=
  match digits with
  | [] => []
  | [d] => [Z.lor (d - 48) (Z.shiftl 15 4)]
  | d1 :: d2 :: rest =>
    Z.lor (d1 - 48) (Z.shiftl (d2 - 48) 4) :: encode_semi_octets rest
  end.

(** What a buffer holds: ints from 0 to 255. *)
Definition byte (b : Z) : Prop := 0 <= b < 256.

(** A byte with no filler nibble, and a byte of two decimal nibbles. *)
Definition no_filler (byte : Z) : Prop :=
  0 <= byte < 256 /\ low_nibble byte <> 15 /\ high_nibble byte <> 15.

Definition decimal_byte (byte : Z) : Prop :=
  0 <= byte < 256 /\ low_nibble byte <= 9 /\ high_nibble byte <= 9.

(** What one byte contributes to a semi-octet decoding, and what the first
    byte of an identity number contributes. *)
Definition semi_octet (byte : Z) : pystr := append_semi_octet [] byte.

Definition high_digit (byte : Z) : pystr :=
  if high_nibble byte =? 15 then [] else str (high_nibble byte).

(** The character of a dialling number by nibble value: the decimal digit
    below ten, then the five signs; 0xF has none. *)
Definition bcd_char (nibble : Z) : pystr :=
  match nibble with
  | 10 => lit "*"
  | 11 => lit "#"
  | 12 => lit "p"
  | 13 => lit "w"
  | 14 => lit "+"
  | 15 => []
  | d => [48 + d]
  end.

Definition bcd_chars (byte : Z) : pystr :=
  bcd_char (low_nibble byte) ++ bcd_char (high_nibble byte).

(** The entry of one network-identifier group: the three country-code
    nibbles and the two or three network-code nibbles, each in decimal. *)
Definition plmn_entry (b1 b2 b3 : Z) : pystr :=
  str (Z.land b1 15) ++ str (Z.land (Z.shiftr b1 4) 15) ++ str (Z.land b2 15)
  ++ lit "-"
  ++ (if Z.land (Z.shiftr b2 4) 15 =? 15
      then str (Z.land b3 15) ++ str (Z.land (Z.shiftr b3 4) 15)
      else str (Z.land b3 15) ++ str (Z.land (Z.shiftr b3 4) 15)
           ++ str (Z.land (Z.shiftr b2 4) 15)).

(** The entries of a buffer, group by group: nothing for a group of three
    0xFF bytes, one entry for any other group, nothing for an incomplete
    last group. *)
Fixpoint plmn_entries (data : list Z) : list pystr :=
  match data with
  | b1 :: b2 :: b3 :: rest =>
    (if (b1 =? 255) && (b2 =? 255) && (b3 =? 255) then []
     else [plmn_entry b1 b2 b3]) ++ plmn_entries rest
  | _ => []
  end.

(** The character of a septet: its entry in the table. *)
Definition gsm7_at (septet : Z) : Z := nth (Z.to_nat septet) gsm7_basic 63.

(** A stand-in for a library codec in examples that do not reach it. *)
Definition raw_bytes (b : list Z) : pystr := b.

(** The buffer as one stream of bits, bit 0 of byte 0 first: the number
    whose base-256 digits are the bytes, byte 0 lowest. *)
Fixpoint bitstream (data : list Z) : Z :=
  match data with
  | [] => 0
  | b :: rest => b + 256 * bitstream rest
  end.

(** The k-th group of seven bits of the stream, and the number of groups
    that start inside the buffer. *)
Definition septet (data : list Z) (k : Z) : Z :=
  (bitstream data / 2 ^ (7 * k)) mod 128.

Definition septet_count (data : list Z) : Z := (8 * len data + 6) / 7.

(** A byte of a dialling number with no sign nibble (0xA to 0xE): each
    nibble is a decimal digit or the filler 0xF. *)
Definition no_sign (byte : Z) : Prop :=
  ~ 10 <= low_nibble byte <= 14 /\ ~ 10 <= high_nibble byte <= 14.

(** A decimal digit character. *)
Definition digit_char (c : Z) : Prop := 48 <= c <= 57.

(** The number a result of [decode_msisdn] carries. *)
Definition number_of (r : res (option msisdn_dict)) : res (option pystr) :=
  match r with
  | Ok d => Ok (option_map msisdn_number d)
  | Raise e => Raise e
  end.



(** A method that returns on every session. *)
Definition returns {card_state A : Type} (c : io card_state A) : Prop :=
  forall s : session card_state, exists (a : A) (s' : session card_state), c s = (Ok a, s').

(** The entries a dialling-number block prints for the records its loop
    keeps. *)
Section Printed.

Variable utf8_decode : list Z -> pystr.
Variable utf16_be_decode : list Z -> pystr.
Variable strip : pystr -> pystr.

Definition entry_of (number_only : bool) (record_len : Z) (r : Z * list Z)
  : list entry :=
  match decode_entry utf8_decode utf16_be_decode strip record_len (snd r) with
  | Ok (alpha, number) =>
    if (if number_only then truthy_str number
        else truthy_str alpha || truthy_str number)
    then [(fst r, alpha, number)] else []
  | Raise _ => []
  end.

End Printed.

(* ================================================================== *)
(** ** Example cards *)

(** A card without state: its answer depends on the command alone. *)
Definition stateless (answer : list Z -> response)
  : unit -> list Z -> response * unit :=
  fun _ apdu => (answer apdu, tt).

Definition fresh : session unit := Session tt [] false None None.

(** The instruction byte and the first parameter of a command. *)
Definition ins (apdu : list Z) : Z := nth 1 apdu 0.
Definition p1 (apdu : list Z) : Z := nth 2 apdu 0.

(** Answers 91 00 to every SELECT and hands out ten bytes on READ BINARY. *)
Definition card_91 (apdu : list Z) : response :=
  if ins apdu =? 164 then ([], 145, 0)
  else if ins apdu =? 176 then ([152; 16; 50; 84; 118; 152; 16; 50; 84; 118], 144, 0)
  else ([], 109, 0).

(** Answers 61 05 to every SELECT and five bytes to GET RESPONSE. *)
Definition card_61 (apdu : list Z) : response :=
  if ins apdu =? 164 then ([], 97, 5)
  else if ins apdu =? 192 then ([0; 0; 0; 40; 111], 144, 0)
  else ([], 109, 0).

(** Record 1 is refused with 98 04, record 2 holds data, record 3 is past
    the end. *)
Definition card_9804 (apdu : list Z) : response :=
  if negb (ins apdu =? 178) then ([], 109, 0)
  else if p1 apdu =? 1 then ([], 152, 4)
  else if p1 apdu =? 2 then ([2; 129; 33; 67], 144, 0)
  else ([], 106, 131).

(** Records 1-3 hold data, record 4 is unused, record 5 is not found; a
    read of a higher record would return data. *)
Definition card_walk (apdu : list Z) : response :=
  if negb (ins apdu =? 178) then ([], 109, 0)
  else if p1 apdu =? 4 then ([255; 255; 255; 255], 144, 0)
  else if p1 apdu =? 5 then ([], 106, 131)
  else ([p1 apdu; 129; 33; 67], 144, 0).

(** A card of class A0 with a contacts file of ten records of four bytes:
    the selection of a file answers a 15-byte descriptor (size 40 in bytes
    2-3, record length 4 in byte 14), and the records are those of
    [card_walk]. *)
Definition card_contacts (apdu : list Z) : response :=
  if ins apdu =? 164 then ([0; 0; 0; 40; 111; 58; 4; 0; 0; 0; 0; 0; 0; 0; 4], 144, 0)
  else card_walk apdu.

(* ================================================================== *)
(** * Properties *)

(** ** Python values: ranges, indexing, slices *)

Lemma range_nil (a b : Z) : b <= a -> range a b = [].
Proof.
  intros H. unfold range.
  replace (Z.to_nat (b - a)) with O by lia. reflexivity.
Qed.

Lemma range_cons (a b : Z) : a < b -> range a b = a :: range (a + 1) b.
Proof.
  intros H. unfold range.
  replace (Z.to_nat (b - a)) with (S (Z.to_nat (b - (a + 1)))) by lia.
  cbn [seq map]. f_equal; [lia|].
  rewrite <- seq_shift, map_map.
  apply map_ext. intros k. lia.
Qed.

Lemma range_In (a b x : Z) : a <= x < b -> In x (range a b).
Proof.
  intros H. unfold range. apply in_map_iff.
  exists (Z.to_nat (x - a)). split; [lia|].
  apply in_seq. lia.
Qed.

(** A Boolean property checked on every value of a range holds on it. *)
Lemma forall_range (P : Z -> bool) (a b : Z) :
  forallb P (range a b) = true -> forall x, a <= x < b -> P x = true.
Proof.
  intros H x Hx. rewrite forallb_forall in H. apply H, range_In, Hx.
Qed.

Lemma str_eqb_eq (a b : pystr) : str_eqb a b = true -> a = b.
Proof.
  revert b. induction a as [|x a IH]; intros [|y b]; cbn; try discriminate.
  - reflexivity.
  - intros H. apply andb_prop in H. destruct H as [Hx Hab].
    apply Z.eqb_eq in Hx. subst y. f_equal. apply IH, Hab.
Qed.

Lemma len_nonneg {A} (l : list A) : 0 <= len l.
Proof. unfold len. lia. Qed.

Lemma len_cons {A} (x : A) (l : list A) : len (x :: l) = len l + 1.
Proof. unfold len. cbn [List.length]. lia. Qed.

Lemma index_nth (data : list Z) (i : Z) :
  0 <= i < len data -> data.[i] = Ok (nth (Z.to_nat i) data 0).
Proof.
  intros H. unfold index.
  destruct (i <? 0) eqn:Hneg; [lia|].
  destruct ((i <? 0) || (len data <=? i)) eqn:Hout; [lia|].
  destruct (nth_error data (Z.to_nat i)) as [b|] eqn:Hnth.
  - f_equal. symmetry. apply nth_error_nth, Hnth.
  - apply nth_error_None in Hnth. unfold len in H. lia.
Qed.

Lemma index_out (data : list Z) (i : Z) :
  len data <= i -> data.[i] = Raise IndexError.
Proof.
  intros H. pose proof (len_nonneg data). unfold index.
  destruct (i <? 0) eqn:Hneg; [lia|].
  destruct ((i <? 0) || (len data <=? i)) eqn:Hout; [reflexivity|lia].
Qed.

Lemma index_skipn (data : list Z) (i x : Z) (rest : list Z) :
  0 <= i -> skipn (Z.to_nat i) data = x :: rest -> data.[i] = Ok x.
Proof.
  intros Hi Hs.
  assert (Hlen : (Z.to_nat i < List.length data)%nat).
  { destruct (Nat.lt_ge_cases (Z.to_nat i) (List.length data)) as [|Hge]; [assumption|].
    rewrite skipn_all2 in Hs by exact Hge. discriminate. }
  rewrite index_nth by (unfold len; lia). f_equal.
  rewrite <- (firstn_skipn (Z.to_nat i) data) at 1.
  rewrite app_nth2; rewrite length_firstn, Nat.min_l by lia; [|lia].
  rewrite Nat.sub_diag, Hs. reflexivity.
Qed.

Lemma skipn_succ_tail (data : list Z) (n : nat) (x : Z) (rest : list Z) :
  skipn n data = x :: rest -> skipn (S n) data = rest.
Proof.
  revert data. induction n as [|n IH]; intros [|y data] H; cbn in *; try discriminate.
  - congruence.
  - apply IH, H.
Qed.

Lemma skipn_succ_nil (data : list Z) (n : nat) :
  skipn n data = [] -> skipn (S n) data = [].
Proof.
  intros H. apply skipn_all_iff. apply skipn_all_iff in H. lia.
Qed.

Lemma index_ok (data : list Z) (i : Z) :
  0 <= i < len data -> exists b, data.[i] = Ok b /\ In b data.
Proof.
  intros H. rewrite index_nth by exact H. eexists. split; [reflexivity|].
  apply nth_In. unfold len in H. lia.
Qed.

Lemma Forall_slice {A} (P : A -> Prop) (l : list A) (a b : Z) :
  Forall P l -> Forall P (slice l a b).
Proof.
  intros H. unfold slice.
  set (a' := Z.to_nat (clamp (len l) a)).
  rewrite <- (firstn_skipn a' l) in H. apply Forall_app in H.
  destruct H as [_ H].
  set (n := Z.to_nat (clamp (len l) b - clamp (len l) a)).
  rewrite <- (firstn_skipn n (skipn a' l)) in H. apply Forall_app in H.
  exact (proj1 H).
Qed.

Lemma len_slice_from {A} (l : list A) (a : Z) :
  0 <= a -> len (slice_from l a) = Z.max 0 (len l - a).
Proof.
  intros Ha. unfold slice_from, slice, clamp.
  pose proof (len_nonneg l) as Hl.
  destruct (a <? 0) eqn:E1; [lia|].
  destruct (len l <? 0) eqn:E2; [lia|].
  unfold len in *. rewrite length_firstn, length_skipn. lia.
Qed.

(** One indexing that is in range: name the byte and go on. *)
Ltac index_step b :=
  match goal with
  | |- context [index ?d ?i] =>
    let Hb := fresh "Hidx" in
    let Hin := fresh "Hin" in
    destruct (@index_ok d i ltac:(lia)) as (b & Hb & Hin);
    rewrite Hb; clear Hb; cbn [bind ret res_monad]
  end.

(** ** Nibbles *)

Lemma low_nibble_range (b : Z) : 0 <= low_nibble b < 16.
Proof.
  unfold low_nibble. change 15 with (Z.ones 4).
  rewrite Z.land_ones by lia. apply Z.mod_pos_bound. reflexivity.
Qed.

Lemma high_nibble_range (b : Z) : 0 <= high_nibble b < 16.
Proof.
  unfold high_nibble. change 15 with (Z.ones 4).
  rewrite Z.land_ones by lia. apply Z.mod_pos_bound. reflexivity.
Qed.

Lemma str_digit (n : Z) : 0 <= n <= 9 -> str n = [48 + n].
Proof.
  intros H. apply str_eqb_eq.
  apply (@forall_range (fun n => str_eqb (str n) [48 + n]) 0 10);
    [vm_compute; reflexivity | lia].
Qed.

(** A byte is its two nibbles, low nibble in the low half. *)
Lemma byte_of_nibbles (b : Z) :
  0 <= b < 256 -> Z.lor (low_nibble b) (Z.shiftl (high_nibble b) 4) = b.
Proof.
  intros H. apply Z.eqb_eq.
  apply (@forall_range
           (fun b => Z.lor (low_nibble b) (Z.shiftl (high_nibble b) 4) =? b) 0 256);
    [vm_compute; reflexivity | exact H].
Qed.

(** ** The shared semi-octet routine *)

Lemma append_semi_octet_app (acc : pystr) (byte : Z) :
  append_semi_octet acc byte = acc ++ semi_octet byte.
Proof.
  unfold semi_octet, append_semi_octet.
  destruct (negb (low_nibble byte =? 15)), (negb (high_nibble byte =? 15)); cbn [app];
    rewrite ?app_nil_r, ?app_assoc; reflexivity.
Qed.

Lemma fold_semi_octet (data : list Z) (acc : pystr) :
  fold_left append_semi_octet data acc = acc ++ flat_map semi_octet data.
Proof.
  revert acc. induction data as [|b data IH]; intros acc; cbn [fold_left flat_map].
  - symmetry. apply app_nil_r.
  - rewrite IH, append_semi_octet_app, app_assoc. reflexivity.
Qed.

Lemma decode_iccid_flat_map (data : list Z) :
  decode_iccid data = flat_map semi_octet data.
Proof. unfold decode_iccid. rewrite fold_semi_octet. reflexivity. Qed.

Lemma semi_octet_decimal (b : Z) :
  decimal_byte b -> semi_octet b = [48 + low_nibble b; 48 + high_nibble b].
Proof.
  intros (_ & Hl & Hh).
  pose proof (low_nibble_range b). pose proof (high_nibble_range b).
  unfold semi_octet, append_semi_octet.
  destruct (low_nibble b =? 15) eqn:El; [lia|].
  destruct (high_nibble b =? 15) eqn:Eh; [lia|].
  cbn [negb app]. rewrite !str_digit by lia. reflexivity.
Qed.

(** C9, as stated, fails: a nibble from 0xA to 0xE is written as two decimal
    digits, so two different filler-free buffers decode to one digit string,
    and re-encoding that string returns neither of them. *)
Lemma semi_octet_round_trip_fails :
  Forall no_filler [26; 1] /\ Forall no_filler [1; 161] /\
  decode_iccid [26; 1] = decode_iccid [1; 161] /\
  encode_semi_octets (decode_iccid [26; 1]) <> [26; 1].
Proof.
  assert (H26 : no_filler 26) by (repeat split; vm_compute; congruence).
  assert (H1 : no_filler 1) by (repeat split; vm_compute; congruence).
  assert (H161 : no_filler 161) by (repeat split; vm_compute; congruence).
  split; [|split; [|split]].
  - apply Forall_cons; [exact H26|]. apply Forall_cons; [exact H1|]. apply Forall_nil.
  - apply Forall_cons; [exact H1|]. apply Forall_cons; [exact H161|]. apply Forall_nil.
  - vm_compute. reflexivity.
  - vm_compute. discriminate.
Qed.

(** C9, amended: for every buffer of bytes whose nibbles are all decimal
    (0 to 9), decoding with the shared semi-octet routine and re-encoding the
    digit string, low nibble first, gives the buffer back. *)
Theorem semi_octet_round_trip (data : list Z) :
  Forall decimal_byte data ->
  encode_semi_octets (decode_iccid data) = data.
Proof.
  intros H. rewrite decode_iccid_flat_map.
  induction H as [|b data Hb _ IH]; [reflexivity|].
  cbn [flat_map]. rewrite (semi_octet_decimal Hb).
  cbn [app encode_semi_octets]. rewrite IH. f_equal.
  replace (48 + low_nibble b - 48) with (low_nibble b) by lia.
  replace (48 + high_nibble b - 48) with (high_nibble b) by lia.
  apply byte_of_nibbles, Hb.
Qed.

Lemma semi_octet_round_trip_witness :
  encode_semi_octets (decode_iccid [152; 16; 50; 84]) = [152; 16; 50; 84].
Proof.
  apply semi_octet_round_trip.
  repeat (apply Forall_cons; [repeat split; vm_compute; congruence|]).
  apply Forall_nil.
Defined.

(** ** Identity number *)

(** The positions from 2 on: each visited byte contributes its two nibbles,
    and a position past the end contributes nothing. *)
Lemma imsi_fold_tail (data : list Z) (m : nat) :
  forall (a : Z) (acc : pystr),
    2 <= a ->
    fold_left (imsi_step data) (range a (a + Z.of_nat m)) (Ok acc)
    = Ok (acc ++ flat_map semi_octet (firstn m (skipn (Z.to_nat a) data))).
Proof.
  induction m as [|m IH]; intros a acc Ha.
  - rewrite range_nil by lia. cbn. rewrite app_nil_r. reflexivity.
  - rewrite range_cons by lia. cbn [fold_left].
    replace (a + Z.of_nat (S m)) with ((a + 1) + Z.of_nat m) by lia.
    unfold imsi_step at 2. cbn [bind res_monad].
    destruct (skipn (Z.to_nat a) data) as [|x rest] eqn:Hs.
    + assert (Hlen : len data <= a).
      { apply skipn_all_iff in Hs. unfold len. lia. }
      destruct (a <? len data) eqn:Hlt; [lia|]. cbn [ret res_monad].
      rewrite IH by lia.
      replace (Z.to_nat (a + 1)) with (S (Z.to_nat a)) by lia.
      rewrite (skipn_succ_nil _ _ Hs), !firstn_nil. reflexivity.
    + assert (Hlen : a < len data).
      { destruct (Z.lt_ge_cases a (len data)) as [|Hge]; [assumption|].
        rewrite skipn_all2 in Hs by (unfold len in Hge; lia). discriminate. }
      destruct (a <? len data) eqn:Hlt; [|lia].
      rewrite (index_skipn data (i := a) ltac:(lia) Hs).
      destruct (a =? 1) eqn:H1; [lia|]. cbn [ret res_monad].
      rewrite IH by lia.
      replace (Z.to_nat (a + 1)) with (S (Z.to_nat a)) by lia.
      rewrite (skipn_succ_tail _ _ Hs), append_semi_octet_app.
      cbn [firstn flat_map]. rewrite app_assoc. reflexivity.
Qed.

(** The loop returns on any list of positions that are not negative. *)
Lemma imsi_fold_returns (data : list Z) (positions : list Z) :
  Forall (fun i => 0 <= i) positions ->
  forall acc, exists imsi,
    fold_left (imsi_step data) positions (Ok acc) = Ok imsi.
Proof.
  intros H. induction H as [|i positions Hi _ IH]; intros acc; cbn [fold_left].
  - eauto.
  - unfold imsi_step at 2. cbn [bind res_monad].
    destruct (i <? len data) eqn:E; [|cbn; apply IH].
    destruct (index_ok data (i := i) ltac:(lia)) as (b & -> & _).
    cbn [bind res_monad]. destruct (i =? 1); cbn; apply IH.
Qed.

Lemma decode_imsi_returns (data : list Z) :
  exists imsi, decode_imsi data = Ok imsi.
Proof.
  unfold decode_imsi. destruct (len data <? 9) eqn:E; [cbn; eauto|].
  destruct (index_ok data (i := 0) ltac:(lia)) as (length & -> & _).
  cbn [bind ret res_monad].
  assert (Hpos : Forall (fun i => 0 <= i) (range 1 (length + 1))).
  { apply Forall_forall. intros i Hi. unfold range in Hi.
    apply in_map_iff in Hi. destruct Hi as (k & <- & _). lia. }
  destruct (imsi_fold_returns data Hpos []) as (imsi & Hfold).
  change (@Ok (list Z) []) with (@Ok pystr []). rewrite Hfold.
  cbn. eauto.
Qed.

(** C6, as stated, fails: a 9-byte identity file whose first byte is 8 decodes
    to 15 digits, not 8. *)
Lemma decode_imsi_count_is_not_digits :
  decode_imsi [8; 41; 67; 5; 16; 16; 50; 84; 118]
  = Ok (Some (lit "234500101234567"))
  /\ len (lit "234500101234567") <> 8.
Proof. split; vm_compute; [reflexivity | discriminate]. Qed.

(** C6, amended: for every buffer of at least 9 bytes, the identity-number
    decoder reads the first byte as a count of bytes, not of digits: it
    decodes the bytes at positions 1 to that count (as far as the buffer
    goes), taking from the first of them its high nibble only and from each
    following byte the low nibble before the high nibble, 0xF nibbles
    dropped. *)
Theorem decode_imsi_bytes (data : list Z) :
  9 <= len data ->
  decode_imsi data
  = Ok (Some match firstn (Z.to_nat (nth 0 data 0)) (tl data) with
             | [] => []
             | b :: bs => high_digit b ++ flat_map semi_octet bs
             end).
Proof.
  intros Hlen. unfold decode_imsi.
  destruct (len data <? 9) eqn:H9; [lia|].
  rewrite index_nth by lia. cbn [bind res_monad Z.to_nat nth].
  destruct data as [|length [|b1 rest]];
    try (unfold len in Hlen; cbn in Hlen; lia).
  cbn [nth tl].
  destruct (Z.le_gt_cases length 0) as [Hle|Hgt].
  - rewrite range_nil by lia.
    replace (Z.to_nat length) with O by lia. reflexivity.
  - rewrite range_cons by lia. cbn [fold_left].
    unfold imsi_step at 2. cbn [bind ret res_monad].
    destruct (1 <? len (length :: b1 :: rest)) eqn:H1; [|lia].
    rewrite index_nth by lia.
    change (nth (Z.to_nat 1) (length :: b1 :: rest) 0) with b1.
    change (1 =? 1) with true. cbn [bind ret res_monad app].
    replace (length + 1) with (2 + Z.of_nat (Z.to_nat (length - 1))) by lia.
    change (1 + 1) with 2.
    rewrite imsi_fold_tail by lia. cbn [bind ret res_monad].
    replace (Z.to_nat length) with (S (Z.to_nat (length - 1))) by lia.
    change (Z.to_nat 2) with 2%nat. cbn [firstn skipn].
    unfold high_digit.
    destruct (high_nibble b1 =? 15); reflexivity.
Qed.

Lemma decode_imsi_bytes_witness :
  decode_imsi [8; 41; 67; 5; 16; 16; 50; 84; 118]
  = Ok (Some match firstn (Z.to_nat 8) [41; 67; 5; 16; 16; 50; 84; 118] with
             | [] => []
             | b :: bs => high_digit b ++ flat_map semi_octet bs
             end).
Proof.
  apply (decode_imsi_bytes [8; 41; 67; 5; 16; 16; 50; 84; 118]).
  vm_compute. discriminate.
Defined.

(** ** Dialling numbers *)

Lemma digit_map_bcd_char (n : Z) :
  0 <= n < 16 ->
  (if n =? 15 then [] else dict_get digit_map n (str n)) = bcd_char n.
Proof.
  intros H. apply str_eqb_eq.
  apply (@forall_range
           (fun n => str_eqb (if n =? 15 then [] else dict_get digit_map n (str n))
                             (bcd_char n)) 0 16);
    [vm_compute; reflexivity | exact H].
Qed.

Lemma append_bcd_app (number : pystr) (byte : Z) :
  append_bcd number byte = number ++ bcd_chars byte.
Proof.
  unfold append_bcd, bcd_chars.
  rewrite <- (digit_map_bcd_char (low_nibble_range byte)).
  rewrite <- (digit_map_bcd_char (high_nibble_range byte)).
  destruct (low_nibble byte =? 15), (high_nibble byte =? 15); cbn [negb app];
    rewrite ?app_nil_r, ?app_assoc; reflexivity.
Qed.

Lemma fold_append_bcd (bytes : list Z) (number : pystr) :
  fold_left append_bcd bytes number = number ++ flat_map bcd_chars bytes.
Proof.
  revert number. induction bytes as [|b bytes IH]; intros number;
    cbn [fold_left flat_map].
  - symmetry. apply app_nil_r.
  - rewrite IH, append_bcd_app, app_assoc. reflexivity.
Qed.

(** [data[2:2 + n - 1]] of a buffer of at least two bytes, for a positive
    [n]: the first [n - 1] bytes after the two. *)
Lemma slice_number_bytes (a b : Z) (rest : list Z) (n : Z) :
  0 < n ->
  slice (a :: b :: rest) 2 (2 + n - 1) = firstn (Z.to_nat (n - 1)) rest.
Proof.
  intros Hn. unfold slice, clamp.
  rewrite !len_cons. pose proof (len_nonneg rest) as Hr.
  destruct (2 <? 0) eqn:H2; [lia|].
  destruct (2 + n - 1 <? 0) eqn:H3; [lia|].
  replace (Z.to_nat (Z.min 2 (len rest + 1 + 1))) with 2%nat by lia.
  cbn [skipn].
  destruct (Z.le_gt_cases (n - 1) (len rest)) as [Hle|Hgt].
  - f_equal. lia.
  - rewrite !firstn_all2; [reflexivity| |]; unfold len in *; lia.
Qed.

(** C10: for every buffer with a length byte other than 0x00 and 0xFF, the
    decoded number is the optional [+] of an international number followed by
    one character per nibble of the number bytes, low nibble first: a decimal
    digit for 0 to 9, and [*], [#], [p], [w], [+] for 0xA to 0xE; only the
    nibble 0xF yields no character. *)
Theorem decode_bcd_number_chars
  (bcd_len ton_npi : Z) (rest : list Z) (include_ton : bool) :
  0 < bcd_len < 255 ->
  decode_bcd_number (bcd_len :: ton_npi :: rest) include_ton
  = Ok (let number :=
          (if include_ton && (ton_npi =? 145) then lit "+" else [])
          ++ flat_map bcd_chars (firstn (Z.to_nat (bcd_len - 1)) rest) in
        if truthy number then Some number else None)
  /\ bcd_char 10 = lit "*" /\ bcd_char 11 = lit "#" /\ bcd_char 12 = lit "p"
  /\ bcd_char 13 = lit "w" /\ bcd_char 14 = lit "+"
  /\ forall nibble, 0 <= nibble < 16 -> (bcd_char nibble = [] <-> nibble = 15).
Proof.
  intros Hlen. split; [|repeat (split; [reflexivity|])].
  - unfold decode_bcd_number.
    pose proof (len_nonneg rest) as Hr.
    assert (H2 : (len (bcd_len :: ton_npi :: rest) <? 2) = false)
      by (rewrite !len_cons; lia).
    cbn [truthy negb orb]. rewrite H2.
    rewrite index_nth by (rewrite !len_cons; lia).
    change (nth (Z.to_nat 0) (bcd_len :: ton_npi :: rest) 0) with bcd_len.
    cbn [bind res_monad].
    destruct (bcd_len =? 255) eqn:Hff; [lia|].
    destruct (bcd_len =? 0) eqn:H0; [lia|]. cbn [orb].
    rewrite index_nth by (rewrite !len_cons; lia).
    change (nth (Z.to_nat 1) (bcd_len :: ton_npi :: rest) 0) with ton_npi.
    cbn [bind ret res_monad].
    rewrite slice_number_bytes by lia.
    rewrite fold_append_bcd. reflexivity.
  - intros nibble Hn. split; [|intros ->; reflexivity].
    intros Hnil.
    assert (Hc : nibble = 0 \/ nibble = 1 \/ nibble = 2 \/ nibble = 3
                 \/ nibble = 4 \/ nibble = 5 \/ nibble = 6 \/ nibble = 7
                 \/ nibble = 8 \/ nibble = 9 \/ nibble = 10 \/ nibble = 11
                 \/ nibble = 12 \/ nibble = 13 \/ nibble = 14 \/ nibble = 15) by lia.
    repeat (destruct Hc as [->|Hc]; [discriminate Hnil|]). exact Hc.
Qed.

Lemma decode_bcd_number_chars_witness :
  decode_bcd_number [4; 129; 186; 220; 254] true = Ok (Some (lit "*#pw+")).
Proof.
  apply (decode_bcd_number_chars (bcd_len := 4) 129 [186; 220; 254] true).
  lia.
Defined.

(** The decoder returns on every buffer. *)
Lemma decode_bcd_number_returns (data : list Z) (include_ton : bool) :
  exists number, decode_bcd_number data include_ton = Ok number.
Proof.
  unfold decode_bcd_number.
  destruct (negb (truthy data) || (len data <? 2)) eqn:E; [cbn; eauto|].
  apply orb_false_elim in E. destruct E as [_ E].
  destruct (index_ok data (i := 0) ltac:(lia)) as (bcd_len & -> & _).
  cbn [bind res_monad].
  destruct ((bcd_len =? 255) || (bcd_len =? 0)); [cbn; eauto|].
  destruct (index_ok data (i := 1) ltac:(lia)) as (ton_npi & -> & _).
  cbn. eauto.
Qed.

(** ** Network identifiers *)

(** The country code is written in decimal, so it never reads "FFF". *)
Lemma mcc_is_never_FFF (d1 d2 d3 : Z) :
  0 <= d1 < 16 -> 0 <= d2 < 16 -> 0 <= d3 < 16 ->
  str_eqb (str d1 ++ str d2 ++ str d3) (lit "FFF") = false.
Proof.
  intros H1 H2 H3.
  assert (Hhd : forall d, 0 <= d < 16 ->
                exists c s, str d = c :: s /\ 48 <= c <= 57).
  { intros d Hd.
    assert (Hb : (match str d with
                  | c :: _ => (48 <=? c) && (c <=? 57)
                  | [] => false
                  end) = true).
    { apply (@forall_range
               (fun d => match str d with
                         | c :: _ => (48 <=? c) && (c <=? 57)
                         | [] => false
                         end) 0 16); [vm_compute; reflexivity | exact Hd]. }
    destruct (str d) as [|c s]; [discriminate|].
    exists c, s. split; [reflexivity|].
    apply andb_prop in Hb. lia. }
  destruct (Hhd d1 H1) as (c & s & -> & Hc).
  cbn. destruct (c =? 70) eqn:E; [lia | reflexivity].
Qed.

(** C7, on the code: the test [mcc != "FFF"] never rejects a group. Every
    3-byte group that is not entirely 0xFF yields an entry, also one whose
    three country-code nibbles are 0xF. *)
Theorem decode_plmn_never_rejects (b1 b2 b3 : Z) :
  (b1 =? 255) && (b2 =? 255) && (b3 =? 255) = false ->
  decode_plmn [b1; b2; b3] = Ok [plmn_entry b1 b2 b3].
Proof.
  intros Hff. unfold decode_plmn.
  change (range_step 0 (len [b1; b2; b3]) 3) with [0].
  cbn [plmn_loop]. change (0 + 2 >=? len [b1; b2; b3]) with false.
  change ([b1; b2; b3].[0]) with (Ok b1).
  change ([b1; b2; b3].[0 + 1]) with (Ok b2).
  change ([b1; b2; b3].[0 + 2]) with (Ok b3).
  cbn [bind ret res_monad]. rewrite Hff.
  rewrite mcc_is_never_FFF by (apply low_nibble_range || apply high_nibble_range).
  cbn [negb app]. unfold plmn_entry.
  destruct (Z.land (Z.shiftr b2 4) 15 =? 15); rewrite <- ?app_assoc; reflexivity.
Qed.

Lemma decode_plmn_never_rejects_witness :
  decode_plmn [255; 255; 100] = Ok [lit "151515-46"].
Proof.
  apply (decode_plmn_never_rejects 255 255 100). reflexivity.
Defined.

Lemma step_list_cons (i : Z) (m : nat) :
  map (fun k => i + 3 * Z.of_nat k) (seq 0 (S m))
  = i :: map (fun k => (i + 3) + 3 * Z.of_nat k) (seq 0 m).
Proof.
  cbn [seq map]. f_equal; [lia|].
  rewrite <- seq_shift, map_map. apply map_ext. intros k. lia.
Qed.

Lemma plmn_loop_entries (data : list Z) (m : nat) :
  forall (i : Z) (plmns : list pystr),
    0 <= i -> len data - i <= 3 * Z.of_nat m ->
    plmn_loop data (map (fun k => i + 3 * Z.of_nat k) (seq 0 m)) plmns
    = Ok (plmns ++ plmn_entries (skipn (Z.to_nat i) data)).
Proof.
  induction m as [|m IH]; intros i plmns Hi Hm.
  - rewrite skipn_all2 by (unfold len in Hm; lia).
    cbn. rewrite app_nil_r. reflexivity.
  - rewrite step_list_cons. cbn [plmn_loop].
    assert (Hlen : List.length (skipn (Z.to_nat i) data)
                   = (List.length data - Z.to_nat i)%nat) by apply length_skipn.
    destruct (i + 2 >=? len data) eqn:Hbreak.
    + destruct (skipn (Z.to_nat i) data) as [|b1 [|b2 [|b3 rest]]];
        try (cbn; rewrite app_nil_r; reflexivity).
      cbn [List.length] in Hlen. unfold len in Hbreak. lia.
    + destruct (skipn (Z.to_nat i) data) as [|b1 [|b2 [|b3 rest]]] eqn:Hs;
        try (cbn [List.length] in Hlen; unfold len in Hbreak; lia).
      pose proof (skipn_succ_tail _ _ Hs) as Hs1.
      pose proof (skipn_succ_tail _ _ Hs1) as Hs2.
      pose proof (skipn_succ_tail _ _ Hs2) as Hs3.
      replace (S (Z.to_nat i)) with (Z.to_nat (i + 1)) in Hs1 by lia.
      replace (S (S (Z.to_nat i))) with (Z.to_nat (i + 2)) in Hs2 by lia.
      replace (S (S (S (Z.to_nat i)))) with (Z.to_nat (i + 3)) in Hs3 by lia.
      rewrite (index_skipn data (i := i) Hi Hs).
      rewrite (index_skipn data (i := i + 1) ltac:(lia) Hs1).
      rewrite (index_skipn data (i := i + 2) ltac:(lia) Hs2).
      cbn [bind ret res_monad plmn_entries].
      destruct ((b1 =? 255) && (b2 =? 255) && (b3 =? 255)) eqn:Hff.
      * rewrite IH by lia. rewrite Hs3. reflexivity.
      * rewrite mcc_is_never_FFF
          by (apply low_nibble_range || apply high_nibble_range).
        cbn [negb]. rewrite IH by lia. rewrite Hs3, <- app_assoc.
        cbn [app]. unfold plmn_entry.
        destruct (Z.land (Z.shiftr b2 4) 15 =? 15);
          rewrite <- ?app_assoc; reflexivity.
Qed.

(** [range(0, len(data), 3)] has a start for every group. *)
Lemma group_starts_cover (data : list Z) :
  len data - 0 <= 3 * Z.of_nat (Z.to_nat ((len data - 0 + 3 - 1) / 3)).
Proof.
  pose proof (len_nonneg data).
  rewrite Z2Nat.id by (apply Z.div_pos; lia).
  Z.div_mod_to_equations. lia.
Qed.

(** For every buffer, the decoder returns the entries of its complete
    3-byte groups: none for a group of three 0xFF bytes, one for every
    other group. *)
Theorem decode_plmn_entries (data : list Z) :
  decode_plmn data = Ok (plmn_entries data).
Proof.
  unfold decode_plmn, range_step.
  rewrite plmn_loop_entries.
  - reflexivity.
  - lia.
  - apply group_starts_cover.
Qed.

(** The example of the specification: one group, country code 123, network
    code 46. *)
Example decode_plmn_example :
  decode_plmn [33; 243; 100] = Ok [lit "123-46"].
Proof. reflexivity. Qed.

(** ** Packed 7-bit text *)

Lemma gsm7_basic_index (septet : Z) :
  0 <= septet < 128 -> gsm7_basic.[septet] = Ok (gsm7_at septet).
Proof.
  intros H. rewrite index_nth by exact H. unfold gsm7_at. f_equal.
  apply nth_indep. change (List.length gsm7_basic) with 128%nat. lia.
Qed.

(** Two numbers with no bit in common: their [|] is their sum. *)
Lemma lor_disjoint (a b : Z) : Z.land a b = 0 -> Z.lor a b = a + b.
Proof.
  intros H. rewrite <- Z.lxor_lor by exact H.
  symmetry. apply Z.add_nocarry_lxor, H.
Qed.

(** The second septet: bit 7 of the first byte below the six low bits of the
    second byte. *)
Lemma gsm7_second_septet (b0 b1 : Z) :
  0 <= b0 < 256 ->
  Z.lor (Z.land (Z.shiftr b0 7) 127) (Z.land (Z.shiftl b1 (8 - 7)) 127)
  = b0 / 128 + 2 * (b1 mod 64).
Proof.
  intros H0.
  change 127 with (Z.ones 7). rewrite !Z.land_ones by lia.
  rewrite Z.shiftr_div_pow2, Z.shiftl_mul_pow2 by lia.
  change (2 ^ 7) with 128. change (2 ^ (8 - 7)) with 2.
  assert (Hq : 0 <= b0 / 128 <= 1) by (Z.div_mod_to_equations; lia).
  rewrite (Z.mod_small (b0 / 128)) by lia.
  replace (b1 * 2 mod 128) with (2 * (b1 mod 64))
    by (Z.div_mod_to_equations; lia).
  apply lor_disjoint.
  destruct (Z.eq_dec (b0 / 128) 0) as [->|Hne]; [apply Z.land_0_l|].
  replace (b0 / 128) with (Z.ones 1) by (cbn; lia).
  rewrite Z.land_comm, Z.land_ones by lia.
  change (2 ^ 1) with 2. rewrite Z.mul_comm. apply Z.mod_mul. lia.
Qed.

(** C8: the 1-byte buffer [0x31] with one character requested decodes to the
    table entry at 0x31 & 0x7F, the digit 1; and a 2-character request on a
    buffer of at least two bytes returns the entry of the low seven bits of
    byte 0, then the entry of the septet made of bit 7 of byte 0 (its lowest
    bit) and the six low bits of byte 1 (above it). *)
Theorem decode_gsm7_straddle (b0 b1 : Z) (rest : list Z) :
  0 <= b0 < 256 ->
  decode_gsm7 [49] 1 = Ok [gsm7_at (Z.land 49 127)]
  /\ [gsm7_at (Z.land 49 127)] = lit "1"
  /\ decode_gsm7 (b0 :: b1 :: rest) 2
     = Ok [gsm7_at (b0 mod 128); gsm7_at (b0 / 128 + 2 * (b1 mod 64))].
Proof.
  intros H0. split; [reflexivity|]. split; [reflexivity|].
  pose proof (len_nonneg rest) as Hr.
  assert (Hlen : len (b0 :: b1 :: rest) = len rest + 2)
    by (rewrite !len_cons; lia).
  unfold decode_gsm7. change (Z.to_nat 2) with 2%nat.
  cbn [gsm7_loop].
  destruct (0 >=? len (b0 :: b1 :: rest)) eqn:Hge; [lia|].
  (* first character: bits 0-6 of byte 0 *)
  unfold gsm7_char_val at 1.
  rewrite index_nth by lia.
  change (nth (Z.to_nat 0) (b0 :: b1 :: rest) 0) with b0.
  change (0 >? 1) with false. cbn [andb bind ret res_monad].
  rewrite Z.shiftr_0_r.
  change (0 + 7 >=? 8) with false. cbv iota beta.
  assert (Hs0 : Z.land b0 127 = b0 mod 128).
  { change 127 with (Z.ones 7). rewrite Z.land_ones by lia. reflexivity. }
  rewrite Hs0.
  assert (Hm : 0 <= b0 mod 128 < 128) by (apply Z.mod_pos_bound; lia).
  change (len gsm7_basic) with 128.
  destruct (b0 mod 128 <? 128) eqn:Hlt; [|lia].
  rewrite gsm7_basic_index by exact Hm. cbn [bind ret res_monad app].
  rewrite Hge.
  (* second character: bit 7 of byte 0 and bits 0-5 of byte 1 *)
  unfold gsm7_char_val.
  rewrite index_nth by lia.
  change (nth (Z.to_nat 0) (b0 :: b1 :: rest) 0) with b0.
  change (0 + 7 >? 1) with true.
  destruct (0 + 1 <? len (b0 :: b1 :: rest)) eqn:H1; [|lia].
  cbn [andb bind ret res_monad].
  rewrite index_nth by lia.
  change (nth (Z.to_nat (0 + 1)) (b0 :: b1 :: rest) 0) with b1.
  cbn [bind ret res_monad].
  change (0 + 7) with 7. rewrite gsm7_second_septet by exact H0.
  assert (Hc : 0 <= b0 / 128 + 2 * (b1 mod 64) < 128)
    by (Z.div_mod_to_equations; lia).
  change (7 + 7 >=? 8) with true. cbv iota beta.
  destruct (b0 / 128 + 2 * (b1 mod 64) <? 128) eqn:Hlt2; [|lia].
  rewrite gsm7_basic_index by exact Hc. reflexivity.
Qed.

Lemma decode_gsm7_straddle_witness :
  decode_gsm7 [232; 50] 2 = Ok (lit "he").
Proof.
  apply (decode_gsm7_straddle (b0 := 232) 50 []). lia.
Defined.

(** The decoder returns on every buffer and every requested length. *)
Lemma septet_range (x : Z) : 0 <= Z.land x 127 < 128.
Proof.
  change 127 with (Z.ones 7). rewrite Z.land_ones by lia.
  apply Z.mod_pos_bound. reflexivity.
Qed.

Lemma gsm7_char_val_returns (data : list Z) (byte_pos bit_pos : Z) :
  0 <= byte_pos < len data ->
  exists v, gsm7_char_val data byte_pos bit_pos = Ok v /\ 0 <= v < 128.
Proof.
  intros H. unfold gsm7_char_val.
  destruct (index_ok data H) as (cur & -> & _). cbn [bind ret res_monad].
  destruct ((bit_pos >? 1) && (byte_pos + 1 <? len data)) eqn:E.
  - apply andb_prop in E. destruct E as [_ E].
    destruct (index_ok data (i := byte_pos + 1) ltac:(lia)) as (next & -> & _).
    cbn [bind ret res_monad]. eexists. split; [reflexivity|].
    rewrite <- Z.land_lor_distr_l. apply septet_range.
  - eexists. split; [reflexivity|]. apply septet_range.
Qed.

Lemma gsm7_loop_returns (data : list Z) (turns : nat) :
  forall (result : pystr) (byte_pos bit_pos : Z),
    0 <= byte_pos ->
    exists text, gsm7_loop data turns result byte_pos bit_pos = Ok text.
Proof.
  induction turns as [|turns IH]; intros result byte_pos bit_pos Hpos;
    cbn [gsm7_loop]; [cbn; eauto|].
  destruct (byte_pos >=? len data) eqn:E; [cbn; eauto|].
  destruct (gsm7_char_val_returns data (byte_pos := byte_pos) bit_pos ltac:(lia))
    as (v & -> & Hv).
  cbn [bind res_monad].
  change (len gsm7_basic) with 128.
  destruct (v <? 128) eqn:Ev; [|lia].
  rewrite gsm7_basic_index by exact Hv. cbn [bind res_monad].
  destruct (bit_pos + 7 >=? 8); apply IH; lia.
Qed.

Lemma decode_gsm7_returns (data : list Z) (num_chars : Z) :
  exists text, decode_gsm7 data num_chars = Ok text.
Proof. apply gsm7_loop_returns. lia. Qed.

(** *** The text as a stream of septets *)

Lemma bitstream_testbit (data : list Z) :
  Forall byte data ->
  forall n, 0 <= n ->
    Z.testbit (bitstream data) n
    = Z.testbit (nth (Z.to_nat (n / 8)) data 0) (n mod 8).
Proof.
  intros H. induction H as [|b rest Hb _ IH]; intros n Hn.
  - cbn [bitstream]. destruct (Z.to_nat (n / 8)); cbn [nth];
      rewrite !Z.testbit_0_l; reflexivity.
  - cbn [bitstream]. unfold byte in Hb.
    destruct (Z.lt_ge_cases n 8) as [Hlow|Hhigh].
    + replace (n / 8) with 0 by (Z.div_mod_to_equations; lia).
      rewrite Z.mod_small by lia. cbn [Z.to_nat nth].
      rewrite <- (Z.mod_pow2_bits_low (b + 256 * bitstream rest) 8 n) by lia.
      f_equal. change (2 ^ 8) with 256.
      Z.div_mod_to_equations. lia.
    + replace n with ((n - 8) + 8) at 1 by lia.
      rewrite <- Z.div_pow2_bits by lia. change (2 ^ 8) with 256.
      replace ((b + 256 * bitstream rest) / 256) with (bitstream rest)
        by (Z.div_mod_to_equations; lia).
      rewrite IH by lia.
      replace (Z.to_nat (n / 8)) with (S (Z.to_nat ((n - 8) / 8)))
        by (Z.div_mod_to_equations; lia).
      cbn [nth]. f_equal. Z.div_mod_to_equations. lia.
Qed.

Lemma byte_testbit_high (b n : Z) : byte b -> 8 <= n -> Z.testbit b n = false.
Proof.
  intros Hb Hn. unfold byte in Hb.
  rewrite <- (Z.mod_small b (2 ^ 8)) by (change (2 ^ 8) with 256; lia).
  apply Z.mod_pow2_bits_high. lia.
Qed.

Lemma septet_testbit (data : list Z) (k t : Z) :
  Forall byte data -> 0 <= k -> 0 <= t ->
  Z.testbit (septet data k) t
  = (t <? 7) && Z.testbit (nth (Z.to_nat ((7 * k + t) / 8)) data 0)
                          ((7 * k + t) mod 8).
Proof.
  intros Hd Hk Ht. unfold septet. change 128 with (2 ^ 7).
  destruct (t <? 7) eqn:E.
  - rewrite Z.mod_pow2_bits_low by lia.
    rewrite Z.div_pow2_bits by lia.
    rewrite bitstream_testbit by (exact Hd || lia).
    cbn [andb]. f_equal; [f_equal; f_equal|]; f_equal; lia.
  - apply Z.mod_pow2_bits_high. lia.
Qed.

Lemma nth_byte (data : list Z) (j : nat) : Forall byte data -> byte (nth j data 0).
Proof.
  intros H. destruct (Nat.lt_ge_cases j (List.length data)) as [Hlt|Hge].
  - rewrite Forall_forall in H. apply H, nth_In, Hlt.
  - rewrite nth_overflow by exact Hge. unfold byte. lia.
Qed.

(** The value the code computes for character [k] is the k-th septet. *)
Lemma gsm7_char_val_septet (data : list Z) (k : Z) :
  Forall byte data -> 0 <= k -> (7 * k) / 8 < len data ->
  gsm7_char_val data ((7 * k) / 8) ((7 * k) mod 8) = Ok (septet data k).
Proof.
  intros Hd Hk Hin.
  set (bp := (7 * k) / 8). set (bit := (7 * k) mod 8).
  assert (Hbit : 0 <= bit < 8) by (apply Z.mod_pos_bound; lia).
  assert (Hbp : 0 <= bp) by (apply Z.div_pos; lia).
  assert (Hsplit : 7 * k = 8 * bp + bit) by (apply Z.div_mod; lia).
  unfold gsm7_char_val.
  rewrite index_nth by (fold bp; lia). cbn [bind ret res_monad].
  set (cur := nth (Z.to_nat bp) data 0).
  assert (Hcur : byte cur) by apply nth_byte, Hd.
  assert (Hpos : forall t, 0 <= t ->
             (7 * k + t) / 8 = (if bit + t <? 8 then bp else bp + 1)
             \/ 16 <= bit + t).
  { intros t Ht. destruct (bit + t <? 8) eqn:E.
    - left. Z.div_mod_to_equations. lia.
    - destruct (Z.lt_ge_cases (bit + t) 16); [left|right; lia].
      Z.div_mod_to_equations. lia. }
  destruct ((bit >? 1) && (bp + 1 <? len data)) eqn:E.
  - apply andb_prop in E. destruct E as [Hb1 Hnext].
    rewrite index_nth by lia. cbn [bind ret res_monad].
    set (next := nth (Z.to_nat (bp + 1)) data 0).
    f_equal. apply Z.bits_inj'. intros t Ht.
    rewrite septet_testbit by (exact Hd || lia).
    rewrite Z.lor_spec, !Z.land_spec, Z.shiftr_spec, Z.shiftl_spec by lia.
    change 127 with (Z.ones 7). rewrite Z.testbit_ones_nonneg by lia.
    destruct (t <? 7) eqn:E7; cbn [andb];
      [rewrite !andb_true_r | rewrite !andb_false_r; reflexivity].
    assert (Ht7 : t < 7) by lia.
    destruct (bit + t <? 8) eqn:E8.
    + replace ((7 * k + t) / 8) with bp by (Z.div_mod_to_equations; lia).
      replace ((7 * k + t) mod 8) with (bit + t)
        by (Z.div_mod_to_equations; lia).
      rewrite (Z.testbit_neg_r next) by lia.
      rewrite orb_false_r. fold cur. f_equal. lia.
    + replace ((7 * k + t) / 8) with (bp + 1) by (Z.div_mod_to_equations; lia).
      replace ((7 * k + t) mod 8) with (t - (8 - bit))
        by (Z.div_mod_to_equations; lia).
      rewrite (byte_testbit_high (b := cur) (n := t + bit)) by (exact Hcur || lia).
      reflexivity.
  - f_equal. apply Z.bits_inj'. intros t Ht.
    rewrite septet_testbit by (exact Hd || lia).
    rewrite Z.land_spec, Z.shiftr_spec by lia.
    change 127 with (Z.ones 7). rewrite Z.testbit_ones_nonneg by lia.
    destruct (t <? 7) eqn:E7; cbn [andb];
      [rewrite andb_true_r | rewrite andb_false_r; reflexivity].
    assert (Ht7 : t < 7) by lia.
    destruct (bit + t <? 8) eqn:E8.
    + replace ((7 * k + t) / 8) with bp by (Z.div_mod_to_equations; lia).
      replace ((7 * k + t) mod 8) with (bit + t)
        by (Z.div_mod_to_equations; lia).
      fold cur. f_equal. lia.
    + rewrite (byte_testbit_high (b := cur) (n := t + bit)) by (exact Hcur || lia).
      assert (Hlast : len data <= bp + 1).
      { apply andb_false_iff in E. destruct E as [E|E]; lia. }
      replace ((7 * k + t) / 8) with (bp + 1) by (Z.div_mod_to_equations; lia).
      rewrite nth_overflow by (unfold len in Hlast; lia).
      rewrite Z.testbit_0_l. reflexivity.
Qed.

Lemma septet_range_of (data : list Z) (k : Z) : 0 <= septet data k < 128.
Proof. unfold septet. apply Z.mod_pos_bound. reflexivity. Qed.

Lemma gsm7_loop_septets (data : list Z) (turns : nat) :
  Forall byte data ->
  forall (k : Z) (result : pystr),
    0 <= k ->
    gsm7_loop data turns result ((7 * k) / 8) ((7 * k) mod 8)
    = Ok (result
          ++ map (fun j => gsm7_at (septet data j))
                 (range k (Z.min (k + Z.of_nat turns) (septet_count data)))).
Proof.
  intros Hd. induction turns as [|turns IH]; intros k result Hk.
  - rewrite range_nil by lia. cbn. rewrite app_nil_r. reflexivity.
  - cbn [gsm7_loop].
    assert (Hcount : k < septet_count data <-> (7 * k) / 8 < len data).
    { unfold septet_count. pose proof (len_nonneg data).
      Z.div_mod_to_equations. lia. }
    destruct ((7 * k) / 8 >=? len data) eqn:Hbreak.
    + rewrite range_nil by lia. cbn. rewrite app_nil_r. reflexivity.
    + rewrite gsm7_char_val_septet by (exact Hd || lia).
      cbn [bind ret res_monad].
      pose proof (septet_range_of data k) as Hs.
      change (len gsm7_basic) with 128.
      destruct (septet data k <? 128) eqn:Elt; [|lia].
      rewrite gsm7_basic_index by exact Hs. cbn [bind ret res_monad].
      assert (Hnext : (if (7 * k) mod 8 + 7 >=? 8
                       then ((7 * k) mod 8 + 7 - 8, (7 * k) / 8 + 1)
                       else ((7 * k) mod 8 + 7, (7 * k) / 8))
                      = ((7 * (k + 1)) mod 8, (7 * (k + 1)) / 8)).
      { destruct ((7 * k) mod 8 + 7 >=? 8) eqn:E; f_equal;
          Z.div_mod_to_equations; lia. }
      rewrite Hnext, IH by lia.
      rewrite (range_cons (a := k)) by lia.
      replace (k + 1 + Z.of_nat turns) with (k + Z.of_nat (S turns)) by lia.
      cbn [map]. rewrite <- app_assoc. reflexivity.
Qed.

(** For every buffer of bytes and every requested length, the decoded text
    is the table entries of the successive 7-bit groups of the buffer read as
    one stream of bits from the least significant bit of byte 0; it stops at
    the requested length or with the last group that starts inside the
    buffer, whichever comes first. *)
Theorem decode_gsm7_septets (data : list Z) (num_chars : Z) :
  Forall byte data ->
  decode_gsm7 data num_chars
  = Ok (map (fun k => gsm7_at (septet data k))
            (range 0 (Z.min num_chars (septet_count data)))).
Proof.
  intros Hd. unfold decode_gsm7.
  pose proof (gsm7_loop_septets (Z.to_nat num_chars) Hd (k := 0) [] ltac:(lia))
    as Hloop.
  change (7 * 0 / 8) with 0 in Hloop. change ((7 * 0) mod 8) with 0 in Hloop.
  rewrite Hloop. cbn [app]. f_equal.
  destruct (Z.le_gt_cases num_chars 0) as [Hneg|Hpos].
  - rewrite !range_nil by lia. reflexivity.
  - rewrite Z2Nat.id by lia. reflexivity.
Qed.

Lemma decode_gsm7_septets_witness :
  decode_gsm7 [232; 50; 155; 253; 6] 5 = Ok (lit "hello").
Proof.
  apply (decode_gsm7_septets (data := [232; 50; 155; 253; 6]) 5).
  repeat (apply Forall_cons; [unfold byte; lia|]). apply Forall_nil.
Defined.

(** *** The decoders that return on every buffer *)

(** The identity-number, dialling-number, network-identifier and packed-text
    decoders return a value or absence on every list of integers, whatever
    its length: none of their indexings is out of range. *)
Theorem decoders_return :
  (forall data, exists imsi, decode_imsi data = Ok imsi)
  /\ (forall data include_ton,
        exists number, decode_bcd_number data include_ton = Ok number)
  /\ (forall data, exists plmns, decode_plmn data = Ok plmns)
  /\ (forall data num_chars, exists text, decode_gsm7 data num_chars = Ok text).
Proof.
  split; [exact decode_imsi_returns|].
  split; [exact decode_bcd_number_returns|].
  split; [|exact decode_gsm7_returns].
  intros data. unfold decode_plmn, range_step.
  rewrite plmn_loop_entries; [eauto | lia | apply group_starts_cover].
Qed.

(** ** Short messages *)

(** C1, on the code: [decode_sms] tests only for an empty buffer before it
    reads the length byte of the service-centre address at index 1. A 1-byte
    record whose status byte is neither 0x00 nor 0xFF raises [IndexError]. *)
Theorem decode_sms_one_byte_raises
  (utf16_be_decode toHexString : list Z -> pystr) (status : Z) :
  status <> 0 -> status <> 255 ->
  decode_sms utf16_be_decode toHexString [status] = Raise IndexError.
Proof.
  intros H0 Hff. unfold decode_sms.
  cbn [truthy negb orb]. change (len [status] <? 1) with false.
  change ([status].[0]) with (Ok status). cbn [bind res_monad].
  destruct (status =? 0) eqn:E0; [lia|].
  destruct (status =? 255) eqn:E1; [lia|]. cbn [orb].
  rewrite index_out by (cbn; lia). reflexivity.
Qed.

Lemma decode_sms_one_byte_raises_witness :
  decode_sms raw_bytes raw_bytes [1] = Raise IndexError.
Proof.
  apply (decode_sms_one_byte_raises raw_bytes raw_bytes (status := 1));
    discriminate.
Defined.

Section ShortMessageProperties.

Variable utf16_be_decode : list Z -> pystr.
Variable toHexString : list Z -> pystr.

Lemma decode_user_data_returns (dcs : Z) (ud : list Z) (udl : Z) :
  exists message,
    decode_user_data utf16_be_decode toHexString dcs ud udl = Ok message.
Proof.
  unfold decode_user_data.
  destruct (Z.land dcs 12 =? 8); [cbn; eauto|].
  destruct (Z.land dcs 12 =? 0); [apply decode_gsm7_returns | cbn; eauto].
Qed.

Lemma decode_sms_deliver_returns (pdu : list Z) (result : sms_dict) :
  Forall byte pdu ->
  exists result',
    decode_sms_deliver utf16_be_decode toHexString pdu result = Ok result'.
Proof.
  intros Hbytes. rewrite Forall_forall in Hbytes.
  unfold decode_sms_deliver.
  destruct (len pdu <? 3) eqn:H3; [cbn; eauto|].
  index_step sender_len. apply Hbytes in Hin. unfold byte in Hin.
  destruct (len pdu >? 2) eqn:H2; [|lia].
  index_step sender_type.
  destruct (decode_bcd_number_returns
              ([(sender_len + 1) / 2 + 1; sender_type]
               ++ slice pdu 3 (3 + (sender_len + 1) / 2)) true) as (sender & ->).
  cbn [bind ret res_monad].
  assert (Hoff : 0 <= (sender_len + 1) / 2) by (apply Z.div_pos; lia).
  destruct (3 + (sender_len + 1) / 2 + 7 <? len pdu) eqn:H7; [|cbn; eauto].
  index_step pid. index_step dcs.
  set (scts := slice pdu (3 + (sender_len + 1) / 2 + 2)
                         (3 + (sender_len + 1) / 2 + 9)).
  match goal with
  | |- context [if len scts =? 7 then ?a else ?b] =>
    set (stamped := if len scts =? 7 then a else b)
  end.
  assert (Hst : exists result1, stamped = Ok result1).
  { unfold stamped. destruct (len scts =? 7) eqn:Hs7; [|cbn; eauto].
    index_step year. index_step month. index_step day.
    index_step hour. index_step minute. index_step second.
    eauto. }
  destruct Hst as (result1 & ->). cbn [bind ret res_monad].
  destruct (3 + (sender_len + 1) / 2 + 9 <? len pdu) eqn:H9; [|cbn; eauto].
  index_step udl.
  destruct (decode_user_data_returns dcs
              (slice_from pdu (3 + (sender_len + 1) / 2 + 9 + 1)) udl)
    as (message & ->).
  cbn. eauto.
Qed.

Lemma decode_sms_submit_returns (first_octet : Z) (pdu : list Z) (result : sms_dict) :
  Forall byte pdu ->
  exists result',
    decode_sms_submit utf16_be_decode toHexString first_octet pdu result
    = Ok result'.
Proof.
  intros Hbytes. rewrite Forall_forall in Hbytes.
  unfold decode_sms_submit.
  destruct (len pdu <? 3) eqn:H3; [cbn; eauto|].
  index_step mr. index_step dest_len.
  apply Hbytes in Hin0. unfold byte in Hin0.
  assert (Htype : exists dest_type,
             (if len pdu >? 3 then pdu.[3] else Ok 129) = Ok dest_type).
  { destruct (len pdu >? 3) eqn:H4; [|eauto]. index_step dest_type. eauto. }
  destruct Htype as (dest_type & ->). cbn [bind ret res_monad].
  destruct (decode_bcd_number_returns
              ([(dest_len + 1) / 2 + 1; dest_type]
               ++ slice pdu 4 (4 + (dest_len + 1) / 2)) true) as (dest & ->).
  cbn [bind ret res_monad].
  assert (Hoff : 0 <= (dest_len + 1) / 2) by (apply Z.div_pos; lia).
  destruct (4 + (dest_len + 1) / 2 + 2 <? len pdu) eqn:H2; [|cbn; eauto].
  index_step pid. index_step dcs.
  set (offset := if Z.land (Z.shiftr first_octet 3) 3 =? 2
                 then 4 + (dest_len + 1) / 2 + 1
                 else if Z.land (Z.shiftr first_octet 3) 3 =? 3
                      then 4 + (dest_len + 1) / 2 + 7
                      else 4 + (dest_len + 1) / 2).
  assert (Ho : 0 <= offset).
  { unfold offset. destruct (_ =? 2); [lia|]. destruct (_ =? 3); lia. }
  destruct (offset + 2 <? len pdu) eqn:Hud; [|cbn; eauto].
  index_step udl.
  destruct (decode_user_data_returns dcs (slice_from pdu (offset + 2 + 1)) udl)
    as (message & ->).
  cbn. eauto.
Qed.

(** A short-message record of at least two bytes is decoded without an
    exception: the decoder returns a result or absence. *)
Theorem decode_sms_returns (data : list Z) :
  Forall byte data -> 2 <= len data ->
  exists sms, decode_sms utf16_be_decode toHexString data = Ok sms.
Proof.
  intros Hbytes Hlen. pose proof Hbytes as Hall.
  rewrite Forall_forall in Hbytes.
  unfold decode_sms.
  destruct data as [|b0 data0] eqn:Hdata; [cbn in Hlen; lia|].
  rewrite <- Hdata in *. cbn [truthy negb orb].
  replace (truthy data) with true by (rewrite Hdata; reflexivity).
  cbn [negb orb].
  destruct (len data <? 1) eqn:H1; [lia|].
  index_step status.
  destruct ((status =? 0) || (status =? 255)); [cbn; eauto|].
  index_step smsc_len. apply Hbytes in Hin0. unfold byte in Hin0.
  match goal with
  | |- context [if (smsc_len >? 0) && negb (smsc_len =? 255) then ?a else ?b] =>
    set (addressed := if (smsc_len >? 0) && negb (smsc_len =? 255) then a else b)
  end.
  assert (Haddr : exists smsc pdu_start,
             addressed = Ok (smsc, pdu_start) /\ 2 <= pdu_start).
  { unfold addressed.
    destruct ((smsc_len >? 0) && negb (smsc_len =? 255)) eqn:Hs.
    - destruct (decode_bcd_number_returns
                  ([smsc_len] ++ slice data 2 (2 + smsc_len)) true) as (smsc & ->).
      cbn [bind ret res_monad]. eexists _, _. split; [reflexivity|]. lia.
    - cbn. eexists _, _. split; [reflexivity|]. lia. }
  destruct Haddr as (smsc & pdu_start & -> & Hstart). cbn [bind ret res_monad].
  destruct (pdu_start >=? len data) eqn:Hp; [cbn; eauto|].
  pose proof (len_slice_from data (a := pdu_start) ltac:(lia)) as Hpl.
  destruct (len (slice_from data pdu_start) <? 2) eqn:Hp2; [cbn; eauto|].
  assert (Hpdu : Forall byte (slice_from data pdu_start))
    by (apply Forall_slice, Hall).
  index_step first_octet.
  destruct (Z.land first_octet 3 =? 0).
  - destruct (decode_sms_deliver_returns
                [("status"%string, VStr (status_text status));
                 ("smsc"%string, smsc)] Hpdu) as (result & ->).
    cbn. eauto.
  - destruct (Z.land first_octet 3 =? 1); [|cbn; eauto].
    destruct (decode_sms_submit_returns first_octet
                [("status"%string, VStr (status_text status));
                 ("smsc"%string, smsc)] Hpdu) as (result & ->).
    cbn. eauto.
Qed.

End ShortMessageProperties.

Lemma decode_sms_returns_witness :
  exists sms, decode_sms raw_bytes raw_bytes [1; 0] = Ok sms.
Proof.
  apply (decode_sms_returns raw_bytes raw_bytes (data := [1; 0])).
  - repeat (apply Forall_cons; [unfold byte; lia|]). apply Forall_nil.
  - vm_compute. discriminate.
Defined.

(** ** The scans of tag-length-value records *)

(** The three scans are written with fuel. On a list of bytes every turn
    moves the position forward, so the length of the list is fuel enough:
    more fuel changes nothing. *)

Lemma aid_in_template_fuel (data : list Z) :
  Forall byte data ->
  forall (fuel extra : nat) (i end_ : Z),
    0 <= i -> len data - i <= Z.of_nat fuel ->
    aid_in_template (fuel + extra) data i end_ = aid_in_template fuel data i end_.
Proof.
  intros Hd. rewrite Forall_forall in Hd.
  induction fuel as [|fuel IH]; intros extra i end_ Hi Hfuel.
  - destruct extra as [|extra]; [reflexivity|]. cbn [Nat.add aid_in_template].
    destruct (i <? len data - 2) eqn:E; [lia|].
    rewrite andb_false_r. reflexivity.
  - cbn [Nat.add aid_in_template].
    destruct ((i <? end_) && (i <? len data - 2)) eqn:E; [|reflexivity].
    apply andb_prop in E. destruct E as [_ E].
    index_step tag. index_step tlv_len.
    apply Hd in Hin0. unfold byte in Hin0.
    destruct (tag =? 79); [reflexivity|]. apply IH; lia.
Qed.

Lemma aid_in_record_fuel (data : list Z) :
  forall (fuel extra : nat) (i : Z),
    0 <= i -> len data - i <= Z.of_nat fuel ->
    aid_in_record (fuel + extra) data i = aid_in_record fuel data i.
Proof.
  induction fuel as [|fuel IH]; intros extra i Hi Hfuel.
  - destruct extra as [|extra]; [reflexivity|]. cbn [Nat.add aid_in_record].
    destruct (i <? len data - 2) eqn:E; [lia | reflexivity].
  - cbn [Nat.add aid_in_record].
    destruct (i <? len data - 2) eqn:E; [|reflexivity].
    index_step b.
    destruct (b =? 97); [reflexivity|]. apply IH; lia.
Qed.

Lemma fcp_scan_fuel (data : list Z) :
  Forall byte data ->
  forall (fuel extra : nat) (i record_len num_records : Z),
    0 <= i -> len data - i <= Z.of_nat fuel ->
    fcp_scan (fuel + extra) data i record_len num_records
    = fcp_scan fuel data i record_len num_records.
Proof.
  intros Hd. rewrite Forall_forall in Hd.
  induction fuel as [|fuel IH]; intros extra i record_len num_records Hi Hfuel.
  - destruct extra as [|extra]; [reflexivity|]. cbn [Nat.add fcp_scan].
    destruct (i <? len data - 2) eqn:E; [lia | reflexivity].
  - cbn [Nat.add fcp_scan].
    destruct (i <? len data - 2) eqn:E; [|reflexivity].
    index_step tag.
    destruct (tag =? 130); [reflexivity|].
    destruct (in_list tag fcp_skipped_tags).
    + index_step skip. apply Hd in Hin0. unfold byte in Hin0.
      apply IH; lia.
    + apply IH; lia.
Qed.

(** ** Selection and the continuation of a response *)

Section CardProperties.

Variable card_state : Type.
Variable transmit : card_state -> list Z -> response * card_state.

Lemma send_apdu_eq (s : session card_state) (apdu : list Z)
  (r : response) (c : card_state) :
  transmit (card s) apdu = (r, c) ->
  send_apdu transmit apdu s = (Ok r, exchanged s c apdu).
Proof. intros H. unfold send_apdu. rewrite H. reflexivity. Qed.

Lemma send_apdu_transmit (s : session card_state) (apdu : list Z) :
  send_apdu transmit apdu s
  = (Ok (fst (transmit (card s) apdu)),
     exchanged s (snd (transmit (card s) apdu)) apdu).
Proof. apply send_apdu_eq, surjective_pairing. Qed.

Lemma select_file_gsm_eq (file_id : Z) (s : session card_state)
  (data : list Z) (sw1 sw2 : Z) (c1 : card_state) :
  transmit (card s) (select_command Legacy file_id) = ((data, sw1, sw2), c1) ->
  select_file_gsm transmit file_id s
  = if sw1 =? 159
    then send_apdu transmit (get_response_command Legacy sw2)
           (exchanged s c1 (select_command Legacy file_id))
    else (Ok (data, sw1, sw2), exchanged s c1 (select_command Legacy file_id)).
Proof.
  intros H. unfold select_file_gsm. cbn [bind ret io_monad].
  change [160; 164; 0; 0; 2; Z.land (Z.shiftr file_id 8) 255; Z.land file_id 255]
    with (select_command Legacy file_id).
  rewrite (send_apdu_eq _ H).
  destruct (sw1 =? 159); [|reflexivity].
  change [160; 192; 0; 0; sw2] with (get_response_command Legacy sw2).
  rewrite send_apdu_transmit.
  destruct (fst (transmit _ _)) as [[d' a'] b']. reflexivity.
Qed.

Lemma select_file_usim_eq (file_id : Z) (s : session card_state)
  (data : list Z) (sw1 sw2 : Z) (c1 : card_state) :
  transmit (card s) (select_command UsimADF file_id) = ((data, sw1, sw2), c1) ->
  select_file_usim transmit file_id s
  = if sw1 =? 97
    then send_apdu transmit (get_response_command UsimADF sw2)
           (exchanged s c1 (select_command UsimADF file_id))
    else (Ok (data, sw1, sw2), exchanged s c1 (select_command UsimADF file_id)).
Proof.
  intros H. unfold select_file_usim. cbn [bind ret io_monad].
  change [0; 164; 0; 4; 2; Z.land (Z.shiftr file_id 8) 255; Z.land file_id 255]
    with (select_command UsimADF file_id).
  rewrite (send_apdu_eq _ H).
  destruct (sw1 =? 97); [|reflexivity].
  change [0; 192; 0; 0; sw2] with (get_response_command UsimADF sw2).
  rewrite send_apdu_transmit.
  destruct (fst (transmit _ _)) as [[d' a'] b']. reflexivity.
Qed.

(** C3, amended: a selection is followed by GET RESPONSE exactly when SW1 is
    the continuation byte of the dialect in use, 0x9F under Legacy and 0x61
    under UsimADF. Then exactly one GET RESPONSE of that class, requesting SW2
    bytes, is sent next, and its response is the result of the selection. On
    any other status, 0x61 under Legacy and 0x9F under UsimADF included, no
    further command is sent and the selection's own response is the result. *)
Theorem select_file_continuation
  (d : CommandClassDialect) (file_id : Z) (s : session card_state)
  (data : list Z) (sw1 sw2 : Z) (c1 : card_state) :
  transmit (card s) (select_command d file_id) = ((data, sw1, sw2), c1) ->
  (sw1 = continuation_sw1 d ->
   select_file transmit d file_id s
   = (Ok (fst (transmit c1 (get_response_command d sw2))),
      moved s (snd (transmit c1 (get_response_command d sw2)))
              (sent s ++ [select_command d file_id; get_response_command d sw2])))
  /\ (sw1 <> continuation_sw1 d ->
      select_file transmit d file_id s
      = (Ok (data, sw1, sw2), moved s c1 (sent s ++ [select_command d file_id]))).
Proof.
  intros H.
  assert (Hsel : select_file transmit d file_id s
                 = if sw1 =? continuation_sw1 d
                   then send_apdu transmit (get_response_command d sw2)
                          (exchanged s c1 (select_command d file_id))
                   else (Ok (data, sw1, sw2),
                         exchanged s c1 (select_command d file_id))).
  { destruct d; cbn [select_file continuation_sw1].
    - apply select_file_gsm_eq, H.
    - apply select_file_usim_eq, H. }
  split; intros Hsw; rewrite Hsel.
  - rewrite (proj2 (Z.eqb_eq _ _) Hsw), send_apdu_transmit.
    unfold exchanged, moved. cbn [card sent is_usim usim_aid iccid].
    rewrite <- app_assoc. reflexivity.
  - rewrite (proj2 (Z.eqb_neq _ _) Hsw). reflexivity.
Qed.

End CardProperties.

(** C3, as stated, fails: under the Legacy dialect a selection answered 61 05,
    a MoreDataAvailable status, is not followed by GET RESPONSE; the only
    command sent is the SELECT, and 61 05 is the result. *)
Lemma legacy_select_ignores_61 :
  classifyOutcome 97 5 = MoreDataAvailable 5
  /\ select_file (stateless card_61) Legacy 28474 fresh
     = (Ok ([], 97, 5), moved fresh tt [[160; 164; 0; 0; 2; 111; 58]]).
Proof. split; reflexivity. Qed.

Lemma select_file_continuation_witness :
  select_file (stateless card_61) UsimADF 28474 fresh
  = (Ok ([0; 0; 0; 40; 111], 144, 0),
     moved fresh tt [[0; 164; 0; 4; 2; 111; 58]; [0; 192; 0; 0; 5]])
  /\ select_file (stateless card_61) Legacy 28474 fresh
     = (Ok ([], 97, 5), moved fresh tt [[160; 164; 0; 0; 2; 111; 58]]).
Proof.
  split.
  - apply (proj1 (select_file_continuation (stateless card_61) UsimADF 28474
                    fresh (data := []) (sw1 := 97) (sw2 := 5) (c1 := tt)
                    eq_refl)).
    reflexivity.
  - apply (proj2 (select_file_continuation (stateless card_61) Legacy 28474
                    fresh (data := []) (sw1 := 97) (sw2 := 5) (c1 := tt)
                    eq_refl)).
    discriminate.
Defined.

(** ** The status bytes a caller accepts *)

Section ReadAllProperties.

Variable card_state : Type.
Variable transmit : card_state -> list Z -> response * card_state.

Lemma read_binary_sent (length offset : Z) (s : session card_state) :
  exists more,
    sent (snd (read_binary transmit length offset s))
    = sent s
      ++ [160; 176; Z.land (Z.shiftr offset 8) 255; Z.land offset 255; length]
         :: more.
Proof.
  unfold read_binary. cbn [bind ret io_monad].
  rewrite send_apdu_transmit.
  destruct (fst (transmit (card s) _)) as [[data sw1] sw2].
  destruct (sw1 =? 159).
  - rewrite send_apdu_transmit.
    destruct (fst (transmit _ _)) as [[data' sw1'] sw2'].
    cbn [snd exchanged moved sent card].
    exists [[160; 192; 0; 0; sw2]]. rewrite <- app_assoc. reflexivity.
  - exists []. reflexivity.
Qed.

Lemma snd_bind_read_binary {A} (length offset : Z) (s : session card_state)
  (k : response -> io card_state A) :
  (forall r s', sent (snd (k r s')) = sent s') ->
  sent (snd ((r <- read_binary transmit length offset ;; k r) s))
  = sent (snd (read_binary transmit length offset s)).
Proof.
  intros Hk. cbn [bind io_monad].
  assert (Hok : exists r s', read_binary transmit length offset s = (Ok r, s')).
  { unfold read_binary. cbn [bind ret io_monad]. rewrite send_apdu_transmit.
    destruct (fst (transmit (card s) _)) as [[data sw1] sw2].
    destruct (sw1 =? 159).
    - rewrite send_apdu_transmit.
      destruct (fst (transmit _ _)) as [[data' sw1'] sw2']. eauto.
    - eauto. }
  destruct Hok as (r & s' & ->). cbn [snd]. apply Hk.
Qed.

(** C2, amended: (0x90, 0x00) is Success, (0x9F, xx) and (0x61, xx) are
    MoreDataAvailable(xx), (0x6A, 0x83) is NotFound, and every other pair,
    any pair with SW1 = 0x91 included, is OtherError carrying both bytes.
    The callers do not branch on that outcome but on SW1 alone. After the
    selection of the serial-number file the read is issued exactly when SW1
    is 0x90, 0x9F or 0x91, whatever SW2; after the selection of the contacts
    file the records are read exactly when SW1 is 0x90, 0x9F, 0x91 or 0x61.
    So an OtherError pair with SW1 = 0x91 is accepted like success, and on
    every SW1 outside these lists nothing is read. *)
Theorem read_gate
  (s s1 s2 : session card_state) (r0 : response) (data : list Z) (sw1 sw2 : Z)
  (t t' : session card_state) (fcp : list Z) (tsw1 tsw2 : Z) (use_usim : bool) :
  select_file_gsm transmit 16128 s = (Ok r0, s1) ->
  select_file_gsm transmit 12258 s1 = (Ok (data, sw1, sw2), s2) ->
  select_contacts transmit t = (Ok ((fcp, tsw1, tsw2), use_usim), t') ->
  (classifyOutcome 144 0 = Success)
  /\ (classifyOutcome 159 sw2 = MoreDataAvailable sw2)
  /\ (classifyOutcome 97 sw2 = MoreDataAvailable sw2)
  /\ (classifyOutcome 106 131 = NotFound)
  /\ (~ (sw1 = 144 /\ sw2 = 0) -> sw1 <> 159 -> sw1 <> 97 ->
      ~ (sw1 = 106 /\ sw2 = 131) ->
      classifyOutcome sw1 sw2 = OtherError sw1 sw2)
  /\ (classifyOutcome 145 sw2 = OtherError 145 sw2)
  /\ (sw1 = 144 \/ sw1 = 159 \/ sw1 = 145 ->
      read_iccid transmit s
      = ('(data, sw1, sw2) <- read_binary transmit 10 0 ;;
         if sw1 =? 144 then set_iccid (decode_iccid data) else ret tt) s2
      /\ exists more,
           sent (snd (read_iccid transmit s))
           = sent s2 ++ [160; 176; 0; 0; 10] :: more)
  /\ (sw1 <> 144 -> sw1 <> 159 -> sw1 <> 145 ->
      read_iccid transmit s = (Ok tt, s2))
  /\ (tsw1 = 144 \/ tsw1 = 159 \/ tsw1 = 145 \/ tsw1 = 97 ->
      read_contacts transmit t
      = ('(record_len, num_records) <- lift (contacts_geometry use_usim fcp) ;;
         walk_records transmit use_usim record_len num_records 251) t')
  /\ (tsw1 <> 144 -> tsw1 <> 159 -> tsw1 <> 145 -> tsw1 <> 97 ->
      read_contacts transmit t = (Ok [], t')).
Proof.
  intros Hmf Hef Hadn.
  assert (Hrun : read_iccid transmit s
                 = if in_list sw1 [144; 159; 145]
                   then ('(data, sw1, sw2) <- read_binary transmit 10 0 ;;
                         if sw1 =? 144 then set_iccid (decode_iccid data)
                         else ret tt) s2
                   else (Ok tt, s2)).
  { unfold read_iccid. cbn [bind ret io_monad]. rewrite Hmf, Hef.
    destruct (in_list sw1 [144; 159; 145]); reflexivity. }
  assert (Hwalk : read_contacts transmit t
                  = if in_list tsw1 [144; 159; 145; 97]
                    then ('(record_len, num_records) <-
                            lift (contacts_geometry use_usim fcp) ;;
                          walk_records transmit use_usim record_len num_records 251) t'
                    else (Ok [], t')).
  { unfold read_contacts. cbn [bind ret io_monad]. rewrite Hadn.
    destruct (in_list tsw1 [144; 159; 145; 97]); reflexivity. }
  repeat (split; [reflexivity|]).
  split; [|split; [reflexivity|split; [|split; [|split]]]].
  - intros Hs Hm1 Hm2 Hnf. unfold classifyOutcome.
    destruct ((sw1 =? 144) && (sw2 =? 0)) eqn:E1; [lia|].
    destruct ((sw1 =? 159) || (sw1 =? 97)) eqn:E2; [lia|].
    destruct ((sw1 =? 106) && (sw2 =? 131)) eqn:E3; [lia|]. reflexivity.
  - intros Hacc.
    assert (Hin : in_list sw1 [144; 159; 145] = true).
    { unfold in_list. cbn [existsb]. lia. }
    rewrite Hrun, Hin. split; [reflexivity|].
    rewrite snd_bind_read_binary.
    + apply read_binary_sent.
    + intros [[d a] b] s'. destruct (a =? 144); reflexivity.
  - intros H1 H2 H3.
    assert (Hin : in_list sw1 [144; 159; 145] = false).
    { unfold in_list. cbn [existsb]. lia. }
    rewrite Hrun, Hin. reflexivity.
  - intros Hacc.
    assert (Hin : in_list tsw1 [144; 159; 145; 97] = true).
    { unfold in_list. cbn [existsb]. lia. }
    rewrite Hwalk, Hin. reflexivity.
  - intros H1 H2 H3 H4.
    assert (Hin : in_list tsw1 [144; 159; 145; 97] = false).
    { unfold in_list. cbn [existsb]. lia. }
    rewrite Hwalk, Hin. reflexivity.
Qed.

End ReadAllProperties.

(** C2, as stated, fails: a selection answered 91 00 is classified
    OtherError, and the caller still issues the read and keeps what it
    decodes from it. *)
Lemma sw1_91_is_read_like_success :
  classifyOutcome 145 0 = OtherError 145 0
  /\ read_iccid (stateless card_91) fresh
     = (Ok tt,
        Session tt [[160; 164; 0; 0; 2; 63; 0]; [160; 164; 0; 0; 2; 47; 226];
                    [160; 176; 0; 0; 10]]
                false None (Some (lit "89012345678901234567"))).
Proof. split; reflexivity. Qed.

Lemma read_gate_witness :
  read_iccid (stateless card_91) fresh
  = (Ok tt,
     Session tt [[160; 164; 0; 0; 2; 63; 0]; [160; 164; 0; 0; 2; 47; 226];
                 [160; 176; 0; 0; 10]]
             false None (Some (lit "89012345678901234567"))).
Proof.
  refine (proj1 (proj1 (proj2 (proj2 (proj2 (proj2 (proj2 (proj2
    (read_gate (stateless card_91) fresh (r0 := ([], 145, 0))
       (s1 := moved fresh tt [[160; 164; 0; 0; 2; 63; 0]])
       (s2 := moved fresh tt [[160; 164; 0; 0; 2; 63; 0];
                              [160; 164; 0; 0; 2; 47; 226]])
       (data := []) (sw1 := 145) (sw2 := 0)
       fresh
       (t' := moved fresh tt [[160; 164; 0; 0; 2; 63; 0];
                              [160; 164; 0; 0; 2; 127; 32];
                              [160; 164; 0; 0; 2; 111; 58]])
       (fcp := []) (tsw1 := 145) (tsw2 := 0) (use_usim := false)
       eq_refl eq_refl eq_refl))))))) _)).
  right. right. reflexivity.
Defined.

(** ** The record walk *)

Section RecordWalk.

Variable card_state : Type.
Variable transmit : card_state -> list Z -> response * card_state.

(** The loop never raises. *)
Lemma record_loop_ok (use_usim : bool) (record_len : Z) (recs : list Z) :
  forall s : session card_state,
    exists found s', record_loop transmit use_usim record_len recs s = (Ok found, s').
Proof.
  induction recs as [|rec rest IH]; intros s; cbn [record_loop bind ret io_monad].
  - eauto.
  - assert (Hread : exists r s1,
               (if use_usim then read_record_usim transmit rec record_len
                else read_record transmit rec record_len) s = (Ok r, s1)).
    { destruct use_usim; unfold read_record_usim, read_record;
        rewrite send_apdu_transmit; eauto. }
    destruct Hread as ([[data sw1] sw2] & s1 & ->).
    destruct (IH s1) as (found & s' & Hrest).
    destruct ((sw1 =? 144) && truthy data).
    + destruct (all_ff data); [eauto|]. rewrite Hrest. eauto.
    + destruct ((sw1 =? 106) && (sw2 =? 131)); eauto.
Qed.

(** One turn of the loop, given the card's answer to the read. *)
Lemma record_loop_turn
  (use_usim : bool) (record_len rec : Z) (rest : list Z) (s : session card_state)
  (data : list Z) (sw1 sw2 : Z) (c1 : card_state) :
  transmit (card s) (read_record_command use_usim rec record_len)
  = ((data, sw1, sw2), c1) ->
  let s1 := exchanged s c1 (read_record_command use_usim rec record_len) in
  record_loop transmit use_usim record_len (rec :: rest) s
  = if (sw1 =? 144) && truthy data then
      if all_ff data then record_loop transmit use_usim record_len rest s1
      else (tail <- record_loop transmit use_usim record_len rest ;;
            ret ((rec, data) :: tail)) s1
    else if (sw1 =? 106) && (sw2 =? 131) then (Ok [], s1)
    else record_loop transmit use_usim record_len rest s1.
Proof.
  intros H s1. cbn [record_loop bind ret io_monad].
  assert (Hread : (if use_usim then read_record_usim transmit rec record_len
                   else read_record transmit rec record_len) s
                  = (Ok (data, sw1, sw2), s1)).
  { destruct use_usim; unfold read_record_usim, read_record;
      apply send_apdu_eq, H. }
  rewrite Hread.
  destruct ((sw1 =? 144) && truthy data).
  - destruct (all_ff data); reflexivity.
  - destruct ((sw1 =? 106) && (sw2 =? 131)); reflexivity.
Qed.

(** The loop only adds to the log, starting with the read of its first
    record number. *)
Lemma record_loop_sent
  (use_usim : bool) (record_len rec : Z) (rest : list Z) (s : session card_state) :
  exists more,
    sent (snd (record_loop transmit use_usim record_len (rec :: rest) s))
    = sent s ++ read_record_command use_usim rec record_len :: more.
Proof.
  revert rec s. induction rest as [|next rest IH]; intros rec s;
    destruct (transmit (card s) (read_record_command use_usim rec record_len))
      as [[[data sw1] sw2] c1] eqn:Ht;
    rewrite (record_loop_turn _ _ Ht); cbv zeta.
  - exists []. cbn [record_loop bind ret io_monad].
    destruct ((sw1 =? 144) && truthy data);
      [destruct (all_ff data)|destruct ((sw1 =? 106) && (sw2 =? 131))];
      reflexivity.
  - set (s1 := exchanged s c1 (read_record_command use_usim rec record_len)).
    destruct (IH next s1) as [more Hmore].
    assert (Hs1 : forall l, sent s1 ++ l
                  = sent s ++ read_record_command use_usim rec record_len :: l).
    { intros l. unfold s1. cbn [sent exchanged moved].
      rewrite <- app_assoc. reflexivity. }
    destruct ((sw1 =? 144) && truthy data);
      [destruct (all_ff data)|destruct ((sw1 =? 106) && (sw2 =? 131))].
    + eexists. rewrite Hmore, Hs1. reflexivity.
    + cbn [bind ret io_monad].
      destruct (record_loop_ok use_usim record_len (next :: rest) s1)
        as (found & s' & Hrest).
      rewrite Hrest in Hmore |- *. cbn [snd] in Hmore |- *.
      eexists. rewrite Hmore, Hs1. reflexivity.
    + exists []. reflexivity.
    + eexists. rewrite Hmore, Hs1. reflexivity.
Qed.

(** The walk reads a prefix of its record numbers, in order, one READ
    RECORD each, and what it yields are records among those read, none empty
    and none all 0xFF. *)
Theorem record_loop_reads_prefix
  (use_usim : bool) (record_len : Z) (recs : list Z) :
  forall s : session card_state,
    exists (n : nat) (found : list (Z * list Z)),
      (n <= List.length recs)%nat
      /\ fst (record_loop transmit use_usim record_len recs s) = Ok found
      /\ sent (snd (record_loop transmit use_usim record_len recs s))
         = sent s ++ map (fun rec => read_record_command use_usim rec record_len)
                         (firstn n recs)
      /\ incl (map fst found) (firstn n recs)
      /\ Forall (fun entry => snd entry <> [] /\ all_ff (snd entry) = false) found.
Proof.
  induction recs as [|rec rest IH]; intros s.
  - exists O, []. cbn. rewrite app_nil_r.
    repeat split; auto using incl_nil_l.
  - destruct (transmit (card s) (read_record_command use_usim rec record_len))
      as [[[data sw1] sw2] c1] eqn:Ht.
    rewrite (record_loop_turn rest s Ht). cbv zeta.
    set (s1 := exchanged s c1 (read_record_command use_usim rec record_len)).
    destruct (IH s1) as (n & found & Hn & Hfound & Hsent & Hincl & Hall).
    assert (Hs1 : forall l, sent s1 ++ l
                  = sent s ++ read_record_command use_usim rec record_len :: l).
    { intros l. unfold s1. cbn [sent exchanged moved].
      rewrite <- app_assoc. reflexivity. }
    destruct ((sw1 =? 144) && truthy data) eqn:Egood;
      [destruct (all_ff data) eqn:Eff
      |destruct ((sw1 =? 106) && (sw2 =? 131))].
    + exists (S n), found. cbn [List.length firstn map].
      rewrite Hsent, Hs1. repeat split; auto using incl_tl with arith.
    + cbn [bind ret io_monad].
      destruct (record_loop transmit use_usim record_len rest s1)
        as [[found'|e] s'] eqn:Hrest; cbn [fst snd] in Hfound, Hsent;
        [|discriminate Hfound].
      injection Hfound as ->.
      exists (S n), ((rec, data) :: found). cbn [List.length firstn map fst snd].
      rewrite Hsent, Hs1. repeat split; auto with arith.
      * apply incl_cons; [left; reflexivity | apply incl_tl, Hincl].
      * apply Forall_cons; [|exact Hall]. cbn [snd]. split; [|exact Eff].
        apply andb_prop in Egood. destruct Egood as [_ Hd].
        destruct data; [discriminate Hd | discriminate].
    + exists 1%nat, []. cbn [List.length firstn map fst snd].
      repeat split; auto using incl_nil_l with arith.
    + exists (S n), found. cbn [List.length firstn map].
      rewrite Hsent, Hs1. repeat split; auto using incl_tl with arith.
Qed.

(** C4, amended: during a record walk only NotFound (6A 83) ends the
    sequence. A read outcome that is neither success with data nor NotFound
    (98 04 or 6A 82, say) yields no entry for that index and the walk goes on
    with the remaining indices: the next index is read. *)
Theorem record_walk_error_outcome
  (use_usim : bool) (record_len rec : Z) (rest : list Z) (s : session card_state)
  (data : list Z) (sw1 sw2 : Z) (c1 : card_state) :
  transmit (card s) (read_record_command use_usim rec record_len)
  = ((data, sw1, sw2), c1) ->
  ~ (sw1 = 144 /\ data <> []) ->
  let s1 := exchanged s c1 (read_record_command use_usim rec record_len) in
  (sw1 = 106 /\ sw2 = 131 ->
   record_loop transmit use_usim record_len (rec :: rest) s = (Ok [], s1))
  /\ (~ (sw1 = 106 /\ sw2 = 131) ->
      record_loop transmit use_usim record_len (rec :: rest) s
      = record_loop transmit use_usim record_len rest s1
      /\ forall next rest', rest = next :: rest' ->
         exists more,
           sent (snd (record_loop transmit use_usim record_len (rec :: rest) s))
           = sent s ++ read_record_command use_usim rec record_len
                    :: read_record_command use_usim next record_len :: more).
Proof.
  intros Ht Hok s1.
  assert (Hfail : (sw1 =? 144) && truthy data = false).
  { destruct (sw1 =? 144) eqn:E; [|reflexivity].
    destruct data; [reflexivity|].
    exfalso. apply Hok. split; [lia | discriminate]. }
  pose proof (record_loop_turn rest s Ht) as Hturn.
  cbv zeta in Hturn. fold s1 in Hturn. rewrite Hfail in Hturn.
  split.
  - intros [H1 H2]. rewrite Hturn.
    destruct ((sw1 =? 106) && (sw2 =? 131)) eqn:E; [reflexivity|lia].
  - intros Hnf.
    assert (Hgo : record_loop transmit use_usim record_len (rec :: rest) s
                  = record_loop transmit use_usim record_len rest s1).
    { rewrite Hturn.
      destruct ((sw1 =? 106) && (sw2 =? 131)) eqn:E; [|reflexivity].
      exfalso. apply Hnf. lia. }
    split; [exact Hgo|].
    intros next rest' ->. rewrite Hgo.
    destruct (record_loop_sent use_usim record_len next rest' s1) as [more Hmore].
    exists more. rewrite Hmore. unfold s1. cbn [sent exchanged moved].
    rewrite <- app_assoc. reflexivity.
Qed.

(** C5: with record length 4 and record count 10, when the reads of records
    1 to 3 succeed with data that is not all 0xFF, the read of record 4
    succeeds with four 0xFF bytes and the read of record 5 is answered 6A 83,
    the walk yields the records 1, 2 and 3 and sends the five reads of
    records 1 to 5 and nothing else. *)
Theorem record_walk_example
  (use_usim : bool) (ceiling : Z) (s : session card_state)
  (c1 c2 c3 c4 c5 : card_state) (d1 d2 d3 d5 : list Z) :
  6 <= ceiling ->
  transmit (card s) (read_record_command use_usim 1 4) = ((d1, 144, 0), c1) ->
  transmit c1 (read_record_command use_usim 2 4) = ((d2, 144, 0), c2) ->
  transmit c2 (read_record_command use_usim 3 4) = ((d3, 144, 0), c3) ->
  transmit c3 (read_record_command use_usim 4 4)
  = (([255; 255; 255; 255], 144, 0), c4) ->
  transmit c4 (read_record_command use_usim 5 4) = ((d5, 106, 131), c5) ->
  len d1 = 4 -> all_ff d1 = false ->
  len d2 = 4 -> all_ff d2 = false ->
  len d3 = 4 -> all_ff d3 = false ->
  walk_records transmit use_usim 4 10 ceiling s
  = (Ok [(1, d1); (2, d2); (3, d3)],
     moved s c5 (sent s ++ [read_record_command use_usim 1 4;
                            read_record_command use_usim 2 4;
                            read_record_command use_usim 3 4;
                            read_record_command use_usim 4 4;
                            read_record_command use_usim 5 4])).
Proof.
  intros Hc H1 H2 H3 H4 H5 L1 F1 L2 F2 L3 F3.
  assert (Ht : forall d : list Z, len d = 4 -> truthy d = true).
  { intros [|x d] Hd; [discriminate Hd | reflexivity]. }
  unfold walk_records.
  do 5 (rewrite range_cons by lia). cbn [Z.add Pos.add Pos.succ].
  set (tail := range 6 (Z.min (10 + 1) ceiling)).
  set (r1 := read_record_command use_usim 1 4) in *.
  set (r2 := read_record_command use_usim 2 4) in *.
  set (r3 := read_record_command use_usim 3 4) in *.
  set (r4 := read_record_command use_usim 4 4) in *.
  set (r5 := read_record_command use_usim 5 4) in *.
  pose proof (record_loop_turn (2 :: 3 :: 4 :: 5 :: tail) s H1) as T1.
  pose proof (record_loop_turn (3 :: 4 :: 5 :: tail) (exchanged s c1 r1) H2) as T2.
  pose proof (record_loop_turn (4 :: 5 :: tail)
                (exchanged (exchanged s c1 r1) c2 r2) H3) as T3.
  pose proof (record_loop_turn (5 :: tail)
                (exchanged (exchanged (exchanged s c1 r1) c2 r2) c3 r3) H4) as T4.
  pose proof (record_loop_turn tail
                (exchanged (exchanged (exchanged (exchanged s c1 r1) c2 r2) c3 r3)
                           c4 r4) H5) as T5.
  cbv zeta in T1, T2, T3, T4, T5.
  fold r1 in T1. fold r2 in T2. fold r3 in T3. fold r4 in T4. fold r5 in T5.
  rewrite (Ht _ L1), F1 in T1. rewrite (Ht _ L2), F2 in T2.
  rewrite (Ht _ L3), F3 in T3.
  change ((144 =? 144) && truthy [255; 255; 255; 255]) with true in T4.
  change (all_ff [255; 255; 255; 255]) with true in T4.
  change (144 =? 144) with true in T1, T2, T3.
  change (106 =? 144) with false in T5.
  change ((106 =? 106) && (131 =? 131)) with true in T5.
  cbn [andb] in T1, T2, T3, T5. cbv iota in T1, T2, T3, T4, T5.
  cbn [bind ret io_monad] in T1, T2, T3.
  rewrite T5 in T4. rewrite T4 in T3. rewrite T3 in T2. rewrite T2 in T1.
  etransitivity; [exact T1|]. f_equal.
  unfold exchanged, moved. cbn [card sent is_usim usim_aid iccid].
  rewrite <- !app_assoc. reflexivity.
Qed.

End RecordWalk.

(** C4, as stated, fails: record 1 is answered 98 04, and the walk still
    reads records 2 and 3 and yields record 2. *)
Lemma walk_goes_on_after_9804 :
  walk_records (stateless card_9804) false 4 10 251 fresh
  = (Ok [(2, [2; 129; 33; 67])],
     moved fresh tt
       [[160; 178; 1; 4; 4]; [160; 178; 2; 4; 4]; [160; 178; 3; 4; 4]]).
Proof. vm_compute. reflexivity. Qed.

(** The contacts block on a card of ten 4-byte records: three selections,
    the geometry read off the descriptor, then the walk of C5. *)
Example read_contacts_example :
  read_contacts (stateless card_contacts) fresh
  = (Ok [(1, [1; 129; 33; 67]); (2, [2; 129; 33; 67]); (3, [3; 129; 33; 67])],
     moved fresh tt
       [[160; 164; 0; 0; 2; 63; 0]; [160; 164; 0; 0; 2; 127; 32];
        [160; 164; 0; 0; 2; 111; 58];
        [160; 178; 1; 4; 4]; [160; 178; 2; 4; 4]; [160; 178; 3; 4; 4];
        [160; 178; 4; 4; 4]; [160; 178; 5; 4; 4]]).
Proof. vm_compute. reflexivity. Qed.

Lemma record_walk_error_outcome_witness :
  record_loop (stateless card_9804) false 4 [1; 2; 3] fresh
  = record_loop (stateless card_9804) false 4 [2; 3]
      (moved fresh tt [[160; 178; 1; 4; 4]]).
Proof.
  refine (proj1 (proj2 (record_walk_error_outcome (stateless card_9804) false
                          4 1 [2; 3] fresh
                          (data := []) (sw1 := 152) (sw2 := 4) (c1 := tt)
                          eq_refl _) _)).
  - intros [H _]. discriminate H.
  - intros [H _]. discriminate H.
Defined.

Lemma record_walk_example_witness :
  walk_records (stateless card_walk) false 4 10 251 fresh
  = (Ok [(1, [1; 129; 33; 67]); (2, [2; 129; 33; 67]); (3, [3; 129; 33; 67])],
     moved fresh tt
       [[160; 178; 1; 4; 4]; [160; 178; 2; 4; 4]; [160; 178; 3; 4; 4];
        [160; 178; 4; 4; 4]; [160; 178; 5; 4; 4]]).
Proof.
  apply (record_walk_example (stateless card_walk) false fresh (ceiling := 251)
           (c1 := tt) (c2 := tt) (c3 := tt) (c4 := tt) (c5 := tt) (d5 := []));
    first [reflexivity | lia].
Defined.

(* ================================================================== *)
(** ** Lists cut in two *)

Lemma len_app {A} (a b : list A) : len (a ++ b) = len a + len b.
Proof. unfold len. rewrite length_app. lia. Qed.

Lemma index_app_r (a b : list Z) (i : Z) :
  0 <= i -> (a ++ b).[len a + i] = b.[i].
Proof.
  intros Hi. pose proof (len_nonneg a) as Ha. unfold index. rewrite len_app.
  destruct (len a + i <? 0) eqn:E1; [lia|].
  destruct (i <? 0) eqn:E2; [lia|].
  destruct (len b <=? i) eqn:E3.
  - destruct (len a + len b <=? len a + i) eqn:E4; [|lia].
    rewrite !orb_true_r. reflexivity.
  - destruct (len a + len b <=? len a + i) eqn:E4; [lia|].
    cbn [orb]. rewrite nth_error_app2 by (unfold len in *; lia).
    replace (Z.to_nat (len a + i) - List.length a)%nat with (Z.to_nat i)
      by (unfold len; lia).
    cbv zeta. rewrite ?E1, ?E2. reflexivity.
Qed.

Lemma index_app_l (a b : list Z) (i : Z) :
  0 <= i < len a -> (a ++ b).[i] = a.[i].
Proof.
  intros Hi. pose proof (len_nonneg b) as Hb. unfold index. rewrite len_app.
  destruct (i <? 0) eqn:E1; [lia|].
  destruct (len a <=? i) eqn:E2; [lia|].
  destruct (len a + len b <=? i) eqn:E3; [lia|].
  cbn [orb]. rewrite nth_error_app1 by (unfold len in *; lia). reflexivity.
Qed.

Lemma slice_app_r {A} (a b : list A) (i j : Z) :
  0 <= i -> 0 <= j -> slice (a ++ b) (len a + i) (len a + j) = slice b i j.
Proof.
  intros Hi Hj. pose proof (len_nonneg a) as Ha. pose proof (len_nonneg b) as Hb.
  unfold slice, clamp. rewrite len_app.
  destruct (len a + i <? 0) eqn:E1; [lia|].
  destruct (len a + j <? 0) eqn:E2; [lia|].
  destruct (i <? 0) eqn:E3; [lia|].
  destruct (j <? 0) eqn:E4; [lia|].
  rewrite skipn_app.
  rewrite (@skipn_all2 _ _ a) by (unfold len in *; lia).
  cbn [app]. f_equal; [lia|]. f_equal. unfold len in *. lia.
Qed.

Lemma slice_to_app {A} (a b : list A) : slice_to (a ++ b) (len a) = a.
Proof.
  pose proof (len_nonneg a) as Ha. pose proof (len_nonneg b) as Hb.
  unfold slice_to, slice, clamp. rewrite len_app.
  destruct (0 <? 0) eqn:E1; [lia|].
  destruct (len a <? 0) eqn:E2; [lia|].
  replace (Z.to_nat (Z.min 0 (len a + len b))) with O by lia.
  cbn [skipn].
  replace (Z.to_nat (Z.min (len a) (len a + len b) - Z.min 0 (len a + len b)))
    with (List.length a) by (unfold len in *; lia).
  rewrite firstn_app, Nat.sub_diag, firstn_all. cbn [firstn]. apply app_nil_r.
Qed.

(** ** The other semi-octet fields *)

Lemma str_nibble_digits (n : Z) : 0 <= n < 16 -> Forall digit_char (str n).
Proof.
  intros H. apply Forall_forall. intros c Hc.
  assert (Hb : forallb (fun c => (48 <=? c) && (c <=? 57)) (str n) = true).
  { apply (@forall_range
             (fun n => forallb (fun c => (48 <=? c) && (c <=? 57)) (str n)) 0 16);
      [vm_compute; reflexivity | exact H]. }
  rewrite forallb_forall in Hb. specialize (Hb c Hc). unfold digit_char. lia.
Qed.

Lemma semi_octet_digits (b : Z) : Forall digit_char (semi_octet b).
Proof.
  unfold semi_octet, append_semi_octet.
  pose proof (str_nibble_digits (low_nibble_range b)) as Hl.
  pose proof (str_nibble_digits (high_nibble_range b)) as Hh.
  destruct (negb (low_nibble b =? 15)), (negb (high_nibble b =? 15)); cbn [app];
    auto using Forall_app, Forall_nil.
  apply Forall_app. split; assumption.
Qed.

Lemma imsi_fold_digits (data : list Z) (steps : list Z) :
  forall acc : pystr,
    Forall digit_char acc ->
    match fold_left (imsi_step data) steps (Ok acc) with
    | Ok imsi => Forall digit_char imsi
    | Raise _ => True
    end.
Proof.
  induction steps as [|i steps IH]; intros acc Hacc; cbn [fold_left].
  - exact Hacc.
  - unfold imsi_step at 2. cbn [bind ret res_monad].
    destruct (i <? len data); [|apply IH, Hacc].
    destruct (data.[i]) as [byte|e]; cbn [bind ret res_monad].
    + destruct (i =? 1).
      * apply IH. destruct (negb (high_nibble byte =? 15)); [|exact Hacc].
        apply Forall_app. split; [exact Hacc|].
        apply str_nibble_digits, high_nibble_range.
      * apply IH. rewrite append_semi_octet_app.
        apply Forall_app. split; [exact Hacc | apply semi_octet_digits].
    + clear IH. induction steps as [|j steps IHis]; cbn [fold_left]; [exact I|].
      exact IHis.
Qed.

(** [decode_iccid] and [decode_imsi] emit decimal digit characters only,
    whatever the integers of the buffer: a nibble is masked to four bits and
    printed in decimal, so no letter and no sign ever appears, and the
    serial number has at most four characters per byte. *)
Theorem semi_octet_decoders_emit_digits (data : list Z) :
  Forall digit_char (decode_iccid data)
  /\ len (decode_iccid data) <= 4 * len data
  /\ match decode_imsi data with
     | Ok (Some imsi) => Forall digit_char imsi
     | _ => True
     end.
Proof.
  split; [|split].
  - rewrite decode_iccid_flat_map.
    induction data as [|b data IH]; cbn [flat_map]; [apply Forall_nil|].
    apply Forall_app. split; [apply semi_octet_digits | exact IH].
  - rewrite decode_iccid_flat_map.
    induction data as [|b data IH]; [cbn; lia|].
    cbn [flat_map]. rewrite len_app, len_cons.
    assert (Hb : len (semi_octet b) <= 4).
    { unfold semi_octet, append_semi_octet.
      assert (Hs : forall n, 0 <= n < 16 -> len (str n) <= 2).
      { intros n Hn. apply Z.leb_le.
        apply (@forall_range (fun n => len (str n) <=? 2) 0 16);
          [vm_compute; reflexivity | exact Hn]. }
      pose proof (Hs _ (low_nibble_range b)). pose proof (Hs _ (high_nibble_range b)).
      destruct (negb (low_nibble b =? 15)), (negb (high_nibble b =? 15));
        cbn [app]; rewrite ?len_app; change (len (@nil Z)) with 0; lia. }
    lia.
  - unfold decode_imsi. destruct (len data <? 9); [exact I|].
    destruct (data.[0]) as [length|e]; cbn [bind ret res_monad]; [|exact I].
    pose proof (@imsi_fold_digits data (range 1 (length + 1)) [] (Forall_nil _)) as H.
    cbn [bind ret res_monad].
    match goal with
    | |- context [fold_left ?f ?l ?a] => change (fold_left f l a) with
          (fold_left (imsi_step data) (range 1 (length + 1)) (@Ok pystr []))
    end.
    destruct (fold_left (imsi_step data) (range 1 (length + 1)) (@Ok pystr []));
      exact H.
Qed.

Lemma index_app_at (a : list Z) (x : Z) (rest : list Z) :
  (a ++ x :: rest).[len a] = Ok x.
Proof.
  rewrite <- (Z.add_0_r (len a)). rewrite index_app_r by lia. reflexivity.
Qed.

Lemma index_cons (x : Z) (l : list Z) (i : Z) :
  0 <= i -> (x :: l).[1 + i] = l.[i].
Proof. intros Hi. apply (index_app_r [x] l Hi). Qed.

Lemma slice_cons {A} (x : A) (l : list A) (i j : Z) :
  0 <= i -> 0 <= j -> slice (x :: l) (1 + i) (1 + j) = slice l i j.
Proof. intros Hi Hj. apply (slice_app_r [x] l Hi Hj). Qed.

(** The number of a dialling-number buffer with a length byte other than
    0x00 and 0xFF. *)
Lemma decode_bcd_number_eq
  (bcd_len ton_npi : Z) (rest : list Z) (include_ton : bool) :
  0 < bcd_len < 255 ->
  decode_bcd_number (bcd_len :: ton_npi :: rest) include_ton
  = Ok (let number :=
          (if include_ton && (ton_npi =? 145) then lit "+" else [])
          ++ flat_map bcd_chars (firstn (Z.to_nat (bcd_len - 1)) rest) in
        if truthy number then Some number else None).
Proof.
  intros Hlen. unfold decode_bcd_number.
  pose proof (len_nonneg rest) as Hr.
  assert (H2 : (len (bcd_len :: ton_npi :: rest) <? 2) = false)
    by (rewrite !len_cons; lia).
  cbn [truthy negb orb]. rewrite H2.
  rewrite index_nth by (rewrite !len_cons; lia).
  change (nth (Z.to_nat 0) (bcd_len :: ton_npi :: rest) 0) with bcd_len.
  cbn [bind res_monad].
  destruct (bcd_len =? 255) eqn:Hff; [lia|].
  destruct (bcd_len =? 0) eqn:H0; [lia|]. cbn [orb].
  rewrite index_nth by (rewrite !len_cons; lia).
  change (nth (Z.to_nat 1) (bcd_len :: ton_npi :: rest) 0) with ton_npi.
  cbn [bind ret res_monad].
  rewrite slice_number_bytes by lia.
  rewrite fold_append_bcd. reflexivity.
Qed.

(** Without a sign nibble, the characters of a dialling number are those of
    the semi-octet routine. *)
Lemma bcd_chars_no_sign (b : Z) : no_sign b -> bcd_chars b = semi_octet b.
Proof.
  intros [Hl Hh].
  assert (Hn : forall n, 0 <= n < 16 -> ~ 10 <= n <= 14 ->
                         bcd_char n = if negb (n =? 15) then str n else []).
  { intros n Hn Hs. apply str_eqb_eq.
    assert (Hall : (if (10 <=? n) && (n <=? 14) then true
                    else str_eqb (bcd_char n)
                                 (if negb (n =? 15) then str n else [])) = true).
    { apply (@forall_range
               (fun n => if (10 <=? n) && (n <=? 14) then true
                         else str_eqb (bcd_char n)
                                      (if negb (n =? 15) then str n else []))
               0 16); [vm_compute; reflexivity | exact Hn]. }
    destruct ((10 <=? n) && (n <=? 14)) eqn:E; [lia | exact Hall]. }
  unfold bcd_chars, semi_octet, append_semi_octet.
  rewrite (Hn _ (low_nibble_range b) Hl), (Hn _ (high_nibble_range b) Hh).
  destruct (negb (low_nibble b =? 15)), (negb (high_nibble b =? 15)); cbn [app];
    rewrite ?app_nil_r; reflexivity.
Qed.

Lemma flat_map_bcd_no_sign (bytes : list Z) :
  Forall no_sign bytes -> flat_map bcd_chars bytes = flat_map semi_octet bytes.
Proof.
  induction 1 as [|b bytes Hb _ IH]; cbn [flat_map]; [reflexivity|].
  rewrite IH, (bcd_chars_no_sign Hb). reflexivity.
Qed.

Lemma semi_octet_padding (n : nat) : flat_map semi_octet (repeat 255 n) = [].
Proof. induction n as [|n IH]; cbn [repeat flat_map]; [reflexivity|]. exact IH. Qed.

Section FieldProperties.

Variable utf8_decode : list Z -> pystr.
Variable utf16_be_decode : list Z -> pystr.
Variable strip : pystr -> pystr.
Variable toHexString : list Z -> pystr.

(** *** The subscriber number *)

(** A record of [decode_msisdn] with a length byte other than 0x00 and
    0xFF: the name before the last 14 bytes, the type of number and ten
    number bytes after the length byte. *)
Lemma decode_msisdn_record (alpha : list Z) (l : Z) (rest : list Z) :
  len rest = 13 -> l <> 0 -> l <> 255 ->
  decode_msisdn utf8_decode strip (alpha ++ l :: rest)
  = Ok (let number :=
          (if nth 0 rest 0 =? 145 then lit "+" else [])
          ++ flat_map semi_octet (slice rest 1 11) in
        let alpha_clean := without_ff alpha in
        let alpha_tag := if truthy alpha_clean
                         then strip (utf8_decode alpha_clean) else [] in
        if truthy number
        then Some {| msisdn_number := number; msisdn_alpha := alpha_tag |}
        else None).
Proof.
  intros Hlen H0 Hff. pose proof (len_nonneg alpha) as Ha.
  assert (Hl : len (alpha ++ l :: rest) - 14 = len alpha)
    by (rewrite len_app, len_cons; lia).
  unfold decode_msisdn.
  destruct (len (alpha ++ l :: rest) <? 14) eqn:E;
    [rewrite len_app, len_cons in E; lia|].
  cbv zeta. rewrite Hl. rewrite index_app_at. cbn [bind ret res_monad].
  destruct (l =? 255) eqn:E1; [lia|]. destruct (l =? 0) eqn:E2; [lia|].
  cbn [orb].
  rewrite index_app_r by lia.
  change ((l :: rest).[1]) with ((l :: rest).[1 + 0]).
  rewrite index_cons by lia.
  rewrite index_nth by lia. cbn [bind ret res_monad].
  change (Z.to_nat 0) with O.
  rewrite (slice_app_r alpha (l :: rest) (i := 2) (j := 12)) by lia.
  change (slice (l :: rest) 2 12) with (slice (l :: rest) (1 + 1) (1 + 11)).
  rewrite slice_cons by lia.
  rewrite slice_to_app, fold_semi_octet. reflexivity.
Qed.

(** [decode_msisdn] uses the length byte of the number only as a test:
    two records that differ in that byte alone, both other than 0x00 and
    0xFF, decode alike. The ten number bytes are always read in full. *)
Theorem decode_msisdn_length_unused (alpha : list Z) (l1 l2 : Z) (rest : list Z) :
  len rest = 13 -> l1 <> 0 -> l1 <> 255 -> l2 <> 0 -> l2 <> 255 ->
  decode_msisdn utf8_decode strip (alpha ++ l1 :: rest)
  = decode_msisdn utf8_decode strip (alpha ++ l2 :: rest).
Proof.
  intros Hlen H1 H1' H2 H2'.
  rewrite !decode_msisdn_record by assumption. reflexivity.
Qed.

(** On a well-formed record (the number bytes in use have no sign
    nibble, the unused ones are 0xFF) the number [decode_msisdn] reports is
    the number [decode_bcd_number] finds in the last 14 bytes. *)
Theorem decode_msisdn_number
  (alpha digits : list Z) (bcd_len ton cci ext : Z) (padding : nat) :
  Forall no_sign digits ->
  len digits = bcd_len - 1 ->
  (List.length digits + padding = 10)%nat ->
  let tail := bcd_len :: ton :: digits ++ repeat 255 padding ++ [cci; ext] in
  number_of (decode_msisdn utf8_decode strip (alpha ++ tail))
  = decode_bcd_number tail true.
Proof.
  intros Hd Hlen Hpad tail. subst tail.
  pose proof (len_nonneg digits) as Hdn.
  rewrite decode_msisdn_record;
    [| rewrite len_cons, !len_app; unfold len in *;
       rewrite repeat_length; cbn [List.length]; lia | lia | unfold len in *; lia].
  rewrite decode_bcd_number_eq by (unfold len in *; lia).
  cbn [nth andb].
  assert (Hs : slice (ton :: digits ++ repeat 255 padding ++ [cci; ext]) 1 11
               = digits ++ repeat 255 padding).
  { change 1 with (1 + 0). change 11 with (1 + 10).
    rewrite slice_cons by lia. unfold slice, clamp.
    rewrite !len_app. unfold len. rewrite repeat_length. cbn [List.length].
    destruct (0 <? 0) eqn:E1; [lia|]. destruct (10 <? 0) eqn:E2; [lia|].
    replace (Z.to_nat (Z.min 0 _)) with O by lia. cbn [skipn].
    replace (Z.to_nat _) with (List.length (digits ++ repeat 255 padding))
      by (rewrite length_app, repeat_length; lia).
    rewrite app_assoc, firstn_app, Nat.sub_diag, firstn_all. cbn [firstn].
    apply app_nil_r. }
  rewrite Hs.
  assert (Hf : firstn (Z.to_nat (bcd_len - 1))
                      (digits ++ repeat 255 padding ++ [cci; ext]) = digits).
  { replace (Z.to_nat (bcd_len - 1)) with (List.length digits)
      by (unfold len in *; lia).
    rewrite firstn_app, Nat.sub_diag, firstn_all. cbn [firstn]. apply app_nil_r. }
  rewrite Hf, flat_map_app, semi_octet_padding, app_nil_r.
  rewrite (flat_map_bcd_no_sign Hd).
  cbv zeta. unfold number_of.
  destruct (truthy ((if ton =? 145 then lit "+" else [])
                    ++ flat_map semi_octet digits)); reflexivity.
Qed.

End FieldProperties.

Lemma decode_msisdn_length_unused_witness :
  decode_msisdn (fun b => b) (fun t => t)
    ([74; 111] ++ 7 :: [145; 33; 67; 101; 135; 9; 255; 255; 255; 255; 255; 255; 255])
  = decode_msisdn (fun b => b) (fun t => t)
    ([74; 111] ++ 3 :: [145; 33; 67; 101; 135; 9; 255; 255; 255; 255; 255; 255; 255]).
Proof.
  apply (@decode_msisdn_length_unused (fun b => b) (fun t => t) [74; 111] 7 3
           [145; 33; 67; 101; 135; 9; 255; 255; 255; 255; 255; 255; 255]);
    first [reflexivity | lia].
Defined.

Lemma decode_msisdn_number_witness :
  number_of (decode_msisdn (fun b => b) (fun t => t)
               ([74; 111] ++ [4; 145; 33; 67; 245] ++ repeat 255 7 ++ [255; 255]))
  = decode_bcd_number ([4; 145; 33; 67; 245] ++ repeat 255 7 ++ [255; 255]) true.
Proof.
  apply (@decode_msisdn_number (fun b => b) (fun t => t) [74; 111]
           [33; 67; 245] 4 145 255 255 7).
  - repeat (apply Forall_cons; [unfold no_sign; vm_compute; split; intros [H1 H2];
                                first [apply H1; reflexivity | apply H2; reflexivity]|]).
    apply Forall_nil.
  - reflexivity.
  - reflexivity.
Defined.

(** *** The service centre address *)

Lemma index_head (x : Z) (l : list Z) : (x :: l).[0] = Ok x.
Proof. apply (index_app_at [] x l). Qed.

Lemma index_second (x y : Z) (l : list Z) : (x :: y :: l).[1] = Ok y.
Proof. apply (index_app_at [x] y l). Qed.

Lemma index_third (x y z : Z) (l : list Z) : (x :: y :: z :: l).[2] = Ok z.
Proof. apply (index_app_at [x; y] z l). Qed.

(** [decode_smsp] reads the service centre address from the last 27
    bytes of the record, the byte before them being the parameter
    indicators: for an address length of at most 12 and number bytes with no
    sign nibble it returns what [decode_bcd_number] returns on those 27
    bytes; an address length above 12 gives no address. *)
Theorem decode_smsp_address
  (alpha : list Z) (params smsc_len ton : Z) (rest : list Z) :
  len rest = 25 ->
  (0 <= smsc_len <= 12 ->
   Forall no_sign (firstn (Z.to_nat (smsc_len - 1)) rest) ->
   decode_smsp (alpha ++ params :: smsc_len :: ton :: rest)
   = decode_bcd_number (smsc_len :: ton :: rest) true)
  /\ (12 < smsc_len ->
      decode_smsp (alpha ++ params :: smsc_len :: ton :: rest) = Ok None).
Proof.
  intros Hlen. pose proof (len_nonneg alpha) as Ha.
  set (data := alpha ++ params :: smsc_len :: ton :: rest).
  assert (Hdata : len data = len alpha + 28)
    by (unfold data; rewrite len_app, !len_cons; lia).
  assert (Hrun : 0 <= smsc_len ->
                 decode_smsp data
                 = if (smsc_len =? 255) || (smsc_len =? 0) || (smsc_len >? 12)
                   then Ok None
                   else Ok (let smsc :=
                              (if ton =? 145 then lit "+" else [])
                              ++ flat_map semi_octet
                                   (firstn (Z.to_nat (smsc_len - 1)) rest) in
                            if truthy smsc then Some smsc else None)).
  { intros Hnn. unfold decode_smsp. destruct (len data <? 28) eqn:E; [lia|].
    cbv zeta. replace (len data - 28) with (len alpha) by lia.
    destruct (len alpha >=? 0) eqn:E0; [|lia].
    unfold data at 1. rewrite index_app_at. cbn [bind ret res_monad].
    destruct (len alpha + 1 >=? len data) eqn:E1; [lia|].
    unfold data at 1. rewrite index_app_r by lia.
    rewrite index_second.
    cbn [bind ret res_monad].
    destruct ((smsc_len =? 255) || (smsc_len =? 0) || (smsc_len >? 12)) eqn:E2;
      [reflexivity|].
    destruct (len alpha + 1 + 1 <? len data) eqn:E3; [|lia].
    unfold data at 1.
    replace (len alpha + 1 + 1) with (len alpha + 2) by lia.
    rewrite index_app_r by lia.
    rewrite index_third.
    cbn [bind ret res_monad].
    assert (Hs : slice data (len alpha + 1 + 2) (len alpha + 1 + 2 + smsc_len - 1)
                 = firstn (Z.to_nat (smsc_len - 1)) rest).
    { unfold data.
      replace (len alpha + 1 + 2) with (len alpha + 3) by lia.
      replace (len alpha + 3 + smsc_len - 1) with (len alpha + (3 + smsc_len - 1))
        by lia.
      rewrite slice_app_r by lia.
      change 3 with (1 + 2).
      replace (1 + 2 + smsc_len - 1) with (1 + (2 + smsc_len - 1)) by lia.
      rewrite slice_cons by lia.
      apply slice_number_bytes. lia. }
    rewrite !Hs.
    rewrite fold_semi_octet. reflexivity. }
  split.
  - intros H12 Hd. rewrite Hrun by lia.
    destruct (Z.eq_dec smsc_len 0) as [->|Hpos].
    + unfold decode_bcd_number. cbn [truthy negb orb].
      destruct (len (0 :: ton :: rest) <? 2); [reflexivity|].
      rewrite index_head. reflexivity.
    + rewrite decode_bcd_number_eq by lia.
      destruct (smsc_len =? 255) eqn:E1; [lia|].
      destruct (smsc_len =? 0) eqn:E2; [lia|].
      destruct (smsc_len >? 12) eqn:E3; [lia|].
      cbn [orb andb]. rewrite (flat_map_bcd_no_sign Hd). reflexivity.
  - intros H12. rewrite Hrun by lia.
    destruct (smsc_len >? 12) eqn:E3; [|lia]. rewrite !orb_true_r. reflexivity.
Qed.

Lemma decode_smsp_address_witness :
  decode_smsp ([255] ++ 255 :: 4 :: 145 :: [33; 67; 245] ++ repeat 255 22)
  = decode_bcd_number (4 :: 145 :: [33; 67; 245] ++ repeat 255 22) true.
Proof.
  refine (proj1 (@decode_smsp_address [255] 255 4 145
                   ([33; 67; 245] ++ repeat 255 22) eq_refl) _ _).
  - lia.
  - change (Forall no_sign [33; 67; 245]).
    repeat (apply Forall_cons; [unfold no_sign; vm_compute; split; intros [H1 H2];
                                first [apply H1; reflexivity | apply H2; reflexivity]|]).
    apply Forall_nil.
Defined.

(** *** Slices of a buffer that is long enough *)

Lemma slice_inside {A} (l : list A) (a b : Z) :
  0 <= a <= b -> b <= len l ->
  slice l a b = firstn (Z.to_nat (b - a)) (skipn (Z.to_nat a) l).
Proof.
  intros Hab Hb. unfold slice, clamp.
  destruct (a <? 0) eqn:E1; [lia|]. destruct (b <? 0) eqn:E2; [lia|].
  rewrite !Z.min_l by lia. reflexivity.
Qed.

Lemma slice_from_cons {A} (x : A) (l : list A) : slice_from (x :: l) 1 = l.
Proof.
  pose proof (len_nonneg l) as Hl. unfold slice_from.
  rewrite slice_inside by (rewrite ?len_cons; lia).
  rewrite len_cons. change (Z.to_nat 1) with 1%nat. cbn [skipn].
  apply firstn_all2. unfold len. lia.
Qed.

(** *** The location information *)

(** [decode_loci] returns nothing below 11 bytes; from 11 bytes on it
    returns a result, and the country and network codes it reports are those
    of the entry [decode_plmn] gives for bytes 4 to 6, unless these are three
    0xFF bytes, for which [decode_plmn] gives no entry. *)
Theorem decode_loci_plmn (toHexString : list Z -> pystr) (data : list Z) :
  (len data < 11 -> decode_loci toHexString data = Ok None)
  /\ (11 <= len data ->
      exists d,
        decode_loci toHexString data = Ok (Some d)
        /\ decode_plmn (slice data 4 7)
           = Ok (if all_ff (slice data 4 7) then []
                 else [loci_mcc d ++ lit "-" ++ loci_mnc d])).
Proof.
  split.
  - intros H. unfold decode_loci. destruct (len data <? 11) eqn:E; [reflexivity|lia].
  - intros H.
    destruct data as [|t0 [|t1 [|t2 [|t3 [|l0 [|l1 [|l2 [|l3 [|l4 [|tt [|st rest]]]]]]]]]]];
      try (cbn in H; lia).
    pose proof (len_nonneg rest) as Hr.
    unfold decode_loci.
    destruct (len _ <? 11) eqn:E; [rewrite !len_cons in E; lia|].
    cbv zeta.
    rewrite (@slice_inside _ _ 4 9) by (rewrite ?len_cons; lia).
    rewrite (@slice_inside _ _ 4 7) by (rewrite ?len_cons; lia).
    change (Z.to_nat (9 - 4)) with 5%nat. change (Z.to_nat (7 - 4)) with 3%nat.
    change (Z.to_nat 4) with 4%nat. cbn [firstn skipn].
    change ([l0; l1; l2; l3; l4].[0]) with (Ok l0).
    change ([l0; l1; l2; l3; l4].[1]) with (Ok l1).
    change ([l0; l1; l2; l3; l4].[2]) with (Ok l2).
    change ([l0; l1; l2; l3; l4].[3]) with (Ok l3).
    change ([l0; l1; l2; l3; l4].[4]) with (Ok l4).
    cbn [bind ret res_monad].
    destruct (len _ >? 10) eqn:E10; [|rewrite !len_cons in E10; lia].
    pose proof (index_app_at [t0; t1; t2; t3; l0; l1; l2; l3; l4; tt] st rest) as Hst.
    change (len [t0; t1; t2; t3; l0; l1; l2; l3; l4; tt]) with 10 in Hst.
    cbn [app] in Hst. rewrite Hst.
    cbn [bind ret res_monad].
    eexists. split; [reflexivity|].
    cbn [loci_mcc loci_mnc].
    unfold decode_plmn, range_step.
    rewrite plmn_loop_entries; [| lia | apply group_starts_cover].
    cbn [app Z.to_nat skipn plmn_entries all_ff forallb].
    rewrite andb_true_r, andb_assoc.
    destruct ((l0 =? 255) && (l1 =? 255) && (l2 =? 255)); [reflexivity|].
    cbn [app]. unfold plmn_entry. rewrite <- !app_assoc.
    destruct (Z.land (Z.shiftr l1 4) 15 =? 15); reflexivity.
Qed.

(** *** The access control classes *)

Lemma land_bit (acc i : Z) :
  0 <= i -> (Z.land acc (Z.shiftl 1 i) =? 0) = negb (Z.testbit acc i).
Proof.
  intros Hi. rewrite Z.shiftl_1_l.
  destruct (Z.testbit acc i) eqn:Hb; cbn [negb].
  - apply Z.eqb_neq. intros H0.
    assert (Ht : Z.testbit (Z.land acc (2 ^ i)) i = true)
      by (rewrite Z.land_spec, Hb, Z.pow2_bits_true by lia; reflexivity).
    rewrite H0, Z.bits_0 in Ht. discriminate Ht.
  - apply Z.eqb_eq. apply Z.bits_inj'. intros n Hn.
    rewrite Z.land_spec, Z.bits_0, Z.pow2_bits_eqb by lia.
    destruct (i =? n) eqn:E; [|apply andb_false_r].
    apply Z.eqb_eq in E. subst n. rewrite Hb. reflexivity.
Qed.

(** A 16-bit number from its two bytes, as [(hi << 8) | lo] computes it. *)
Lemma lor_shiftl_8 (hi lo : Z) :
  0 <= lo < 256 -> Z.lor (Z.shiftl hi 8) lo = 256 * hi + lo.
Proof.
  intros Hlo. rewrite lor_disjoint.
  - rewrite Z.shiftl_mul_pow2 by lia. change (2 ^ 8) with 256. lia.
  - apply Z.bits_inj'. intros n Hn. rewrite Z.land_spec, Z.bits_0.
    destruct (Z.lt_ge_cases n 8) as [Hlt|Hge].
    + rewrite Z.shiftl_spec_low by lia. reflexivity.
    + rewrite <- (Z.mod_small lo (2 ^ 8)) by (change (2 ^ 8) with 256; lia).
      rewrite Z.mod_pow2_bits_high by lia. apply andb_false_r.
Qed.

Lemma acc_class_label_some (i : Z) :
  0 <= i < 16 -> exists label, acc_class_label i = Some label.
Proof.
  intros Hi.
  assert (H : (match acc_class_label i with Some _ => true | None => false end)
              = true).
  { apply (@forall_range
             (fun i => match acc_class_label i with Some _ => true | None => false end)
             0 16); [vm_compute; reflexivity | exact Hi]. }
  destruct (acc_class_label i) as [label|]; [eauto | discriminate H].
Qed.

Lemma acc_fold (acc : Z) (idx : list Z) :
  Forall (fun i => 0 <= i < 16) idx ->
  forall classes : list pystr,
    map Some (fold_left (acc_step acc) idx classes)
    = map Some classes ++ map acc_class_label (filter (Z.testbit acc) idx).
Proof.
  induction 1 as [|i idx Hi _ IH]; intros classes; cbn [fold_left filter map].
  - symmetry. apply app_nil_r.
  - rewrite IH. unfold acc_step. rewrite land_bit by lia.
    destruct (Z.testbit acc i); cbn [negb]; [|reflexivity].
    destruct (acc_class_label_some Hi) as (label & Hl). rewrite Hl.
    rewrite map_app. cbn [map]. rewrite Hl, <- app_assoc. reflexivity.
Qed.

(** [decode_acc] returns nothing below two bytes; on two bytes or more
    it lists the labels of exactly the bits that are set in the 16-bit number
    [256 * data[0] + data[1]], from bit 0 upwards; the bytes after the first
    two are ignored. *)
Theorem decode_acc_classes (hi lo : Z) (rest : list Z) :
  byte hi -> byte lo ->
  decode_acc [] = Ok None /\ decode_acc [hi] = Ok None
  /\ exists d,
       decode_acc (hi :: lo :: rest) = Ok (Some d)
       /\ map Some (acc_classes d)
          = map acc_class_label (filter (Z.testbit (256 * hi + lo)) (range 0 16)).
Proof.
  intros Hhi Hlo. unfold byte in *.
  split; [reflexivity|]. split; [reflexivity|].
  unfold decode_acc.
  destruct (len (hi :: lo :: rest) <? 2) eqn:E;
    [rewrite !len_cons in E; pose proof (len_nonneg rest); lia|].
  rewrite index_head, index_second. cbn [bind ret res_monad].
  eexists. split; [reflexivity|]. cbn [acc_classes].
  rewrite lor_shiftl_8 by lia.
  rewrite acc_fold; [reflexivity|].
  apply Forall_forall. intros i Hin. unfold range in Hin.
  apply in_map_iff in Hin. destruct Hin as (k & <- & Hk).
  apply in_seq in Hk. change (Z.to_nat (16 - 0)) with 16%nat in Hk. lia.
Qed.

Lemma decode_acc_classes_witness :
  exists d,
    decode_acc [0; 5] = Ok (Some d)
    /\ map Some (acc_classes d)
       = map acc_class_label (filter (Z.testbit (256 * 0 + 5)) (range 0 16)).
Proof.
  refine (proj2 (proj2 (@decode_acc_classes 0 5 [] _ _))); unfold byte; lia.
Defined.

Lemma decode_loci_plmn_witness :
  exists d,
    decode_loci raw_bytes [1; 2; 3; 4; 33; 243; 100; 0; 7; 0; 0] = Ok (Some d)
    /\ decode_plmn (slice [1; 2; 3; 4; 33; 243; 100; 0; 7; 0; 0] 4 7)
       = Ok (if all_ff (slice [1; 2; 3; 4; 33; 243; 100; 0; 7; 0; 0] 4 7) then []
             else [loci_mcc d ++ lit "-" ++ loci_mnc d]).
Proof.
  refine (proj2 (decode_loci_plmn raw_bytes [1; 2; 3; 4; 33; 243; 100; 0; 7; 0; 0]) _).
  cbn. lia.
Defined.

(** *** Names *)

Lemma until_ff_app (name rest : list Z) :
  until_ff (name ++ 255 :: rest) = until_ff name.
Proof.
  induction name as [|b name IH]; cbn [app until_ff].
  - reflexivity.
  - destruct (b =? 255); [reflexivity|]. rewrite IH. reflexivity.
Qed.

Lemma until_ff_id (l : list Z) :
  Forall (fun b => b <> 255) l -> until_ff l = l.
Proof.
  induction 1 as [|b l Hb _ IH]; cbn [until_ff]; [reflexivity|].
  destruct (b =? 255) eqn:E; [lia|]. rewrite IH. reflexivity.
Qed.

Lemma map_nth_range (l : list Z) (m : nat) :
  forall a : Z,
    0 <= a ->
    map (fun i => nth (Z.to_nat i) l 0) (range a (a + Z.of_nat m))
    = firstn m (skipn (Z.to_nat a) l) ++ repeat 0 (m - (List.length l - Z.to_nat a)).
Proof.
  induction m as [|m IH]; intros a Ha.
  - rewrite range_nil by lia. reflexivity.
  - rewrite range_cons by lia. cbn [map].
    replace (a + Z.of_nat (S m)) with ((a + 1) + Z.of_nat m) by lia.
    rewrite IH by lia.
    replace (Z.to_nat (a + 1)) with (S (Z.to_nat a)) by lia.
    destruct (skipn (Z.to_nat a) l) as [|x tail] eqn:Hs.
    + assert (Hlen : (List.length l <= Z.to_nat a)%nat).
      { rewrite <- (firstn_skipn (Z.to_nat a) l), Hs, app_nil_r.
        rewrite length_firstn. lia. }
      rewrite (skipn_succ_nil _ _ Hs), nth_overflow by lia.
      rewrite !firstn_nil. cbn [app].
      replace (S m - (List.length l - Z.to_nat a))%nat with (S m) by lia.
      replace (m - (List.length l - S (Z.to_nat a)))%nat with m by lia.
      reflexivity.
    + assert (Hlen : (List.length l = Z.to_nat a + S (List.length tail))%nat).
      { rewrite <- (firstn_skipn (Z.to_nat a) l) at 1. rewrite Hs, length_app.
        cbn [List.length]. rewrite length_firstn.
        assert (S (List.length tail) <= List.length l - Z.to_nat a)%nat
          by (rewrite <- length_skipn, Hs; cbn; lia).
        lia. }
      rewrite (skipn_succ_tail _ _ Hs). cbn [firstn app]. f_equal.
      * assert (Hn : nth_error l (Z.to_nat a) = Some x).
        { rewrite <- (firstn_skipn (Z.to_nat a) l), Hs.
          rewrite nth_error_app2 by (rewrite length_firstn; lia).
          rewrite length_firstn.
          replace (Z.to_nat a - Nat.min (Z.to_nat a) (List.length l))%nat with O by lia.
          reflexivity. }
        apply nth_error_nth, Hn.
      * f_equal. f_equal. lia.
Qed.

Section NameProperties.

Variable utf8_decode : list Z -> pystr.
Variable utf16_be_decode : list Z -> pystr.
Variable strip : pystr -> pystr.

Lemma decode_alpha_id_returns (data : list Z) :
  exists r, decode_alpha_id utf8_decode utf16_be_decode strip data = Ok r.
Proof.
  unfold decode_alpha_id. cbv zeta.
  destruct (until_ff data) as [|first clean] eqn:E; cbn [truthy negb].
  - cbn. eauto.
  - rewrite index_head. cbn [bind ret res_monad].
    destruct (first =? 128); [eauto|].
    destruct ((first =? 129) && (len (first :: clean) >? 3)); [|eauto].
    destruct (alpha_81 (first :: clean)); eauto.
Qed.

(** [decode_alpha_id] returns on every buffer; it decodes the bytes
    before the first 0xFF only, so whatever follows that byte changes
    nothing; and it returns nothing exactly when the buffer is empty or
    starts with 0xFF. *)
Theorem decode_alpha_id_padding (name rest : list Z) :
  decode_alpha_id utf8_decode utf16_be_decode strip (name ++ 255 :: rest)
  = decode_alpha_id utf8_decode utf16_be_decode strip name
  /\ (exists r, decode_alpha_id utf8_decode utf16_be_decode strip name = Ok r)
  /\ (decode_alpha_id utf8_decode utf16_be_decode strip name = Ok None
      <-> name = [] \/ hd 0 name = 255).
Proof.
  split; [|split].
  - unfold decode_alpha_id. rewrite until_ff_app. reflexivity.
  - apply decode_alpha_id_returns.
  - unfold decode_alpha_id. cbv zeta.
    destruct name as [|b name]; cbn [until_ff hd].
    + split; [auto | reflexivity].
    + destruct (b =? 255) eqn:E.
      * split; [intros _; right; lia | reflexivity].
      * cbn [truthy negb]. rewrite index_head. cbn [bind ret res_monad].
        split; [|intros [H|H]; [discriminate H | lia]].
        destruct (b =? 128); [discriminate|].
        destruct ((b =? 129) && (len (b :: until_ff name) >? 3)); [|discriminate].
        destruct (alpha_81 (b :: until_ff name)); discriminate.
Qed.

(** [decode_spn] drops the 0xFF bytes wherever they stand, not only
    the trailing ones, and it ignores the display condition in byte 0. *)
Theorem decode_spn_padding (c1 c2 : Z) (a b : list Z) :
  a ++ b <> [] ->
  decode_spn utf8_decode strip (c1 :: a ++ 255 :: b)
  = decode_spn utf8_decode strip (c2 :: a ++ b).
Proof.
  intros Hne. unfold decode_spn.
  assert (H1 : (len (c1 :: a ++ 255 :: b) <? 2) = false).
  { rewrite len_cons, len_app, len_cons.
    pose proof (len_nonneg a). pose proof (len_nonneg b). lia. }
  assert (H2 : (len (c2 :: a ++ b) <? 2) = false).
  { rewrite len_cons. destruct (a ++ b) as [|x l] eqn:E; [congruence|].
    rewrite len_cons. pose proof (len_nonneg l). lia. }
  rewrite H1, H2, !index_head. cbn [bind ret res_monad].
  rewrite !slice_from_cons. unfold without_ff.
  rewrite !filter_app. cbn [filter]. change (255 =? 255) with true. cbn [negb].
  reflexivity.
Qed.

End NameProperties.

Lemma decode_spn_padding_witness :
  decode_spn raw_bytes raw_bytes (1 :: [65] ++ 255 :: [66])
  = decode_spn raw_bytes raw_bytes (0 :: [65] ++ [66]).
Proof.
  apply (@decode_spn_padding raw_bytes raw_bytes 1 0 [65] [66]). discriminate.
Defined.

(** *** Names with a base pointer *)

Lemma land_127 (c : Z) : 128 <= c < 256 -> Z.land c 127 = c - 128.
Proof.
  intros H. change 127 with (Z.ones 7). rewrite Z.land_ones by lia.
  change (2 ^ 7) with 128. Z.div_mod_to_equations. lia.
Qed.

Lemma alpha_81_fold (clean : list Z) (base : Z) (idx : list Z) :
  Forall byte clean -> 0 <= base <= 32768 ->
  Forall (fun i => 0 <= i < len clean) idx ->
  forall result : pystr,
    fold_left (alpha_81_step clean base) idx (Some result)
    = Some (result
            ++ map (fun c => if c <? 128 then c else base + (c - 128))
                   (map (fun i => nth (Z.to_nat i) clean 0) idx)).
Proof.
  intros Hc Hb Hidx. induction Hidx as [|i idx Hi _ IH]; intros result;
    cbn [fold_left map].
  - rewrite app_nil_r. reflexivity.
  - unfold alpha_81_step at 2. rewrite index_nth by lia. cbn [caught].
    set (c := nth (Z.to_nat i) clean 0).
    assert (Hbyte : byte c).
    { rewrite Forall_forall in Hc. apply Hc, nth_In. unfold len in Hi. lia. }
    unfold byte in Hbyte. unfold chr.
    destruct (c <? 128) eqn:E.
    + destruct ((0 <=? c) && (c <? 1114112)) eqn:E1; [|lia].
      rewrite IH, <- app_assoc. reflexivity.
    + rewrite land_127 by lia.
      destruct ((0 <=? base + (c - 128)) && (base + (c - 128) <? 1114112)) eqn:E1;
        [|lia].
      rewrite IH, <- app_assoc. reflexivity.
Qed.

Section BasePointer.

Variable utf8_decode : list Z -> pystr.
Variable utf16_be_decode : list Z -> pystr.
Variable strip : pystr -> pystr.

(** A name in the form 0x81 (a count, a base pointer, then one byte per
    character; at least one character byte, no byte 0xFF): each of the first
    [count] character bytes below 0x80 stands for itself, each other one for
    the code point [128 * base + (byte - 128)]. On bytes the exception
    handler of this form is never entered. *)
Theorem decode_alpha_id_81 (num_chars b2 : Z) (chars : list Z) :
  Forall (fun c => 0 <= c < 255) (num_chars :: b2 :: chars) ->
  chars <> [] ->
  decode_alpha_id utf8_decode utf16_be_decode strip (129 :: num_chars :: b2 :: chars)
  = Ok (Some (strip (map (fun c => if c <? 128 then c else 128 * b2 + (c - 128))
                         (firstn (Z.to_nat num_chars) chars)))).
Proof.
  intros Hall Hne.
  assert (Hn : 0 <= num_chars < 255) by (inversion Hall; assumption).
  assert (Hb2 : 0 <= b2 < 255) by (inversion Hall as [|? ? _ H]; inversion H; assumption).
  assert (Hchars : Forall (fun c => 0 <= c < 255) chars)
    by (inversion Hall as [|? ? _ H]; inversion H; assumption).
  set (clean := 129 :: num_chars :: b2 :: chars).
  assert (Hclean : until_ff clean = clean).
  { apply until_ff_id. apply Forall_cons; [lia|].
    eapply Forall_impl; [|exact Hall]. cbv beta. intros; lia. }
  assert (Hbytes : Forall byte clean).
  { apply Forall_cons; [unfold byte; lia|].
    eapply Forall_impl; [|exact Hall]. unfold byte. cbv beta. intros; lia. }
  assert (Hlen : len clean = 3 + len chars) by (unfold clean; rewrite !len_cons; lia).
  assert (Hpos : 0 < len chars).
  { destruct chars; [congruence|]. rewrite len_cons. pose proof (len_nonneg chars). lia. }
  unfold decode_alpha_id. cbv zeta. rewrite Hclean.
  unfold clean at 1 2. cbn [truthy negb]. rewrite index_head.
  cbn [bind ret res_monad]. change (129 =? 128) with false.
  change (129 =? 129) with true. cbn [andb]. fold clean.
  destruct (len clean >? 3) eqn:E3; [|lia].
  unfold alpha_81. unfold clean at 1 2. rewrite index_second, index_third.
  cbn [caught]. fold clean.
  set (m := Z.min (3 + num_chars) (len clean)).
  assert (Hm : m = 3 + Z.of_nat (Z.to_nat (m - 3))) by (unfold m; lia).
  rewrite Hm.
  rewrite alpha_81_fold.
  - rewrite map_nth_range by lia. cbn [app].
    assert (Hlist : firstn (Z.to_nat (m - 3)) (skipn (Z.to_nat 3) clean)
                    ++ repeat 0 (Z.to_nat (m - 3) - (List.length clean - Z.to_nat 3))
                    = firstn (Z.to_nat num_chars) chars).
    { change (Z.to_nat 3) with 3%nat. unfold clean at 1. cbn [skipn].
      replace (Z.to_nat (m - 3) - (List.length clean - 3))%nat with O
        by (unfold m, len in *; lia).
      cbn [repeat]. rewrite app_nil_r.
      destruct (Z.le_gt_cases num_chars (len chars)) as [Hle|Hgt].
      - f_equal. unfold m. lia.
      - rewrite !firstn_all2; [reflexivity | |]; unfold m, len in *; lia. }
    rewrite Hlist. do 3 f_equal.
    rewrite Z.shiftl_mul_pow2 by lia. change (2 ^ 7) with 128.
    apply map_ext. intros c. rewrite (Z.mul_comm b2 128). reflexivity.
  - exact Hbytes.
  - rewrite Z.shiftl_mul_pow2 by lia. change (2 ^ 7) with 128. lia.
  - apply Forall_forall. intros i Hi. unfold range in Hi.
    apply in_map_iff in Hi. destruct Hi as (k & <- & Hk). apply in_seq in Hk.
    unfold m in *. lia.
Qed.

End BasePointer.

Lemma decode_alpha_id_81_witness :
  decode_alpha_id raw_bytes raw_bytes raw_bytes [129; 2; 8; 65; 144; 66]
  = Ok (Some [65; 1040]).
Proof.
  apply (@decode_alpha_id_81 raw_bytes raw_bytes raw_bytes 2 8 [65; 144; 66]).
  - repeat (apply Forall_cons; [lia|]). apply Forall_nil.
  - discriminate.
Defined.


(* ================================================================== *)
(** ** What [read_all] sends *)

Section Commands.

Variable card_state : Type.
Variable transmit : card_state -> list Z -> response * card_state.


















Variable utf8_decode : list Z -> pystr.
Variable utf16_be_decode : list Z -> pystr.
Variable strip : pystr -> pystr.
Variable toHexString : list Z -> pystr.













End Commands.

(* ================================================================== *)
(** ** The blocks that cannot raise *)

Lemma decode_plmn_returns (data : list Z) : exists plmns, decode_plmn data = Ok plmns.
Proof.
  unfold decode_plmn, range_step.
  rewrite plmn_loop_entries; [eauto | lia | apply group_starts_cover].
Qed.

Lemma decode_smsp_returns (data : list Z) : exists smsc, decode_smsp data = Ok smsc.
Proof.
  unfold decode_smsp. destruct (len data <? 28) eqn:E; [cbn; eauto|]. cbv zeta.
  destruct (len data - 28 >=? 0) eqn:E0; [|lia].
  index_step params.
  destruct (len data - 28 + 1 >=? len data) eqn:E1; [cbn; eauto|].
  index_step smsc_len.
  destruct ((smsc_len =? 255) || (smsc_len =? 0) || (smsc_len >? 12)); [cbn; eauto|].
  destruct (len data - 28 + 1 + 1 <? len data) eqn:E2; [|lia].
  index_step ton_npi. eauto.
Qed.

Lemma decode_acc_returns (data : list Z) : exists acc, decode_acc data = Ok acc.
Proof.
  unfold decode_acc. destruct (len data <? 2) eqn:E; [cbn; eauto|].
  index_step hi. index_step lo. eauto.
Qed.

Lemma decode_ad_returns (data : list Z) : exists ad, decode_ad data = Ok ad.
Proof.
  unfold decode_ad. destruct (len data <? 3) eqn:E; [cbn; eauto|].
  index_step ms_operation. index_step b2.
  destruct (len data >=? 4) eqn:E4.
  - index_step b3. eauto.
  - cbn [bind ret res_monad]. eauto.
Qed.

Lemma hplmn_text_returns (data : list Z) : exists text, hplmn_text data = Ok text.
Proof.
  unfold hplmn_text. destruct data as [|b data]; cbn [truthy]; [cbn; eauto|].
  rewrite index_head. cbn [bind ret res_monad]. eauto.
Qed.

Lemma phase_text_returns (data : list Z) : exists text, phase_text data = Ok text.
Proof.
  unfold phase_text. destruct data as [|b data]; cbn [truthy]; [cbn; eauto|].
  rewrite index_head. cbn [bind ret res_monad]. eauto.
Qed.

Lemma len_slice_inside {A} (l : list A) (a b : Z) :
  0 <= a <= b -> b <= len l -> len (slice l a b) = b - a.
Proof.
  intros Hab Hb. rewrite slice_inside by assumption.
  unfold len in *. rewrite length_firstn, length_skipn. lia.
Qed.

Section Returns.

Variable card_state : Type.
Variable transmit : card_state -> list Z -> response * card_state.
Variable utf8_decode : list Z -> pystr.
Variable utf16_be_decode : list Z -> pystr.
Variable strip : pystr -> pystr.
Variable toHexString : list Z -> pystr.

Lemma decode_spn_returns (data : list Z) :
  exists name, decode_spn utf8_decode strip data = Ok name.
Proof.
  unfold decode_spn. destruct (len data <? 2) eqn:E; [cbn; eauto|].
  index_step display_condition. eauto.
Qed.

Lemma decode_msisdn_returns (data : list Z) :
  exists msisdn, decode_msisdn utf8_decode strip data = Ok msisdn.
Proof.
  unfold decode_msisdn. destruct (len data <? 14) eqn:E; [cbn; eauto|]. cbv zeta.
  index_step bcd_len.
  destruct ((bcd_len =? 255) || (bcd_len =? 0)); [cbn; eauto|].
  index_step ton_npi. eauto.
Qed.

Lemma decode_loci_returns (data : list Z) :
  exists loci, decode_loci toHexString data = Ok loci.
Proof.
  unfold decode_loci. destruct (len data <? 11) eqn:E; [cbn; eauto|]. cbv zeta.
  assert (Hlai : len (slice data 4 9) = 5) by (rewrite len_slice_inside; lia).
  index_step l0. index_step l1. index_step l2. index_step l3. index_step l4.
  destruct (len data >? 10) eqn:E10; [|lia].
  index_step update_status. eauto.
Qed.

Lemma returns_ret {A} (a : A) : returns (ret a : io card_state A).
Proof. intros s. exists a, s. reflexivity. Qed.

Lemma returns_bind {A B} (c : io card_state A) (k : A -> io card_state B) :
  returns c -> (forall a, returns (k a)) -> returns (bind c k).
Proof.
  intros Hc Hk s. destruct (Hc s) as (a & s1 & H1).
  cbn [bind io_monad]. rewrite H1. apply Hk.
Qed.

Lemma returns_lift {A} (r : res A) :
  (exists a, r = Ok a) -> returns (lift r : io card_state A).
Proof. intros (a & ->) s. exists a, s. reflexivity. Qed.

Lemma returns_send (apdu : list Z) : returns (send_apdu transmit apdu).
Proof. intros s. rewrite send_apdu_transmit. eauto. Qed.

Lemma returns_select_file_gsm (file_id : Z) :
  returns (select_file_gsm transmit file_id).
Proof.
  unfold select_file_gsm. apply returns_bind; [apply returns_send|].
  intros [[data sw1] sw2]. destruct (sw1 =? 159); [|apply returns_ret].
  apply returns_bind; [apply returns_send|].
  intros [[data' sw1'] sw2']. apply returns_ret.
Qed.

Lemma returns_read_binary (length offset : Z) :
  returns (read_binary transmit length offset).
Proof.
  unfold read_binary. apply returns_bind; [apply returns_send|].
  intros [[data sw1] sw2]. destruct (sw1 =? 159); [|apply returns_ret].
  apply returns_bind; [apply returns_send|].
  intros [[data' sw1'] sw2']. apply returns_ret.
Qed.

Lemma returns_read_record (use_usim : bool) (rec record_len : Z) :
  returns (if use_usim then read_record_usim transmit rec record_len
           else read_record transmit rec record_len).
Proof. destruct use_usim; apply returns_send. Qed.

Lemma returns_select_in_df_gsm (file_id : Z) :
  returns (select_in_df_gsm transmit file_id).
Proof.
  unfold select_in_df_gsm.
  apply returns_bind; [apply returns_select_file_gsm|]. intros _.
  apply returns_bind; [apply returns_select_file_gsm|]. intros _.
  apply returns_select_file_gsm.
Qed.

Lemma returns_read_field {A} (file_id length : Z) (decode : list Z -> res A) :
  (forall data, exists v, decode data = Ok v) ->
  returns (read_field transmit file_id length decode).
Proof.
  intros Hd. unfold read_field.
  apply returns_bind; [apply returns_select_in_df_gsm|].
  intros [[data sw1] sw2]. destruct (in_list sw1 [144; 159; 145]); [|apply returns_ret].
  apply returns_bind; [apply returns_read_binary|].
  intros [[data1 sw11] sw21]. destruct (sw11 =? 144); [|apply returns_ret].
  apply returns_bind; [apply returns_lift, Hd|]. intros v. apply returns_ret.
Qed.

Lemma returns_read_first_record {A} (file_id default_len : Z)
  (decode : list Z -> res A) :
  (forall data, exists v, decode data = Ok v) ->
  returns (read_first_record transmit file_id default_len decode).
Proof.
  intros Hd. unfold read_first_record.
  apply returns_bind; [apply returns_select_in_df_gsm|].
  intros [[data sw1] sw2]. destruct (in_list sw1 [144; 159; 145]); [|apply returns_ret].
  apply returns_bind.
  { apply returns_lift. destruct (len data >? 14) eqn:E; [|cbn; eauto].
    index_step record_len. eauto. }
  intros record_len.
  apply returns_bind; [apply (returns_read_record false)|].
  intros [[data1 sw11] sw21]. destruct (sw11 =? 144); [|apply returns_ret].
  apply returns_bind; [apply returns_lift, Hd|]. intros v. apply returns_ret.
Qed.

(** Whatever the card answers, the blocks of [read_all] from the
    subscriber identity to the phase return: none of their decoders raises
    on any buffer, and every index into a selection response is guarded. *)
Theorem read_fields_returns (s : session card_state) :
  exists (report : fields_report) (s' : session card_state),
    read_fields transmit utf8_decode strip toHexString s = (Ok report, s').
Proof.
  revert s. change (returns (read_fields transmit utf8_decode strip toHexString)).
  unfold read_fields.
  apply returns_bind; [apply returns_read_field, decode_imsi_returns|]. intros imsi.
  apply returns_bind; [apply returns_read_field, decode_spn_returns|]. intros spn.
  apply returns_bind; [apply returns_read_first_record, decode_msisdn_returns|].
  intros msisdn.
  apply returns_bind; [apply returns_read_first_record, decode_smsp_returns|].
  intros smsp.
  apply returns_bind; [apply returns_read_field, decode_plmn_returns|]. intros plmnsel.
  apply returns_bind; [apply returns_read_field, decode_plmn_returns|]. intros fplmn.
  apply returns_bind; [apply returns_read_field, decode_loci_returns|]. intros loci.
  apply returns_bind; [apply returns_read_field, decode_acc_returns|]. intros acc.
  apply returns_bind; [apply returns_read_field, decode_ad_returns|]. intros ad.
  apply returns_bind; [apply returns_read_field, hplmn_text_returns|]. intros hplmn.
  apply returns_bind; [apply returns_read_field, phase_text_returns|]. intros phase.
  apply returns_ret.
Qed.

End Returns.

(* ================================================================== *)
(** ** The record loops with their decoders *)

Section Entries.

Variable card_state : Type.
Variable transmit : card_state -> list Z -> response * card_state.
Variable utf8_decode : list Z -> pystr.
Variable utf16_be_decode : list Z -> pystr.
Variable strip : pystr -> pystr.
Variable toHexString : list Z -> pystr.

Lemma decode_entry_returns (record_len : Z) (data : list Z) :
  exists alpha number,
    decode_entry utf8_decode utf16_be_decode strip record_len data
    = Ok (alpha, number).
Proof.
  unfold decode_entry. cbv zeta.
  destruct (decode_alpha_id_returns utf8_decode utf16_be_decode strip
              (slice_to data (record_len - 14))) as (alpha & ->).
  destruct (decode_bcd_number_returns (slice_from data (record_len - 14)) true)
    as (number & ->).
  cbn. eauto.
Qed.

(** The loop of a dialling-number block and the record walk of the
    contacts send the same commands and leave the same session; the loop
    never raises, and the entries it prints are the decodings of the records
    the walk keeps, in the same order, less those with neither a name nor a
    number (with no number, for the last-dialled numbers). *)
Theorem entries_loop_decodes
  (number_only use_usim : bool) (record_len : Z) (recs : list Z)
  (s : session card_state) :
  exists (records : list (Z * list Z)) (s' : session card_state),
    record_loop transmit use_usim record_len recs s = (Ok records, s')
    /\ entries_loop transmit utf8_decode utf16_be_decode strip
                    number_only use_usim record_len recs s
       = (Ok (flat_map (entry_of utf8_decode utf16_be_decode strip
                                 number_only record_len) records), s').
Proof.
  revert s. induction recs as [|rec rest IH]; intros s.
  - exists [], s. split; reflexivity.
  - cbn [record_loop entries_loop bind io_monad].
    destruct (returns_read_record transmit use_usim rec record_len s)
      as ([[data sw1] sw2] & s1 & Hr).
    rewrite Hr.
    destruct ((sw1 =? 144) && truthy data).
    + destruct (all_ff data); [apply IH|].
      destruct (IH s1) as (records & s' & H1 & H2).
      destruct (decode_entry_returns record_len data) as (alpha & number & Hd).
      exists ((rec, data) :: records), s'. rewrite H1. split; [reflexivity|].
      unfold lift. rewrite Hd. cbn [flat_map]. unfold entry_of at 1.
      cbn [fst snd]. rewrite Hd.
      destruct (if number_only then truthy_str number
                else truthy_str alpha || truthy_str number).
      * rewrite H2. reflexivity.
      * rewrite H2. reflexivity.
    + destruct ((sw1 =? 106) && (sw2 =? 131)); [|apply IH].
      exists [], s1. split; reflexivity.
Qed.

(** The loop of the message block does not guard the decoder: when
    the card answers a READ RECORD with status 0x90 and a one-byte record
    other than 0x00 and 0xFF, the loop raises [IndexError] right after that
    command, and the records after it are not read. *)
Theorem sms_loop_one_byte_record
  (use_usim : bool) (record_len rec : Z) (rest : list Z) (s : session card_state)
  (status sw2 : Z) (c1 : card_state) :
  transmit (card s) (read_record_command use_usim rec record_len)
  = (([status], 144, sw2), c1) ->
  status <> 0 -> status <> 255 ->
  sms_loop transmit utf16_be_decode toHexString use_usim record_len (rec :: rest) s
  = (Raise IndexError,
     exchanged s c1 (read_record_command use_usim rec record_len)).
Proof.
  intros Ht H0 Hff. cbn [sms_loop bind io_monad].
  assert (Hr : (if use_usim then read_record_usim transmit rec record_len
                else read_record transmit rec record_len) s
               = (Ok ([status], 144, sw2),
                  exchanged s c1 (read_record_command use_usim rec record_len))).
  { destruct use_usim; unfold read_record_usim, read_record;
      apply send_apdu_eq; exact Ht. }
  rewrite Hr. change ((144 =? 144) && truthy [status]) with true. cbv iota.
  unfold lift, decode_sms.
  cbn [truthy negb orb]. change (len [status] <? 1) with false.
  change ([status].[0]) with (Ok status). cbn [bind res_monad].
  destruct (status =? 0) eqn:E0; [lia|].
  destruct (status =? 255) eqn:E1; [lia|]. cbn [orb].
  rewrite index_out by (cbn; lia). reflexivity.
Qed.

End Entries.

Lemma sms_loop_one_byte_record_witness :
  sms_loop (stateless (fun _ => ([1], 144, 0))) raw_bytes raw_bytes
           false 176 [1; 2] fresh
  = (Raise IndexError, exchanged fresh tt [160; 178; 1; 4; 176]).
Proof.
  apply (@sms_loop_one_byte_record unit (stateless (fun _ => ([1], 144, 0)))
           raw_bytes raw_bytes false 176 1 [2] fresh 1 0 tt);
    first [reflexivity | lia].
Defined.

(* ================================================================== *)
(** ** The USIM application *)

Section UsimSelection.

Variable card_state : Type.
Variable transmit : card_state -> list Z -> response * card_state.

(** One step through a method: an exchange with its response named, or a
    branch taken. *)
Ltac exchange :=
  rewrite send_apdu_transmit;
  match goal with
  | |- context [fst (transmit ?c ?a)] =>
    destruct (fst (transmit c a)) as [[? ?] ?]
  end.

Ltac branch :=
  match goal with
  | |- context [if ?c then _ else _] => destruct c eqn:?
  | |- context [match aid_in_record ?f ?d ?i with _ => _ end] =>
    destruct (aid_in_record f d i) as [[?|]|?]
  | |- context [match usim_aid ?s with _ => _ end] =>
    destruct (usim_aid s) as [[|? ?]|] eqn:?
  end.

Ltac run_method :=
  repeat first [ progress cbn [bind ret io_monad res_monad lift set_is_usim
                               set_usim_aid get_usim_aid usim_aid is_usim
                               exchanged moved card sent iccid]
               | exchange | branch ].

(** When [select_usim] returns [True], the reader is marked as a USIM
    and remembers a non-empty application identifier, and the last command
    but for a GET RESPONSE is the selection of the application by that
    identifier. When it returns [False], the mark is as it was. *)
Theorem select_usim_result (s s' : session card_state) (r : bool) :
  select_usim transmit s = (Ok r, s') ->
  (r = true ->
   is_usim s' = true
   /\ exists (aid : list Z) (log more : list (list Z)),
        usim_aid s' = Some aid /\ aid <> []
        /\ sent s' = log ++ ([0; 164; 4; 4; len aid] ++ aid) :: more
        /\ (more = [] \/ exists le, more = [[0; 192; 0; 0; le]]))
  /\ (r = false -> is_usim s' = is_usim s).
Proof.
  unfold select_usim, select_file_gsm, continue_61.
  run_method.
  all: intros H; inversion H; subst; clear H.
  all: cbn [usim_aid is_usim exchanged moved card sent iccid].
  all: (split; [intros Hr; try discriminate Hr | intros Hr; try discriminate Hr; try reflexivity]).
  all: try (split; [reflexivity|]).
  all: try (eexists _, _, _; split; [reflexivity|]; split; [discriminate|]).
  all: try (split; [reflexivity | left; reflexivity]).
  all: try (split; [rewrite <- app_assoc; reflexivity | right; eexists; reflexivity]).
  all: congruence.
Qed.

End UsimSelection.

Lemma select_usim_result_witness :
  is_usim (snd (select_usim
                  (stateless (fun apdu => if ins apdu =? 164 then ([], 144, 0)
                                          else ([], 106, 131)))
                  fresh)) = true.
Proof.
  exact (proj1 (proj1 (@select_usim_result unit
                         (stateless (fun apdu => if ins apdu =? 164 then ([], 144, 0)
                                                 else ([], 106, 131)))
                         fresh _ true eq_refl) eq_refl)).
Defined.

(* ================================================================== *)
(** ** The record geometry *)

(** The selection response of a USIM starts with the tag 0x62 of its
    control template. The scan for the file descriptor steps over that
    template as a whole: for every response that starts with 0x62 and a
    length that reaches the end of the response less two bytes, so for every
    well-formed one, the descriptor inside is not read and the geometry is
    the default, 34 bytes and 250 records. *)
Theorem contacts_geometry_skips_template (l : Z) (body : list Z) :
  0 <= l -> len body - 2 <= l ->
  contacts_geometry true (98 :: l :: body) = Ok (34, 250).
Proof.
  intros Hl Hbody. unfold contacts_geometry. cbn [andb truthy List.length fcp_scan].
  destruct (0 <? len (98 :: l :: body) - 2); [|reflexivity].
  rewrite index_head. cbn [bind ret res_monad].
  change (98 =? 130) with false. change (in_list 98 fcp_skipped_tags) with true.
  cbv iota. rewrite index_second. cbn [bind ret res_monad].
  destruct (0 + 1 + (l + 1) <? len (98 :: l :: body) - 2) eqn:E;
    [rewrite !len_cons in E; lia | reflexivity].
Qed.

(** A USIM selection response that starts with a file descriptor (tag
    0x82) announcing three bytes or more, and that ends one or two bytes
    after the length byte, makes the geometry raise [IndexError]: the bytes
    of the descriptor are read without a test of the length. *)
Theorem contacts_geometry_truncated (fd_len : Z) (rest : list Z) :
  3 <= fd_len -> 1 <= len rest <= 2 ->
  contacts_geometry true (130 :: fd_len :: rest) = Raise IndexError.
Proof.
  intros Hfd Hrest. unfold contacts_geometry. cbn [andb truthy List.length fcp_scan].
  destruct (0 <? len (130 :: fd_len :: rest) - 2) eqn:E;
    [|rewrite !len_cons in E; lia].
  rewrite index_head. cbn [bind ret res_monad]. change (130 =? 130) with true.
  cbv iota. rewrite index_second. cbn [bind ret res_monad].
  destruct (fd_len >=? 3) eqn:E3; [|lia].
  destruct rest as [|a [|b [|c rest]]]; cbn in Hrest; try lia.
  - reflexivity.
  - reflexivity.
Qed.

(** Under class A0 the geometry of the contacts and of the other
    dialling-number files returns on every response of bytes, without a
    division by zero, and gives a record length that fits the length byte of
    READ RECORD and a record count of at most 65535. *)
Theorem gsm_geometry_bounds (default_count : Z) (data : list Z) :
  Forall byte data -> 0 <= default_count < 65536 ->
  (exists record_len num_records,
     contacts_geometry false data = Ok (record_len, num_records)
     /\ 0 <= record_len < 256 /\ 0 <= num_records < 65536)
  /\ (exists record_len num_records,
        dialling_geometry default_count data = Ok (record_len, num_records)
        /\ 0 <= record_len < 256 /\ 0 <= num_records < 65536).
Proof.
  intros Hd Hc. rewrite Forall_forall in Hd. unfold byte in Hd.
  assert (Hdiv : forall hi lo n, 0 <= hi < 256 -> 0 <= lo < 256 -> 0 < n ->
                                 0 <= Z.lor (Z.shiftl hi 8) lo / n < 65536).
  { intros hi lo n Hhi Hlo Hn. rewrite lor_shiftl_8 by lia.
    split; [apply Z.div_pos; lia|].
    apply Z.div_lt_upper_bound; [lia|]. nia. }
  split.
  - unfold contacts_geometry. cbn [andb].
    destruct (truthy data && (len data >? 14)) eqn:E;
      [|exists 34, 250; split; [reflexivity | lia]].
    apply andb_prop in E. destruct E as [_ E].
    index_step record_len. index_step hi. index_step lo.
    eexists _, _. split; [reflexivity|].
    split; [apply Hd; assumption|].
    destruct (record_len >? 0) eqn:E0; [|lia].
    apply Hdiv; [apply Hd; assumption | apply Hd; assumption | lia].
  - unfold dialling_geometry.
    destruct (len data >? 14) eqn:E.
    + index_step record_len.
      destruct ((len data >? 3) && (record_len >? 0)) eqn:E0.
      * index_step hi. index_step lo. eexists _, _. split; [reflexivity|].
        split; [apply Hd; assumption|].
        apply Hdiv; [apply Hd; assumption | apply Hd; assumption | lia].
      * cbn [bind ret res_monad]. eexists _, _. split; [reflexivity|].
        split; [apply Hd; assumption | lia].
    + cbn [bind ret res_monad].
      destruct ((len data >? 3) && (34 >? 0)) eqn:E0.
      * index_step hi. index_step lo. eexists _, _. split; [reflexivity|].
        split; [lia|].
        apply Hdiv; [apply Hd; assumption | apply Hd; assumption | lia].
      * cbn [bind ret res_monad]. eexists _, _. split; [reflexivity|]. lia.
Qed.

Lemma contacts_geometry_skips_template_witness :
  contacts_geometry true [98; 7; 130; 5; 66; 33; 0; 28; 10] = Ok (34, 250).
Proof.
  apply (@contacts_geometry_skips_template 7 [130; 5; 66; 33; 0; 28; 10]);
    cbn; lia.
Defined.

Lemma contacts_geometry_truncated_witness :
  contacts_geometry true [130; 5; 66] = Raise IndexError.
Proof. apply (@contacts_geometry_truncated 5 [66]); cbn; lia. Defined.

Lemma gsm_geometry_bounds_witness :
  exists record_len num_records,
    dialling_geometry 10 [0; 0; 0; 40; 111; 59; 4; 0; 0; 0; 0; 0; 0; 0; 4]
    = Ok (record_len, num_records)
    /\ 0 <= record_len < 256 /\ 0 <= num_records < 65536.
Proof.
  refine (proj2 (@gsm_geometry_bounds 10
                   [0; 0; 0; 40; 111; 59; 4; 0; 0; 0; 0; 0; 0; 0; 4] _ _)).
  - repeat (apply Forall_cons; [unfold byte; lia|]). apply Forall_nil.
  - lia.
Defined.

(* ================================================================== *)
(** ** The blocks of the fixed, service and last-dialled numbers *)

Lemma aid_in_template_returns (data : list Z) :
  Forall byte data ->
  forall (fuel : nat) (i end_ : Z),
    0 <= i -> exists found, aid_in_template fuel data i end_ = Ok found.
Proof.
  intros Hd. rewrite Forall_forall in Hd. unfold byte in Hd.
  induction fuel as [|fuel IH]; intros i end_ Hi; cbn [aid_in_template].
  - cbn. eauto.
  - destruct ((i <? end_) && (i <? len data - 2)) eqn:E; [|cbn; eauto].
    apply andb_prop in E. destruct E as [_ E].
    index_step tag. index_step tlv_len.
    destruct (tag =? 79); [cbn; eauto|].
    apply IH. specialize (Hd _ Hin0). lia.
Qed.

Lemma aid_in_record_returns (data : list Z) :
  Forall byte data ->
  forall (fuel : nat) (i : Z),
    0 <= i -> exists found, aid_in_record fuel data i = Ok found.
Proof.
  intros Hd. induction fuel as [|fuel IH]; intros i Hi; cbn [aid_in_record].
  - cbn. eauto.
  - destruct (i <? len data - 2) eqn:E; [|cbn; eauto].
    index_step b. destruct (b =? 97); [|apply IH; lia].
    index_step template_len. apply (aid_in_template_returns Hd). lia.
Qed.

Section DiallingBlocks.

Variable card_state : Type.
Variable transmit : card_state -> list Z -> response * card_state.
Variable utf8_decode : list Z -> pystr.
Variable utf16_be_decode : list Z -> pystr.
Variable strip : pystr -> pystr.

(** The card answers bytes. *)
Hypothesis card_bytes :
  forall (c : card_state) (apdu : list Z),
    Forall byte (fst (fst (fst (transmit c apdu)))).

Lemma returns_bind_send {B} (apdu : list Z) (k : response -> io card_state B) :
  (forall data sw1 sw2, Forall byte data -> returns (k (data, sw1, sw2))) ->
  returns (bind (send_apdu transmit apdu) k).
Proof.
  intros Hk s. cbn [bind io_monad]. rewrite send_apdu_transmit.
  pose proof (card_bytes (card s) apdu) as Hb.
  destruct (fst (transmit (card s) apdu)) as [[data sw1] sw2].
  apply Hk. exact Hb.
Qed.

Lemma returns_continue_61 (r : response) : returns (continue_61 transmit r).
Proof.
  destruct r as [[data sw1] sw2]. unfold continue_61.
  destruct (sw1 =? 97); [apply returns_send | apply returns_ret].
Qed.

Lemma returns_select_file_usim (file_id : Z) :
  returns (select_file_usim transmit file_id).
Proof.
  unfold select_file_usim. apply returns_bind; [apply returns_send|].
  intros [[data sw1] sw2]. destruct (sw1 =? 97); [|apply returns_ret].
  apply returns_bind; [apply returns_send|].
  intros [[data' sw1'] sw2']. apply returns_ret.
Qed.

Lemma returns_select_usim : returns (select_usim transmit).
Proof.
  unfold select_usim.
  apply returns_bind; [apply returns_select_file_gsm|]. intros _.
  apply returns_bind; [apply returns_send|]. intros r.
  apply returns_bind; [apply returns_continue_61|].
  intros [[data sw1] sw2]. destruct (negb (sw1 =? 144)).
  - apply returns_bind; [apply returns_send|]. intros r1.
    apply returns_bind; [apply returns_continue_61|].
    intros [[data1 sw11] sw21]. destruct (sw11 =? 144); [|apply returns_ret].
    apply returns_bind; [intros s; eexists _, _; reflexivity|]. intros _.
    apply returns_bind; [intros s; eexists _, _; reflexivity|]. intros _.
    apply returns_ret.
  - apply returns_bind_send. intros data1 sw11 sw21 Hb. cbv beta iota.
    apply returns_bind.
    { destruct ((sw11 =? 144) && truthy data1); [|apply returns_ret].
      apply returns_bind;
        [apply returns_lift, (aid_in_record_returns Hb); lia|].
      intros [aid|]; [intros s0; eexists _, _; reflexivity | apply returns_ret]. }
    intros _.
    apply returns_bind; [intros s0; eexists _, _; reflexivity|]. intros known.
    apply returns_bind.
    { destruct known as [[|b aid]|]; intros s0; eexists _, _; reflexivity. }
    intros _.
    apply returns_bind; [intros s0; eexists _, _; reflexivity|]. intros known'.
    apply returns_bind; [apply returns_send|]. intros r2.
    apply returns_bind; [apply returns_continue_61|].
    intros [[data2 sw12] sw22]. destruct (sw12 =? 144); [|apply returns_ret].
    apply returns_bind; [intros s0; eexists _, _; reflexivity|]. intros _.
    apply returns_ret.
Qed.

Lemma returns_select_record_file (file_id : Z) :
  returns (select_record_file transmit file_id).
Proof.
  unfold select_record_file.
  apply returns_bind; [apply returns_select_in_df_gsm|].
  intros [[data sw1] sw2].
  destruct (negb (in_list sw1 [144; 159; 145])); [|apply returns_ret].
  apply returns_bind; [apply returns_select_usim|].
  intros [|]; [|apply returns_ret].
  apply returns_bind; [apply returns_select_file_usim|].
  intros r. apply returns_ret.
Qed.

Lemma dialling_geometry_returns (default_count : Z) (data : list Z) :
  exists geometry, dialling_geometry default_count data = Ok geometry.
Proof.
  unfold dialling_geometry.
  assert (Hn : forall record_len,
             exists geometry,
               (num_records <-
                  (if (len data >? 3) && (record_len >? 0) then
                     hi <- data.[2] ;; lo <- data.[3] ;;
                     ret (Z.lor (Z.shiftl hi 8) lo / record_len)
                   else ret default_count) ;;
                ret (record_len, num_records)) = Ok geometry).
  { intros record_len.
    destruct ((len data >? 3) && (record_len >? 0)) eqn:E.
    - index_step hi. index_step lo. eauto.
    - cbn. eauto. }
  destruct (len data >? 14) eqn:E.
  - index_step record_len. apply Hn.
  - cbn [bind ret res_monad]. apply Hn.
Qed.

Lemma returns_entries_loop
  (number_only use_usim : bool) (record_len : Z) (recs : list Z) :
  returns (entries_loop transmit utf8_decode utf16_be_decode strip
                        number_only use_usim record_len recs).
Proof.
  induction recs as [|rec rest IH]; cbn [entries_loop].
  - apply returns_ret.
  - apply returns_bind; [apply returns_read_record|].
    intros [[data sw1] sw2].
    destruct ((sw1 =? 144) && truthy data).
    + destruct (all_ff data); [exact IH|].
      apply returns_bind.
      { apply returns_lift.
        destruct (decode_entry_returns utf8_decode utf16_be_decode strip
                    record_len data) as (alpha & number & ->). eauto. }
      intros [alpha number].
      destruct (if number_only then truthy_str number
                else truthy_str alpha || truthy_str number); [|exact IH].
      apply returns_bind; [exact IH|]. intros tail. apply returns_ret.
    + destruct ((sw1 =? 106) && (sw2 =? 131)); [apply returns_ret | exact IH].
Qed.

(** When the card answers bytes, the blocks of the fixed, the service
    and the last-dialled numbers return: the selection, with its fallback to
    the USIM application, the geometry and the record loop with its decoders
    raise nothing, whatever the status bytes and the contents. *)
Theorem read_dialling_returns (s : session card_state) :
  (exists entries s',
     read_fdn transmit utf8_decode utf16_be_decode strip s = (Ok entries, s'))
  /\ (exists entries s',
        read_sdn transmit utf8_decode utf16_be_decode strip s = (Ok entries, s'))
  /\ (exists entries s',
        read_lnd transmit utf8_decode utf16_be_decode strip s = (Ok entries, s')).
Proof.
  assert (H : forall file_id ceiling default_count number_only,
             returns (read_dialling transmit utf8_decode utf16_be_decode strip
                                    file_id ceiling default_count number_only)).
  { intros file_id ceiling default_count number_only. unfold read_dialling.
    apply returns_bind; [apply returns_select_record_file|].
    intros [[[data sw1] sw2] use_usim].
    destruct (in_list sw1 [144; 159; 145; 97]); [|apply returns_ret].
    apply returns_bind; [apply returns_lift, dialling_geometry_returns|].
    intros [record_len num_records]. apply returns_entries_loop. }
  split; [|split]; apply H.
Qed.

End DiallingBlocks.

Lemma read_dialling_returns_witness :
  exists entries s',
    read_lnd (stateless (fun _ => ([], 106, 131))) raw_bytes raw_bytes raw_bytes fresh
    = (Ok entries, s').
Proof.
  refine (proj2 (proj2 (@read_dialling_returns unit
                          (stateless (fun _ => ([], 106, 131)))
                          raw_bytes raw_bytes raw_bytes _ fresh))).
  intros c apdu. apply Forall_nil.
Defined.

(* ================================================================== *)
(** ** The choice of the reader *)

